(** * AI PDF presentation generator: a shallow embedding of [ppt_gen_2.py]

    The development follows the layout of the Python module: data models,
    [DocumentProcessor], [AIContentGenerator], [EnhancedPDFGenerator] and the
    part of [main] that chains them.  Library calls (Gemini, [json.loads],
    [requests], reportlab, PyPDF2, python-docx, pandas, the clock) are the
    fields of a [World]; everything the module itself computes is defined
    here as an executable function.

    Conventions.  A Python [str] is a list of code points.  A method that
    can raise returns in the monad [M], which threads the recorded steps
    and the temporary files and keeps what happened before a raise.  The
    reportlab flowables are data.  Building a [Spacer] or a [PageBreak]
    is taken to succeed; whether [Paragraph] reads its text, whether
    [Image] returns and what [doc.build] makes of a story are answered by
    the world, and so is the [print] of a failed download.  [Image] keeps
    the name of its file, and [doc.build] raises when that file is no
    longer on disk.  Display-only calls of the user interface
    ([st.success], [st.spinner], ...) are not recorded. *)

From Stdlib Require Import String Ascii.
From Stdlib Require Import List ZArith NArith Bool Arith Lia.
From Stdlib Require Import Floats.SpecFloat.
Import ListNotations.

Set Implicit Arguments.
Open Scope string_scope.
Open Scope list_scope.

(** ** Python strings *)

(** A Python [str] is a sequence of Unicode code points. *)
Definition char := N.
Definition str := list char.

(** The code points of an ASCII literal. *)
Definition lit (x : string) : str :=
  map N_of_ascii (list_ascii_of_string x).

Definition dquote : char := 34%N.
Definition newline : char := 10%N.

(** [qjoin [a; b; c]] is the literal [a"b"c]: the pieces of a source literal
    that contains double quotes, joined by the quote character. *)
Fixpoint qjoin (parts : list string) : str :=
  match parts with
  | [] => []
  | [x] => lit x
  | x :: rest => lit x ++ dquote :: qjoin rest
  end.

(** One line of a multi-line literal, with its end of line. *)
Definition ln (parts : list string) : str := qjoin parts ++ [newline].

Fixpoint str_eqb (a b : str) : bool :=
  match a, b with
  | [], [] => true
  | x :: a', y :: b' => N.eqb x y && str_eqb a' b'
  | _, _ => false
  end.

(** [t.startswith(sub)] *)
Fixpoint startswith (t sub : str) {struct sub} : bool :=
  match sub, t with
  | [], _ => true
  | x :: sub', y :: t' => N.eqb x y && startswith t' sub'
  | _ :: _, [] => false
  end.

(** [t.find(sub)], counted from offset [i]: the lowest index at which [sub]
    occurs, [-1] when it does not occur. *)
Fixpoint find_from (t sub : str) (i : Z) : Z :=
  if startswith t sub then i
  else match t with
       | [] => (-1)%Z
       | _ :: t' => find_from t' sub (i + 1)
       end.

Definition find (t sub : str) : Z := find_from t sub 0.

(** [t.rfind(sub)], counted from offset [i]: the highest index at which
    [sub] occurs, [-1] when it does not occur. *)
Fixpoint rfind_from (t sub : str) (i : Z) : Z :=
  match t with
  | [] => if startswith [] sub then i else (-1)%Z
  | _ :: t' =>
      let r := rfind_from t' sub (i + 1) in
      if (0 <=? r)%Z then r
      else if startswith t sub then i else (-1)%Z
  end.

Definition rfind (t sub : str) : Z := rfind_from t sub 0.

(** [sub in t] *)
Definition contains (t sub : str) : bool := (0 <=? find t sub)%Z.

(** Python slicing [t[a:b]] with integer bounds: a negative bound counts
    from the end, and both bounds are clamped to the sequence. *)
Definition clamp_index (len i : Z) : Z :=
  if (i <? 0)%Z then Z.max 0 (i + len) else Z.min i len.

Definition slice {A : Type} (t : list A) (a b : Z) : list A :=
  let len := Z.of_nat (length t) in
  let a' := clamp_index len a in
  let b' := clamp_index len b in
  firstn (Z.to_nat (b' - a')) (skipn (Z.to_nat a') t).

(** [str.isspace] on one code point (CPython's [_PyUnicode_IsWhitespace]). *)
Definition isspace (c : char) : bool :=
  ((9 <=? c) && (c <=? 13) || (28 <=? c) && (c <=? 32)
   || (c =? 133) || (c =? 160) || (c =? 5760)
   || (8192 <=? c) && (c <=? 8202)
   || (c =? 8232) || (c =? 8233) || (c =? 8239) || (c =? 8287)
   || (c =? 12288))%N.

Fixpoint lstrip (t : str) : str :=
  match t with
  | c :: t' => if isspace c then lstrip t' else t
  | [] => []
  end.

Definition rstrip (t : str) : str := rev (lstrip (rev t)).

(** [t.strip()] *)
Definition strip (t : str) : str := rstrip (lstrip t).

(** ** Python values

    The values [json.loads] can return; the fields of a [SlideContent] hold
    such values, since a dataclass does not check its annotations. *)
#[warnings="-register-all"]
Inductive pyval : Type :=
| PNone
| PBool (b : bool)
| PInt (z : Z)
| PFloat (f : spec_float)
| PStr (s : str)
| PList (l : list pyval)
| PDict (d : list (str * pyval)).

(** Truth value of an object in a condition. *)
Definition truthy (v : pyval) : bool :=
  match v with
  | PNone => false
  | PBool b => b
  | PInt z => negb (z =? 0)%Z
  | PFloat (S754_zero _) => false
  | PFloat _ => true
  | PStr s => negb (Nat.eqb (length s) 0)
  | PList l => negb (Nat.eqb (length l) 0)
  | PDict d => negb (Nat.eqb (length d) 0)
  end.

(** Exceptions; every one of them is an [Exception]. *)
Inductive exn : Type :=
| TypeError
| AttributeError
| KeyError
| IndexError
| ValueError
| UnicodeEncodeError
| LibraryError.   (* raised inside a library call *)

(** [d.get(key, default)] on a dict held as an association list in
    insertion order. *)
Fixpoint dict_get (d : list (str * pyval)) (key : str) (default : pyval) : pyval :=
  match d with
  | [] => default
  | (k, v) :: d' => if str_eqb k key then v else dict_get d' key default
  end.

(** [v.get(key, default)]: only a dict has the method. *)
Definition py_get (v : pyval) (key : str) (default : pyval) : exn + pyval :=
  match v with
  | PDict d => inr (dict_get d key default)
  | _ => inl AttributeError
  end.

(** The items a [for] loop over [v] visits: the elements of a list, the
    characters of a string, the keys of a dict. *)
Definition py_iter (v : pyval) : exn + list pyval :=
  match v with
  | PList l => inr l
  | PStr s => inr (map (fun c => PStr [c]) s)
  | PDict d => inr (map (fun kv => PStr (fst kv)) d)
  | _ => inl TypeError
  end.

(** [v[0]] *)
Definition py_index0 (v : pyval) : exn + pyval :=
  match v with
  | PList (x :: _) => inr x
  | PList [] => inl IndexError
  | PStr (c :: _) => inr (PStr [c])
  | PStr [] => inl IndexError
  | PDict _ => inl KeyError        (* the keys of these dicts are strings *)
  | _ => inl TypeError
  end.

(** [v[:n]]; on a dict it raises ([TypeError] before Python 3.12,
    [KeyError] since). *)
Definition py_slice_to (v : pyval) (n : Z) : exn + pyval :=
  match v with
  | PList l => inr (PList (slice l 0 n))
  | PStr s => inr (PStr (slice s 0 n))
  | PDict _ => inl KeyError
  | _ => inl TypeError
  end.

(** ** Data models *)

Record SlideContent : Type := mkSlideContent {
  title : pyval;
  bullet_points : pyval;
  additional_info : pyval;
  image_urls : pyval;
  reference_urls : pyval
}.

(** The dataclass constructor followed by [__post_init__]. *)
Definition SlideContent_init (title bullet_points additional_info
                              image_urls reference_urls : pyval) : SlideContent :=
  {| title := title;
     bullet_points := bullet_points;
     additional_info := additional_info;
     image_urls := match image_urls with PNone => PList [] | v => v end;
     reference_urls := match reference_urls with PNone => PList [] | v => v end |}.

(** A point in time, as seconds since the epoch. *)
Definition datetime := Z.

Record PresentationData : Type := mkPresentationData {
  slides : list SlideContent;
  topic : str;
  generated_at : datetime
}.

(** An uploaded file: its declared MIME type and its bytes. *)
Record UploadedFile : Type := mkUploadedFile {
  file_type : str;
  file_bytes : list N
}.

(** ** Effects

    The module talks to the user ([st.error]), to the console ([print]), to
    the Gemini service, to web servers and to the file system.  Each such
    step is recorded in a chronological trace; temporary files are tracked
    in [files]. *)

(** A temporary file, by its (unique) name. *)
Definition path := nat.

Inductive event : Type :=
| StError (msg : str) (exc : option exn)  (* st.error(msg + str(exc)) *)
| ConsolePrint (msg : str) (url : pyval) (exc : exn)
| GenaiConfigure (key : str)
| GeminiCall (prompt : str)
| HttpGet (url : pyval)
| TempFileCreated (p : path)
| ImageOpened (p : path) (ok : bool)      (* Image(p, ...) built or raised *)
| Unlinked (p : path).

Record state : Type := mkState {
  trace : list event;
  files : list path
}.

(** Computations that may raise; what happened before a raise stays. *)
Definition M (A : Type) : Type := state -> (exn + A) * state.

Definition ret {A : Type} (a : A) : M A := fun st => (inr a, st).

Definition raise {A : Type} (e : exn) : M A := fun st => (inl e, st).

Definition bind {A B : Type} (m : M A) (k : A -> M B) : M B :=
  fun st =>
    match m st with
    | (inr a, st') => k a st'
    | (inl e, st') => (inl e, st')
    end.

(** [try: m  except Exception as e: h e] (and the bare [except:]). *)
Definition try_except {A : Type} (m : M A) (h : exn -> M A) : M A :=
  fun st =>
    match m st with
    | (inl e, st') => h e st'
    | (inr a, st') => (inr a, st')
    end.

Definition lift {A : Type} (r : exn + A) : M A := fun st => (r, st).

(** The state after one more recorded step. *)
Definition log (e : event) (st : state) : state :=
  {| trace := trace st ++ [e]; files := files st |}.

Definition emit (e : event) : M unit := fun st => (inr tt, log e st).

(** The number of steps taken so far: the instant handed to the world. *)
Definition instant : M nat := fun st => (inr (length (trace st)), st).

Declare Scope py_scope.
Delimit Scope py_scope with py.
Notation "x <- m ;; k" := (bind m (fun x => k))
  (at level 61, m at next level, right associativity) : py_scope.
Notation "m ;; k" := (bind m (fun _ => k))
  (at level 61, right associativity) : py_scope.
Local Open Scope py_scope.

(** A [for] loop that builds a list, one element per item. *)
Fixpoint for_each {A B : Type} (body : A -> M B) (items : list A) : M (list B) :=
  match items with
  | [] => ret []
  | x :: rest =>
      y <- body x ;;
      ys <- for_each body rest ;;
      ret (y :: ys)
  end.

Definition st_error (msg : str) : M unit := emit (StError msg None).

Definition st_error_exc (msg : str) (e : exn) : M unit := emit (StError msg (Some e)).

(** The flowables the module places in a story.  Heights and image sizes
    are in tenths of an inch ([1.5*inch] is [15]); the width of a [Spacer]
    is the number the source passes. *)
Inductive style : Type :=
| TitleSlide | SlideTitle | BulletPoint | AdditionalInfo | URLStyle.

Inductive flowable : Type :=
| Spacer (width height : Z)
| Paragraph (text : pyval) (sty : style)
| PageBreak
| Image (filename : path) (width height : Z).

(** The temporary files the images of a story refer to, in order. *)
Fixpoint image_files (story : list flowable) : list path :=
  match story with
  | [] => []
  | Image p _ _ :: rest => p :: image_files rest
  | _ :: rest => image_files rest
  end.

(** What downloading one image can do. *)
Inductive fetch_outcome : Type :=
| FetchFailed        (* the request raised before a temporary file existed *)
| FetchInterrupted   (* the temporary file exists, writing to it raised *)
| FetchDone.         (* the body is in the temporary file *)

(** ** The world: what the libraries answer

    A [nat] argument is the instant of the call, so that the same request
    can be answered differently at different times. *)
Record World : Type := mkWorld {
  generate_content : nat -> str -> option str;   (* [None]: the call raised *)
  json_loads : str -> option pyval;              (* [None]: decoding raised *)
  datetime_now : nat -> datetime;
  requests_get : nat -> pyval -> fetch_outcome;
  Image_opens : nat -> path -> bool;             (* [false]: [Image(p, ...)] raised *)
  PdfReader_pages : UploadedFile -> option (list str);
  Document_paragraphs : UploadedFile -> option (list str);
  decode_utf8 : list N -> option str;
  read_csv : UploadedFile -> option (nat * nat * list str * str);
  str_of_value : pyval -> str;                   (* [str(v)], [v] not a string *)
  strftime : datetime -> str;                    (* format ['%B %d, %Y'] *)
  doc_build : list flowable -> option (list N);  (* [None]: the build raised *)
  Paragraph_raises : pyval -> style -> option exn;
                                   (* [Some e]: [Paragraph(text, style)] raised [e] *)
  print_raises : pyval -> exn -> option exn
                                   (* [Some e]: [print] of a failed download raised [e] *)
}.

(** [sep.join(items)] *)
Fixpoint join (sep : str) (items : list str) : str :=
  match items with
  | [] => []
  | [x] => x
  | x :: rest => x ++ sep ++ join sep rest
  end.

(** [str(n)] for a non-negative integer. *)
Fixpoint uint_digits (d : Decimal.uint) : str :=
  match d with
  | Decimal.Nil => []
  | Decimal.D0 d' => 48%N :: uint_digits d'
  | Decimal.D1 d' => 49%N :: uint_digits d'
  | Decimal.D2 d' => 50%N :: uint_digits d'
  | Decimal.D3 d' => 51%N :: uint_digits d'
  | Decimal.D4 d' => 52%N :: uint_digits d'
  | Decimal.D5 d' => 53%N :: uint_digits d'
  | Decimal.D6 d' => 54%N :: uint_digits d'
  | Decimal.D7 d' => 55%N :: uint_digits d'
  | Decimal.D8 d' => 56%N :: uint_digits d'
  | Decimal.D9 d' => 57%N :: uint_digits d'
  end.

Definition str_of_nat (n : nat) : str := uint_digits (Nat.to_uint n).

(** [len(t) > n] on a string. *)
Definition len_gt (t : str) (n : Z) : bool := (Z.of_nat (length t) >? n)%Z.

Section Program.

Variable W : World.

(** [datetime.now()] *)
Definition now : M datetime :=
  t <- instant ;; ret (datetime_now W t).

(** ** Document processing module *)

Definition extract_text_from_pdf (file : UploadedFile) : M str :=
  try_except
    (match PdfReader_pages W file with
     | Some pages =>
         let text := fold_left (fun text page => text ++ page ++ [newline]) pages [] in
         ret (strip text)
     | None => raise LibraryError
     end)
    (fun e => st_error_exc (lit "Error reading PDF: ") e ;; ret []).

Definition extract_text_from_docx (file : UploadedFile) : M str :=
  try_except
    (match Document_paragraphs W file with
     | Some paragraphs =>
         let text := fold_left (fun text paragraph => text ++ paragraph ++ [newline])
                               paragraphs [] in
         ret (strip text)
     | None => raise LibraryError
     end)
    (fun e => st_error_exc (lit "Error reading DOCX: ") e ;; ret []).

Definition extract_text_from_txt (file : UploadedFile) : M str :=
  try_except
    (match decode_utf8 W (file_bytes file) with
     | Some text => ret text
     | None => raise LibraryError
     end)
    (fun e => st_error_exc (lit "Error reading TXT: ") e ;; ret []).

Definition extract_text_from_csv (file : UploadedFile) : M str :=
  try_except
    (match read_csv W file with
     | Some (rows, columns, names, described) =>
         let summary := lit "Dataset Summary:" ++ [newline] in
         let summary := summary ++ lit "Shape: " ++ str_of_nat rows ++ lit " rows, "
                                ++ str_of_nat columns ++ lit " columns" ++ [newline] in
         let summary := summary ++ lit "Columns: " ++ join (lit ", ") names
                                ++ [newline; newline] in
         let summary := summary ++ lit "Data Overview:" ++ [newline] in
         let summary := summary ++ described in
         ret summary
     | None => raise LibraryError
     end)
    (fun e => st_error_exc (lit "Error reading CSV: ") e ;; ret []).

Definition process_uploaded_file (uploaded_file : option UploadedFile) : M str :=
  match uploaded_file with
  | None => ret []
  | Some file =>
      let file_type := file_type file in
      if str_eqb file_type (lit "application/pdf") then
        extract_text_from_pdf file
      else if str_eqb file_type
                (lit "application/vnd.openxmlformats-officedocument.wordprocessingml.document") then
        extract_text_from_docx file
      else if str_eqb file_type (lit "text/plain") then
        extract_text_from_txt file
      else if str_eqb file_type (lit "text/csv") then
        extract_text_from_csv file
      else
        st_error (lit "Unsupported file type: " ++ file_type) ;;
        ret []
  end.

(** ** AI content generation module *)

Record AIContentGenerator : Type := mkAIContentGenerator {
  api_key : str
}.

(** [AIContentGenerator(api_key)] *)
Definition AIContentGenerator_init (api_key : str) : M AIContentGenerator :=
  (if truthy (PStr api_key) then emit (GenaiConfigure api_key) else ret tt) ;;
  ret {| api_key := api_key |}.

Definition base_prompt : str := concat [
    ln ["You are an intelligent assistant that helps generate professional PDF presentations with rich content."];
    ln [EmptyString];
    ln ["Your task is to generate comprehensive presentation-ready slide content with additional information, relevant image suggestions, and reference URLs."];
    ln [EmptyString];
    ln ["Instructions:"];
    ln ["1. Create 6-10 slides including title, introduction, content slides, and conclusion"];
    ln ["2. Each slide should have a clear title and 3-6 concise bullet points"];
    ln ["3. Include additional_info with detailed explanations, statistics, or examples"];
    ln ["4. Suggest relevant image_urls (use placeholder URLs like https://via.placeholder.com/400x300/0066cc/ffffff?text=Topic+Image)"];
    ln ["5. Provide reference_urls with credible sources and further reading links"];
    ln ["6. Keep content professional, informative, and comprehensive"];
    ln [EmptyString];
    ln ["Output Format - Respond ONLY with valid JSON in this exact structure:"];
    ln ["```json"];
    ln ["{"];
    ln ["  "; "slides"; ": ["];
    ln ["    {"];
    ln ["      "; "title"; ": "; "Slide Title"; ","];
    ln ["      "; "bullet_points"; ": ["];
    ln ["        "; "First key point"; ","];
    ln ["        "; "Second important point"; ", "];
    ln ["        "; "Third valuable insight"; EmptyString];
    ln ["      ],"];
    ln ["      "; "additional_info"; ": "; "Detailed explanation, statistics, examples, or context that supports the main points. This should be informative and add value to the presentation."; ","];
    ln ["      "; "image_urls"; ": ["];
    ln ["        "; "https://via.placeholder.com/400x300/0066cc/ffffff?text=Relevant+Image1"; ","];
    ln ["        "; "https://via.placeholder.com/400x300/28a745/ffffff?text=Chart+or+Graph"; EmptyString];
    ln ["      ],"];
    ln ["      "; "reference_urls"; ": ["];
    ln ["        "; "https://example.com/relevant-article"; ","];
    ln ["        "; "https://research.example.com/study"; EmptyString];
    ln ["      ]"];
    ln ["    }"];
    ln ["  ]"];
    ln ["}"];
    ln ["```"]
  ].

(** The ellipsis appended to a truncated document. *)
Definition ellipsis : str := lit "...".

Definition create_presentation_prompt (topic document_content : str) : str :=
  if truthy (PStr document_content) then
    let content_preview :=
      if len_gt document_content 3000
      then slice document_content 0 3000 ++ ellipsis
      else document_content in
    base_prompt ++ [newline; newline] ++ lit "Document Content to Analyze:" ++ [newline]
      ++ content_preview ++ [newline; newline] ++ lit "Topic: " ++ topic
  else
    base_prompt ++ [newline; newline] ++ lit "Topic to Present: " ++ topic
      ++ [newline; newline]
      ++ lit "Generate comprehensive content based on your knowledge with relevant examples, statistics, and references.".

Definition fence_open : str := lit "```json".
Definition fence : str := lit "```".
Definition lbrace : char := 123%N.
Definition rbrace : char := 125%N.

(** Lines 199-203 of [generate_with_gemini]: the text between the first
    opening fence and the last fence, when there is one. *)
Definition strip_fence (response_text : str) : str :=
  if contains response_text fence_open then
    let json_start := (find response_text fence_open + 7)%Z in
    let json_end := rfind response_text fence in
    if (json_end >? json_start)%Z
    then strip (slice response_text json_start json_end)
    else response_text
  else response_text.

(** Lines 205-209 of [generate_with_gemini]: the text handed to
    [json.loads], if any. *)
Definition json_payload (response_text : str) : option str :=
  let json_start := find response_text [lbrace] in
  let json_end := (rfind response_text [rbrace] + 1)%Z in
  if (json_start >=? 0)%Z && (json_end >? json_start)%Z
  then Some (slice response_text json_start json_end)
  else None.

(** [model.generate_content(prompt).text] *)
Definition gemini_text (prompt : str) : M str :=
  t <- instant ;;
  emit (GeminiCall prompt) ;;
  match generate_content W t prompt with
  | Some text => ret text
  | None => raise LibraryError
  end.

(** [json.loads(json_str)] *)
Definition loads (json_str : str) : M pyval :=
  match json_loads W json_str with
  | Some v => ret v
  | None => raise LibraryError
  end.

Definition generate_with_gemini (prompt : str) : M pyval :=
  try_except
    (response <- gemini_text prompt ;;
     let response_text := strip response in
     let response_text := strip_fence response_text in
     match json_payload response_text with
     | Some json_str => loads json_str
     | None =>
         st_error (lit "Could not parse JSON from AI response") ;;
         ret PNone
     end)
    (fun e =>
       st_error_exc (lit "Error generating content with Gemini: ") e ;;
       ret PNone).

Definition _generate_fallback_content (topic : str) : M PresentationData :=
  let slides := [
    SlideContent_init
      (PStr topic)
      (PList [PStr (lit "AI-Generated Professional Presentation");
              PStr (lit "Comprehensive Analysis");
              PStr (lit "Data-Driven Insights")])
      (PStr (lit "This presentation has been automatically generated using advanced AI technology to provide comprehensive coverage of the topic with relevant insights and supporting information."))
      (PList [PStr (lit "https://via.placeholder.com/400x300/1f497d/ffffff?text=Title+Slide")])
      (PList [PStr (lit "https://example.com/ai-presentations")]);
    SlideContent_init
      (PStr (lit "Introduction & Overview"))
      (PList [PStr (lit "Comprehensive overview of " ++ topic);
              PStr (lit "Key concepts and fundamental principles");
              PStr (lit "Current relevance and importance");
              PStr (lit "Presentation structure and objectives")])
      (PStr (lit "This section provides the foundational understanding necessary to grasp the core concepts. We'll explore the historical context, current applications, and future implications of the topic."))
      (PList [PStr (lit "https://via.placeholder.com/400x300/28a745/ffffff?text=Overview")])
      (PList [PStr (lit "https://example.com/introduction");
              PStr (lit "https://example.com/overview")]);
    SlideContent_init
      (PStr (lit "Key Analysis & Findings"))
      (PList [PStr (lit "Primary research findings and data");
              PStr (lit "Statistical analysis and trends");
              PStr (lit "Critical insights and interpretations");
              PStr (lit "Practical applications and use cases")])
      (PStr (lit "Our analysis reveals significant patterns and trends that have important implications for understanding this topic. These findings are based on current research and real-world applications."))
      (PList [PStr (lit "https://via.placeholder.com/400x300/dc3545/ffffff?text=Data+Analysis")])
      (PList [PStr (lit "https://example.com/research");
              PStr (lit "https://example.com/data-analysis")]);
    SlideContent_init
      (PStr (lit "Conclusions & Next Steps"))
      (PList [PStr (lit "Summary of critical findings");
              PStr (lit "Key takeaways and insights");
              PStr (lit "Future considerations and opportunities");
              PStr (lit "Recommended actions and next steps")])
      (PStr (lit "Based on our comprehensive analysis, these conclusions provide a clear path forward. The recommendations are actionable and based on evidence-driven insights."))
      (PList [PStr (lit "https://via.placeholder.com/400x300/6f42c1/ffffff?text=Conclusions")])
      (PList [PStr (lit "https://example.com/conclusions");
              PStr (lit "https://example.com/future-research")])
  ] in
  generated_at <- now ;;
  ret {| slides := slides; topic := topic; generated_at := generated_at |}.

(** The body of the loop of [generate_presentation_content]. *)
Definition slide_of (slide_data : pyval) : M SlideContent :=
  title <- lift (py_get slide_data (lit "title") (PStr [])) ;;
  bullet_points <- lift (py_get slide_data (lit "bullet_points") (PList [])) ;;
  additional_info <- lift (py_get slide_data (lit "additional_info") (PStr [])) ;;
  image_urls <- lift (py_get slide_data (lit "image_urls") (PList [])) ;;
  reference_urls <- lift (py_get slide_data (lit "reference_urls") (PList [])) ;;
  ret (SlideContent_init title bullet_points additional_info image_urls reference_urls).

Definition generate_presentation_content (self : AIContentGenerator)
    (topic document_content : str) : M PresentationData :=
  if negb (truthy (PStr (api_key self))) then
    st_error (lit "Please provide a valid Gemini API key") ;;
    _generate_fallback_content topic
  else
    let prompt := create_presentation_prompt topic document_content in
    result <- generate_with_gemini prompt ;;
    if negb (truthy result) then
      _generate_fallback_content topic
    else
      try_except
        (slides_value <- lift (py_get result (lit "slides") (PList [])) ;;
         items <- lift (py_iter slides_value) ;;
         slides <- for_each slide_of items ;;
         generated_at <- now ;;
         ret {| slides := slides; topic := topic; generated_at := generated_at |})
        (fun e =>
           st_error_exc (lit "Error parsing AI response: ") e ;;
           _generate_fallback_content topic).

(** ** Enhanced PDF generation module *)

(** The value of [{v}] in an f-string. *)
Definition format_value (v : pyval) : str :=
  match v with
  | PStr s => s
  | _ => str_of_value W v
  end.

(** The bullet character of the list lines, followed by a space. *)
Definition bullet : str := [8226%N; 32%N].

(** [tempfile.NamedTemporaryFile(delete=False, suffix='.jpg')]: a file
    under a name no existing file has. *)
Definition fresh_name (existing : list path) : path := S (list_max existing).

Definition NamedTemporaryFile : M path :=
  fun st =>
    let p := fresh_name (files st) in
    (inr p, {| trace := trace st ++ [TempFileCreated p]; files := p :: files st |}).

(** [os.unlink(p)] *)
Definition unlink (p : path) : M unit :=
  fun st =>
    if existsb (Nat.eqb p) (files st)
    then (inr tt, {| trace := trace st ++ [Unlinked p];
                     files := filter (fun q => negb (Nat.eqb p q)) (files st) |})
    else (inl LibraryError, st).

(** [Image(p, width=w, height=h)] *)
Definition Image_new (p : path) (w h : Z) : M flowable :=
  t <- instant ;;
  let ok := Image_opens W t p in
  emit (ImageOpened p ok) ;;
  if ok then ret (Image p w h) else raise LibraryError.

(** [Paragraph(text, style)].  reportlab reads [text] as markup when the
    paragraph is made, and raises on a text it cannot read. *)
Definition Paragraph_new (text : pyval) (sty : style) : M flowable :=
  match Paragraph_raises W text sty with
  | None => ret (Paragraph text sty)
  | Some e => raise e
  end.

(** [print(f"Error downloading image {url}: {e}")] *)
Definition print_download_error (url : pyval) (e : exn) : M unit :=
  match print_raises W url e with
  | None => emit (ConsolePrint (lit "Error downloading image ") url e)
  | Some e' => raise e'
  end.

Definition download_image (url : pyval) : M (option path) :=
  try_except
    (t <- instant ;;
     emit (HttpGet url) ;;
     match requests_get W t url with
     | FetchFailed => raise LibraryError
     | FetchInterrupted => NamedTemporaryFile ;; raise LibraryError
     | FetchDone => tmp_file <- NamedTemporaryFile ;; ret (Some tmp_file)
     end)
    (fun e =>
       print_download_error url e ;;
       ret None).

(** A [for] loop that updates a local variable. *)
Fixpoint for_fold {A S : Type} (body : S -> A -> M S) (items : list A) (acc : S) : M S :=
  match items with
  | [] => ret acc
  | x :: rest => acc' <- body acc x ;; for_fold body rest acc'
  end.

(** Lines 444-452 of [_create_enhanced_title_slide]: the image of the
    title slide. *)
Definition title_slide_image (content : list flowable) (url : pyval)
  : M (list flowable) :=
  image_path <- download_image url ;;
  match image_path with
  | Some image_path =>
      (* an append made before a raise stays in [content] *)
      try_except
        (img <- Image_new image_path 30 20 ;;
         let content := content ++ [img] in
         try_except (unlink image_path ;; ret content) (fun _ => ret content))
        (fun _ => ret content)
  | None => ret content
  end.

Definition _create_enhanced_title_slide (slide_content : SlideContent)
    (presentation_data : PresentationData) : M (list flowable) :=
  let content := [] in
  let content := content ++ [Spacer 1 15] in
  title <- Paragraph_new (PStr (topic presentation_data)) TitleSlide ;;
  let content := content ++ [title] in
  let content := content ++ [Spacer 1 5] in
  content <-
    (if truthy (bullet_points slide_content) then
       points <- lift (py_iter (bullet_points slide_content)) ;;
       for_fold (fun content point =>
                   subtitle <- Paragraph_new (PStr (bullet ++ format_value point))
                                             BulletPoint ;;
                   ret (content ++ [subtitle]))
                points content
     else ret content) ;;
  let content := content ++ [Spacer 1 3] in
  content <-
    (if truthy (additional_info slide_content) then
       info_para <- Paragraph_new (additional_info slide_content) AdditionalInfo ;;
       ret (content ++ [info_para])
     else ret content) ;;
  let content := content ++ [Spacer 1 5] in
  content <-
    (if truthy (image_urls slide_content) then
       url <- lift (py_index0 (image_urls slide_content)) ;;
       title_slide_image content url
     else ret content) ;;
  let timestamp := lit "Generated: " ++ strftime W (generated_at presentation_data) in
  footer <- Paragraph_new (PStr timestamp) URLStyle ;;
  let content := content ++ [Spacer 1 3] in
  let content := content ++ [footer] in
  ret content.

(** The body of the image loop of [_create_enhanced_content_slide]. *)
Definition content_slide_image (content : list flowable) (img_url : pyval)
  : M (list flowable) :=
  image_path <- download_image img_url ;;
  match image_path with
  | Some image_path =>
      try_except
        (img <- Image_new image_path 25 18 ;;
         let content := content ++ [img] in
         let content := content ++ [Spacer 1 1] in
         try_except (unlink image_path ;; ret content) (fun _ => ret content))
        (fun _ => ret content)
  | None => ret content
  end.

Definition _create_enhanced_content_slide (slide_content : SlideContent)
    (slide_number : nat) : M (list flowable) :=
  let content := [] in
  let content := content ++ [Spacer 1 3] in
  title <- Paragraph_new (title slide_content) SlideTitle ;;
  let content := content ++ [title] in
  let content := content ++ [Spacer 1 2] in
  points <- lift (py_iter (bullet_points slide_content)) ;;
  content <-
    for_fold (fun content bullet_point =>
                let bullet_text := bullet ++ format_value bullet_point in
                bullet <- Paragraph_new (PStr bullet_text) BulletPoint ;;
                ret (content ++ [bullet]))
             points content ;;
  let content := content ++ [Spacer 1 2] in
  content <-
    (if truthy (additional_info slide_content) then
       info_para <-
         Paragraph_new (PStr (lit "<b>Additional Information:</b><br/>"
                                ++ format_value (additional_info slide_content)))
                       AdditionalInfo ;;
       let content := content ++ [info_para] in
       ret (content ++ [Spacer 1 2])
     else ret content) ;;
  content <-
    (if truthy (image_urls slide_content) then
       first_two <- lift (py_slice_to (image_urls slide_content) 2) ;;
       urls <- lift (py_iter first_two) ;;
       for_fold content_slide_image urls content
     else ret content) ;;
  content <-
    (if truthy (reference_urls slide_content) then
       let content := content ++ [Spacer 1 1] in
       ref_title <-
         Paragraph_new (PStr (lit "<b>References & Further Reading:</b>")) BulletPoint ;;
       let content := content ++ [ref_title] in
       urls <- lift (py_iter (reference_urls slide_content)) ;;
       for_fold (fun content url =>
                   url_para <- Paragraph_new (PStr (bullet ++ format_value url)) URLStyle ;;
                   ret (content ++ [url_para]))
                urls content
     else ret content) ;;
  ret content.

(** The loop of [create_presentation] over [enumerate(slides)], from index
    [i] on; [n] is [len(presentation_data.slides)]. *)
Fixpoint story_loop (presentation_data : PresentationData) (n : nat) (i : nat)
    (rest : list SlideContent) (story : list flowable) : M (list flowable) :=
  match rest with
  | [] => ret story
  | slide_content :: rest' =>
      content <-
        (if Nat.eqb i 0
         then _create_enhanced_title_slide slide_content presentation_data
         else _create_enhanced_content_slide slide_content i) ;;
      let story := story ++ content in
      let story :=
        if (Z.of_nat i <? Z.of_nat n - 1)%Z then story ++ [PageBreak] else story in
      story_loop presentation_data n (S i) rest' story
  end.

(** Lines 399-409 of [create_presentation]: the story handed to
    [doc.build]. *)
Definition create_presentation_story (presentation_data : PresentationData)
  : M (list flowable) :=
  story_loop presentation_data (length (slides presentation_data)) 0
             (slides presentation_data) [].

(** [doc.build(story)].  [Image(p, ...)] keeps the name of the file, not
    its bytes: reportlab opens the file when the page is drawn, so the
    build raises when a file of the story is no longer on disk.  What the
    build makes of a story whose files are there is the library's. *)
Definition SimpleDocTemplate_build (story : list flowable) : M (list N) :=
  fun st =>
    if forallb (fun p => existsb (Nat.eqb p) (files st)) (image_files story)
    then match doc_build W story with
         | Some pdf => (inr pdf, st)
         | None => (inl LibraryError, st)
         end
    else (inl LibraryError, st).

Definition create_presentation (presentation_data : PresentationData) : M (list N) :=
  story <- create_presentation_story presentation_data ;;
  SimpleDocTemplate_build story.

(** ** The application: from the inputs to the presentation *)

Inductive input_method : Type := TopicOnly | UploadDocument.

(** Lines 549-570 of [main]: the document text that goes with the topic. *)
Definition main_document_content (method : input_method)
    (uploaded_file : option UploadedFile) : M str :=
  match method with
  | TopicOnly => ret []
  | UploadDocument =>
      match uploaded_file with
      | Some file => process_uploaded_file (Some file)
      | None => ret []
      end
  end.

(** Lines 549-578 of [main], once the button is pressed. *)
Definition main_generate (ai_generator : AIContentGenerator) (method : input_method)
    (topic : str) (uploaded_file : option UploadedFile) : M PresentationData :=
  document_content <- main_document_content method uploaded_file ;;
  generate_presentation_content ai_generator topic document_content.

End Program.

(** ** Vocabulary of the statements *)

(** What one call of the backend came to. *)
Inductive backend_outcome : Type :=
| CallRaised                 (* the Gemini call raised *)
| NoPayload                  (* the response holds no [{ ... }] *)
| DecodeFailed               (* [json.loads] raised on the payload *)
| Decoded (v : pyval).       (* the payload decoded to [v] *)

Definition outcome_of (W : World) (prompt : str) (t : nat) : backend_outcome :=
  match generate_content W t prompt with
  | None => CallRaised
  | Some text =>
      match json_payload (strip_fence (strip text)) with
      | None => NoPayload
      | Some json_str =>
          match json_loads W json_str with
          | None => DecodeFailed
          | Some v => Decoded v
          end
      end
  end.

(** The MIME types [process_uploaded_file] knows: PDF, Word-processor
    document, plain text, CSV. *)
Definition supported_types : list str :=
  [lit "application/pdf";
   lit "application/vnd.openxmlformats-officedocument.wordprocessingml.document";
   lit "text/plain";
   lit "text/csv"].

(** The steps recorded between state [st] and the later state [st']. *)
Definition new_events (st st' : state) : list event :=
  skipn (length (trace st)) (trace st').

(** [key in d] *)
Definition has_key (d : list (str * pyval)) (key : str) : bool :=
  existsb (fun kv => str_eqb (fst kv) key) d.

(** [p] is the fallback presentation for [topic0], generated in state [st]. *)
Definition is_fallback (W : World) (topic0 : str) (p : PresentationData)
    (st : state) : Prop :=
  _generate_fallback_content W topic0 st = (inr p, st).

(** A slide with descriptive text, one placeholder image address and at
    least one placeholder reference address. *)
Definition carries_placeholders (s : SlideContent) : Prop :=
  (exists text, additional_info s = PStr text /\ text <> []) /\
  (exists url, image_urls s = PList [PStr url] /\
               startswith url (lit "https://via.placeholder.com/") = true) /\
  (exists url more, reference_urls s = PList (PStr url :: more) /\
                    startswith url (lit "https://example.com/") = true).

(** *** Presentations of the data model *)

Definition is_str (v : pyval) : bool :=
  match v with PStr _ => true | _ => false end.

Definition is_str_list (v : pyval) : bool :=
  match v with PList l => forallb is_str l | _ => false end.

(** The fields of the slide have the types the dataclass declares. *)
Definition well_typed_slide (s : SlideContent) : bool :=
  is_str (title s) && is_str_list (bullet_points s) && is_str (additional_info s)
  && is_str_list (image_urls s) && is_str_list (reference_urls s).

Definition well_typed (p : PresentationData) : bool :=
  forallb well_typed_slide (slides p).

(** The items of a list value. *)
Definition items_of (v : pyval) : list pyval :=
  match v with PList l => l | _ => [] end.

(** The same slide with no image addresses. *)
Definition without_images (s : SlideContent) : SlideContent :=
  {| title := title s;
     bullet_points := bullet_points s;
     additional_info := additional_info s;
     image_urls := PList [];
     reference_urls := reference_urls s |}.

(** *** Stories *)

Definition is_page_break (f : flowable) : bool :=
  match f with PageBreak => true | _ => false end.

Definition page_breaks (story : list flowable) : nat :=
  length (filter is_page_break story).

(** Pages separated by page breaks: one break between two consecutive
    pages, none after the last. *)
Fixpoint join_pages (pages : list (list flowable)) : list flowable :=
  match pages with
  | [] => []
  | [page] => page
  | page :: rest => page ++ PageBreak :: join_pages rest
  end.

(** The text [t] occurs in a paragraph of the story. *)
Definition text_appears (t : str) (story : list flowable) : bool :=
  existsb (fun f => match f with
                    | Paragraph (PStr s) _ => contains s t
                    | _ => false
                    end) story.

(** *** Image attempts

    What fetching and embedding one image comes to, with the steps it
    records and the temporary file it leaves behind. *)
Inductive attempt : Type :=
| Refused (url : pyval)                  (* the request raised *)
| Interrupted (url : pyval) (p : path)   (* the download broke off *)
| Rejected (url : pyval) (p : path)      (* downloaded, [Image] raised *)
| Embedded (url : pyval) (p : path).     (* downloaded, [Image] returned *)

Definition attempt_url (a : attempt) : pyval :=
  match a with
  | Refused url | Interrupted url _ | Rejected url _ | Embedded url _ => url
  end.

Definition attempt_events (a : attempt) : list event :=
  match a with
  | Refused url =>
      [HttpGet url; ConsolePrint (lit "Error downloading image ") url LibraryError]
  | Interrupted url p =>
      [HttpGet url; TempFileCreated p;
       ConsolePrint (lit "Error downloading image ") url LibraryError]
  | Rejected url p => [HttpGet url; TempFileCreated p; ImageOpened p false]
  | Embedded url p => [HttpGet url; TempFileCreated p; ImageOpened p true; Unlinked p]
  end.

(** The temporary file the attempt leaves on disk. *)
Definition attempt_leak (a : attempt) : list path :=
  match a with
  | Interrupted _ p | Rejected _ p => [p]
  | Refused _ | Embedded _ _ => []
  end.

Definition after (st : state) (a : attempt) : state :=
  {| trace := trace st ++ attempt_events a; files := attempt_leak a ++ files st |}.

(** The attempt the world's answers lead to, for [url] in state [st]. *)
Definition attempt_at (W : World) (st : state) (url : pyval) : attempt :=
  let t := length (trace st) in
  let p := fresh_name (files st) in
  match requests_get W t url with
  | FetchFailed => Refused url
  | FetchInterrupted => Interrupted url p
  | FetchDone => if Image_opens W (t + 2) p then Embedded url p else Rejected url p
  end.

Fixpoint run_attempts (W : World) (st : state) (urls : list pyval)
  : list attempt * state :=
  match urls with
  | [] => ([], st)
  | url :: rest =>
      let a := attempt_at W st url in
      let (l, st') := run_attempts W (after st a) rest in
      (a :: l, st')
  end.

(** The flowables an attempt adds to the title slide and to a content
    slide. *)
Definition title_image (a : attempt) : list flowable :=
  match a with Embedded _ p => [Image p 30 20] | _ => [] end.

Definition content_image (a : attempt) : list flowable :=
  match a with Embedded _ p => [Image p 25 18; Spacer 1 1] | _ => [] end.

(** The image addresses slide number [i] asks for: the first one on the
    title slide, the first two on a content slide. *)
Definition slide_requests (i : nat) (s : SlideContent) : list pyval :=
  firstn (if Nat.eqb i 0 then 1 else 2) (items_of (image_urls s)).

Fixpoint requests_from (i : nat) (slides : list SlideContent) : list pyval :=
  match slides with
  | [] => []
  | s :: rest => slide_requests i s ++ requests_from (S i) rest
  end.

(** The addresses requested, in order. *)
Fixpoint http_gets (evs : list event) : list pyval :=
  match evs with
  | [] => []
  | HttpGet url :: rest => url :: http_gets rest
  | _ :: rest => http_gets rest
  end.

Definition is_st_error (e : event) : bool :=
  match e with StError _ _ => true | _ => false end.

(** Every successful [Image(p)] is followed at once by the removal of [p],
    and no failed one is. *)
Fixpoint unlink_follows_embed (evs : list event) : bool :=
  match evs with
  | [] => true
  | ImageOpened p ok :: rest =>
      match rest with
      | Unlinked q :: _ => ok && Nat.eqb p q
      | _ => negb ok
      end && unlink_follows_embed rest
  | _ :: rest => unlink_follows_embed rest
  end.

(** *** The parts of a slide around its images *)

Definition bullet_lines (W : World) (sty : style) (items : list pyval) : list flowable :=
  map (fun v => Paragraph (PStr (bullet ++ format_value W v)) sty) items.

Definition title_slide_head (W : World) (s : SlideContent) (pd : PresentationData)
  : list flowable :=
  [Spacer 1 15; Paragraph (PStr (topic pd)) TitleSlide; Spacer 1 5]
    ++ bullet_lines W BulletPoint (items_of (bullet_points s))
    ++ [Spacer 1 3]
    ++ (if truthy (additional_info s)
        then [Paragraph (additional_info s) AdditionalInfo] else [])
    ++ [Spacer 1 5].

Definition title_slide_foot (W : World) (pd : PresentationData) : list flowable :=
  [Spacer 1 3;
   Paragraph (PStr (lit "Generated: " ++ strftime W (generated_at pd))) URLStyle].

Definition content_slide_head (W : World) (s : SlideContent) : list flowable :=
  [Spacer 1 3; Paragraph (title s) SlideTitle; Spacer 1 2]
    ++ bullet_lines W BulletPoint (items_of (bullet_points s))
    ++ [Spacer 1 2]
    ++ (if truthy (additional_info s)
        then [Paragraph (PStr (lit "<b>Additional Information:</b><br/>"
                                 ++ format_value W (additional_info s)))
                        AdditionalInfo;
              Spacer 1 2]
        else []).

Definition content_slide_foot (W : World) (s : SlideContent) : list flowable :=
  if truthy (reference_urls s)
  then [Spacer 1 1;
        Paragraph (PStr (lit "<b>References & Further Reading:</b>")) BulletPoint]
         ++ bullet_lines W URLStyle (items_of (reference_urls s))
  else [].

(** The page of slide number [i], given the image attempts made for it. *)
Definition slide_page (W : World) (pd : PresentationData) (i : nat) (s : SlideContent)
    (attempts : list attempt) : list flowable :=
  if Nat.eqb i 0
  then title_slide_head W s pd ++ flat_map title_image attempts ++ title_slide_foot W pd
  else content_slide_head W s ++ flat_map content_image attempts ++ content_slide_foot W s.

(** The pages of the slides from number [i] on, and the state they lead to. *)
Fixpoint pages_from (W : World) (pd : PresentationData) (i : nat)
    (slides : list SlideContent) (st : state) : list (list flowable) * state :=
  match slides with
  | [] => ([], st)
  | s :: rest =>
      let r := run_attempts W st (slide_requests i s) in
      let (pages, st') := pages_from W pd (S i) rest (snd r) in
      (slide_page W pd i s (fst r) :: pages, st')
  end.

(** The temporary files of the attempts that ended with [Image] returning:
    those the story refers to. *)
Definition embedded_files (attempts : list attempt) : list path :=
  flat_map (fun a => match a with Embedded _ p => [p] | _ => [] end) attempts.

(** An image, or the gap a content slide leaves after one. *)
Definition is_image_or_gap (f : flowable) : bool :=
  match f with
  | Image _ _ _ => true
  | Spacer 1 1 => true
  | _ => false
  end.

(** The same presentation with no image addresses on any slide. *)
Definition presentation_without_images (pd : PresentationData) : PresentationData :=
  {| slides := map without_images (slides pd);
     topic := topic pd;
     generated_at := generated_at pd |}.

(** *** What the libraries accept *)

(** [Paragraph] does not raise on the text of this paragraph. *)
Definition accepted (W : World) (f : flowable) : bool :=
  match f with
  | Paragraph text sty =>
      match Paragraph_raises W text sty with None => true | Some _ => false end
  | _ => true
  end.

(** Every paragraph of the page of slide number [i] is accepted. *)
Definition page_accepted (W : World) (pd : PresentationData) (i : nat)
    (s : SlideContent) : bool :=
  forallb (accepted W) (slide_page W pd i s []).

Fixpoint pages_accepted (W : World) (pd : PresentationData) (i : nat)
    (slides : list SlideContent) : bool :=
  match slides with
  | [] => true
  | s :: rest => page_accepted W pd i s && pages_accepted W pd (S i) rest
  end.

Definition paragraphs_accepted (W : World) (pd : PresentationData) : bool :=
  pages_accepted W pd 0 (slides pd).

(** [print] does not raise on the message of a failed download of [url]. *)
Definition printable (W : World) (url : pyval) : bool :=
  match print_raises W url LibraryError with None => true | Some _ => false end.

(** A download that goes through, or whose failure can be printed. *)
Definition settles (W : World) (url : pyval) (st : state) : Prop :=
  requests_get W (length (trace st)) url = FetchDone \/ printable W url = true.

(** The failure of every address the presentation asks for can be printed. *)
Definition addresses_printable (W : World) (pd : PresentationData) : bool :=
  forallb (printable W) (requests_from 0 (slides pd)).

(** ** Sample states and worlds *)

(** A sample of reportlab's markup reader: it takes text without a tag and
    the two headings the module writes itself, and raises on every other
    text with a tag and on a value that is not a string. *)
Definition plain (s : str) : bool := negb (existsb (N.eqb 60%N) s).

Definition sample_markup (s : str) : bool :=
  plain s
  || str_eqb s (lit "<b>References & Further Reading:</b>")
  || (startswith s (lit "<b>Additional Information:</b><br/>") && plain (skipn 35 s)).

Definition sample_paragraph (text : pyval) (sty : style) : option exn :=
  match text with
  | PStr s => if sample_markup s then None else Some ValueError
  | _ => Some AttributeError
  end.

(** A sample console in UTF-8: [print] raises on an address that holds a
    surrogate code point. *)
Definition is_surrogate (c : char) : bool := (55296 <=? c)%N && (c <=? 57343)%N.

Definition sample_print (url : pyval) (e : exn) : option exn :=
  match url with
  | PStr s => if existsb is_surrogate s then Some UnicodeEncodeError else None
  | _ => None
  end.

Definition initial : state := {| trace := []; files := [] |}.

(** No service answers: the Gemini call raises, every download fails, no
    document can be read. *)
Definition offline : World := {|
  generate_content := fun _ _ => None;
  json_loads := fun _ => None;
  datetime_now := fun _ => 0%Z;
  requests_get := fun _ _ => FetchFailed;
  Image_opens := fun _ _ => false;
  PdfReader_pages := fun _ => None;
  Document_paragraphs := fun _ => None;
  decode_utf8 := fun _ => None;
  read_csv := fun _ => None;
  str_of_value := fun _ => [];
  strftime := fun _ => lit "January 01, 1970";
  doc_build := fun _ => Some [];
  Paragraph_raises := sample_paragraph;
  print_raises := sample_print
|}.

(** Gemini answers [text], whose payload [payload] decodes to [decoded];
    images are fetched according to [fetch] and open according to [opens]. *)
Definition answering (text payload : str) (decoded : pyval)
    (fetch : nat -> pyval -> fetch_outcome) (opens : nat -> path -> bool) : World := {|
  generate_content := fun _ _ => Some text;
  json_loads := fun j => if str_eqb j payload then Some decoded else None;
  datetime_now := fun _ => 0%Z;
  requests_get := fetch;
  Image_opens := opens;
  PdfReader_pages := fun _ => None;
  Document_paragraphs := fun _ => None;
  decode_utf8 := fun _ => None;
  read_csv := fun _ => None;
  str_of_value := fun _ => [];
  strftime := fun _ => lit "January 01, 1970";
  doc_build := fun _ => Some [];
  Paragraph_raises := sample_paragraph;
  print_raises := sample_print
|}.

(** A reply with prose around the object [{"a": 1}], and a reply with no
    object at all. *)
Definition prose_reply : str := qjoin ["Here you go: {"; "a"; ": 1} Enjoy!"].
Definition refusal_reply : str := lit "I cannot help with that.".

(** A reply whose fence is opened and never closed. *)
Definition unclosed_reply : str := lit "```json {}".

(** A world in which Gemini answers with the object [{"a": 1}], which has
    no [slides] entry. *)
Definition no_slides_world : World :=
  answering prose_reply (qjoin ["{"; "a"; ": 1}"]) (PDict [(lit "a", PInt 1)])
            (fun _ _ => FetchFailed) (fun _ _ => false).

Definition keyed : AIContentGenerator := {| api_key := lit "secret" |}.
Definition keyless : AIContentGenerator := {| api_key := [] |}.

(** A world in which every address but [https://img.example/c] can be
    downloaded, and [Image] returns for every file, as reportlab's does: it
    reads the file when the document is built. *)
Definition flaky : World :=
  answering [] [] PNone
    (fun _ url =>
       match url with
       | PStr u => if str_eqb u (lit "https://img.example/c") then FetchFailed else FetchDone
       | _ => FetchFailed
       end)
    (fun _ _ => true).

(** A one-slide presentation whose slide is titled otherwise than its
    topic. *)
Definition welcome_deck : PresentationData :=
  {| slides := [SlideContent_init (PStr (lit "Welcome")) (PList [PStr (lit "Agenda")])
                                  (PStr []) (PList []) (PList [])];
     topic := lit "Energy";
     generated_at := 0%Z |}.

(** A two-slide presentation with one image on the title slide and three
    on the content slide. *)
Definition costs_slide : SlideContent :=
  SlideContent_init (PStr (lit "Costs")) (PList [PStr (lit "Capital"); PStr (lit "Upkeep")])
                    (PStr (lit "Figures for 2024."))
                    (PList [PStr (lit "https://img.example/b");
                            PStr (lit "https://img.example/c");
                            PStr (lit "https://img.example/d")])
                    (PList [PStr (lit "https://example.com/costs")]).

Definition energy_deck : PresentationData :=
  {| slides := [SlideContent_init (PStr (lit "Energy")) (PList [PStr (lit "Overview")])
                                  (PStr []) (PList [PStr (lit "https://img.example/a")])
                                  (PList []);
                costs_slide];
     topic := lit "Energy";
     generated_at := 0%Z |}.

(** A presentation whose topic has unbalanced markup, one whose second
    slide has such a title, and an address with a lone surrogate. *)
Definition tagged_topic_deck : PresentationData :=
  {| slides := slides welcome_deck;
     topic := lit "AT&T <i>vs</b>";
     generated_at := 0%Z |}.

Definition tagged_slide : SlideContent :=
  SlideContent_init (PStr (lit "Costs <b>2024")) (PList [PStr (lit "Capital")])
                    (PStr []) (PList []) (PList []).

Definition tagged_title_deck : PresentationData :=
  {| slides := slides welcome_deck ++ [tagged_slide];
     topic := lit "Energy";
     generated_at := 0%Z |}.

Definition surrogate_url : pyval := PStr (lit "https://img.example/" ++ [55357%N]).

(** ** The rest of the application *)

(** [t.replace(old, new)] for one-character [old] and [new]. *)
Definition str_replace_char (t : str) (old new : char) : str :=
  map (fun c => if N.eqb c old then new else c) t.

Definition space : char := 32%N.
Definition underscore : char := 95%N.

(** The [file_name] of the download button (line 630). *)
Definition download_name (presentation_data : PresentationData) : str :=
  str_replace_char (topic presentation_data) space underscore ++ lit "_enhanced.pdf".

(** Lines 624-637 of [main], once "Generate PDF File" is pressed: the data
    and the name offered for download, if any. *)
Definition main_pdf_download (W : World) (presentation_data : PresentationData)
  : M (option (list N * str)) :=
  try_except
    (pdf_buffer <- create_presentation W presentation_data ;;
     ret (Some (pdf_buffer, download_name presentation_data)))
    (fun e =>
       st_error_exc (lit "Error generating PDF: ") e ;;
       ret None).

(** ** More vocabulary *)

(** A text with no whitespace at either end. *)
Definition is_trimmed (t : str) : bool :=
  match t with
  | [] => true
  | c :: _ => negb (isspace c) && negb (isspace (last t c))
  end.

Definition is_blank (t : str) : bool := forallb isspace t.

Definition backtick : char := 96%N.

(** The slide built from a decoded slide object. *)
Definition slide_defaults (d : list (str * pyval)) : SlideContent :=
  SlideContent_init (dict_get d (lit "title") (PStr []))
                    (dict_get d (lit "bullet_points") (PList []))
                    (dict_get d (lit "additional_info") (PStr []))
                    (dict_get d (lit "image_urls") (PList []))
                    (dict_get d (lit "reference_urls") (PList [])).

Definition is_dict (v : pyval) : bool :=
  match v with PDict _ => true | _ => false end.

Definition style_eqb (a b : style) : bool :=
  match a, b with
  | TitleSlide, TitleSlide | SlideTitle, SlideTitle | BulletPoint, BulletPoint
  | AdditionalInfo, AdditionalInfo | URLStyle, URLStyle => true
  | _, _ => false
  end.

(** The texts of the paragraphs of one style, in order. *)
Fixpoint paragraphs_in (sty : style) (page : list flowable) : list pyval :=
  match page with
  | [] => []
  | Paragraph text sty' :: rest =>
      if style_eqb sty sty' then text :: paragraphs_in sty rest
      else paragraphs_in sty rest
  | _ :: rest => paragraphs_in sty rest
  end.

(** The lines of a bulleted list, as texts. *)
Definition bulleted (W : World) (items : list pyval) : list pyval :=
  map (fun v => PStr (bullet ++ format_value W v)) items.

(** The parts, each followed by an end of line. *)
Definition lines_of (parts : list str) : str :=
  flat_map (fun part => part ++ [newline]) parts.

Definition mime_pdf : str := lit "application/pdf".
Definition mime_docx : str :=
  lit "application/vnd.openxmlformats-officedocument.wordprocessingml.document".
Definition mime_txt : str := lit "text/plain".
Definition mime_csv : str := lit "text/csv".

(** A world whose document libraries read two pages (or paragraphs) and a
    table of two rows and two columns; nothing else answers. *)
Definition reading (pages : list str) : World := {|
  generate_content := fun _ _ => None;
  json_loads := fun _ => None;
  datetime_now := fun _ => 0%Z;
  requests_get := fun _ _ => FetchFailed;
  Image_opens := fun _ _ => false;
  PdfReader_pages := fun _ => Some pages;
  Document_paragraphs := fun _ => Some pages;
  decode_utf8 := fun _ => None;
  read_csv := fun _ => Some (2, 2, [lit "year"; lit "cost"], lit "(statistics)");
  str_of_value := fun _ => [];
  strftime := fun _ => lit "January 01, 1970";
  doc_build := fun _ => Some [];
  Paragraph_raises := sample_paragraph;
  print_raises := sample_print
|}.

Definition pdf_file : UploadedFile := {| file_type := mime_pdf; file_bytes := [] |}.
Definition csv_file : UploadedFile := {| file_type := mime_csv; file_bytes := [] |}.

(** A reply with commentary (and braces) around a fenced object, and a
    world that decodes the object to a one-slide presentation. *)
Definition fenced_reply : str :=
  qjoin ["Here {it} is: ```json {"; "slides"; ": [{}]} ``` {done}"].

Definition one_slide_object : pyval :=
  PDict [(lit "slides", PList [PDict []])].

Definition fenced_world : World :=
  answering fenced_reply (qjoin ["{"; "slides"; ": [{}]}"]) one_slide_object
            (fun _ _ => FetchFailed) (fun _ _ => false).

(** A decoded object whose second slide is a number, and one whose second
    slide has a null list of bullet points. *)
Definition broken_object : pyval :=
  PDict [(lit "slides", PList [PDict [(lit "title", PStr (lit "Fine"))]; PInt 7])].

Definition broken_world : World :=
  answering (lit "{}") (lit "{}") broken_object (fun _ _ => FetchFailed) (fun _ _ => false).



(** No image or reference list of the slide is [None]. *)
Definition lists_are_set (s : SlideContent) : Prop :=
  image_urls s <> PNone /\ reference_urls s <> PNone.

(** A world whose text decoder reads every file as two blanks. *)
Definition blank_text_world : World := {|
  generate_content := fun _ _ => None;
  json_loads := fun _ => None;
  datetime_now := fun _ => 0%Z;
  requests_get := fun _ _ => FetchFailed;
  Image_opens := fun _ _ => false;
  PdfReader_pages := fun _ => None;
  Document_paragraphs := fun _ => None;
  decode_utf8 := fun _ => Some (lit "  ");
  read_csv := fun _ => None;
  str_of_value := fun _ => [];
  strftime := fun _ => lit "January 01, 1970";
  doc_build := fun _ => Some [];
  Paragraph_raises := sample_paragraph;
  print_raises := sample_print
|}.

Definition txt_file : UploadedFile := {| file_type := mime_txt; file_bytes := [32; 32]%N |}.

(** * Properties *)

(** ** The model on concrete inputs *)

Example find_finds_the_first : find (lit "ab```json{x}```") fence_open = 2%Z.
Proof. reflexivity. Qed.

Example rfind_finds_the_last : rfind (lit "ab```json{x}```") fence = 12%Z.
Proof. reflexivity. Qed.

Example find_reports_absence : find (lit "abc") (lit "z") = (-1)%Z.
Proof. reflexivity. Qed.

Example slice_counts_from_the_end : slice (lit "abcdef") 2 (-1) = lit "cde".
Proof. reflexivity. Qed.

Example strip_trims_both_ends : strip (lit "  a b  ") = lit "a b".
Proof. reflexivity. Qed.

(** A fenced response: the text between the fences is kept. *)
Example fenced_response :
  strip_fence (strip (qjoin ["Sure! ```json {"; "slides"; ": []} ``` Bye."]))
  = qjoin ["{"; "slides"; ": []}"].
Proof. reflexivity. Qed.

(** A bare response with prose before and after the object. *)
Example bare_response :
  json_payload (strip_fence (strip prose_reply)) = Some (qjoin ["{"; "a"; ": 1}"]).
Proof. reflexivity. Qed.

(** Braces in the wrong order give no payload. *)
Example closing_before_opening : json_payload (lit "} {") = None.
Proof. reflexivity. Qed.

(** An empty response leads to the fallback. *)
Example empty_response_falls_back :
  exists p st',
    generate_presentation_content
      (answering [] [] PNone (fun _ _ => FetchFailed) (fun _ _ => false))
      keyed (lit "Renewable Energy") [] initial = (inr p, st') /\
    map title (slides p)
    = [PStr (lit "Renewable Energy"); PStr (lit "Introduction & Overview");
       PStr (lit "Key Analysis & Findings"); PStr (lit "Conclusions & Next Steps")].
Proof. eexists. eexists. split; vm_compute; reflexivity. Qed.

(** A decoded object with one slide that names only its title: the other
    fields take their defaults. *)
Example one_slide_response :
  exists p st',
    generate_presentation_content
      (answering (lit "{}") (lit "{}")
                 (PDict [(lit "slides", PList [PDict [(lit "title", PStr (lit "Only"))]])])
                 (fun _ _ => FetchFailed) (fun _ _ => false))
      keyed (lit "Topic") [] initial = (inr p, st') /\
    slides p = [{| title := PStr (lit "Only");
                   bullet_points := PList [];
                   additional_info := PStr [];
                   image_urls := PList [];
                   reference_urls := PList [] |}].
Proof. eexists. eexists. split; vm_compute; reflexivity. Qed.

(** The backend cannot be reached: the fallback is rendered with three
    page breaks and the topic on its title page. *)
Example unreachable_backend_end_to_end :
  exists p st1 story st2,
    generate_presentation_content offline keyed (lit "Renewable Energy") [] initial
    = (inr p, st1) /\
    create_presentation_story offline p st1 = (inr story, st2) /\
    page_breaks story = 3 /\
    text_appears (lit "Renewable Energy") story = true /\
    image_files story = [].
Proof.
  eexists. eexists. eexists. eexists.
  split; [vm_compute; reflexivity|]. split; [vm_compute; reflexivity|].
  repeat split; vm_compute; reflexivity.
Qed.

(** ** Strings *)

Lemma str_eqb_eq (a b : str) : str_eqb a b = true <-> a = b.
Proof.
  revert b; induction a as [|x a IH]; intros [|y b]; simpl; split; intro H;
    try reflexivity; try discriminate.
  - apply andb_true_iff in H as [Hx Hab].
    apply N.eqb_eq in Hx. apply IH in Hab. now subst.
  - injection H as -> ->. rewrite N.eqb_refl. now apply IH.
Qed.

Lemma clamp_index_inside (len i : Z) :
  (0 <= i <= len)%Z -> clamp_index len i = i.
Proof.
  intros H. unfold clamp_index.
  destruct (Z.ltb_spec i 0); lia.
Qed.

Lemma clamp_index_beyond (len i : Z) :
  (0 <= len <= i)%Z -> clamp_index len i = len.
Proof.
  intros H. unfold clamp_index.
  destruct (Z.ltb_spec i 0); lia.
Qed.

(** A slice with bounds inside the sequence is a [firstn] of a [skipn]. *)
Lemma slice_inside {A : Type} (t : list A) (a b : nat) :
  a <= b <= length t ->
  slice t (Z.of_nat a) (Z.of_nat b) = firstn (b - a) (skipn a t).
Proof.
  intros H. unfold slice.
  rewrite !clamp_index_inside by lia.
  f_equal; [lia | f_equal; lia].
Qed.

(** [t[:n]] keeps the first [n] items. *)
Lemma slice_prefix {A : Type} (t : list A) (n : nat) :
  slice t 0 (Z.of_nat n) = firstn n t.
Proof.
  unfold slice. rewrite (clamp_index_inside (len := Z.of_nat (length t)) (i := 0%Z)) by lia.
  simpl skipn. destruct (Nat.le_gt_cases n (length t)) as [Hle|Hgt].
  - rewrite clamp_index_inside by lia. f_equal. lia.
  - rewrite clamp_index_beyond by lia.
    rewrite Z.sub_0_r, Nat2Z.id.
    rewrite !firstn_all2; auto; lia.
Qed.

Lemma slice_middle {A : Type} (pre mid post : list A) :
  slice (pre ++ mid ++ post) (Z.of_nat (length pre))
        (Z.of_nat (length pre + length mid)) = mid.
Proof.
  rewrite slice_inside by (rewrite !length_app; lia).
  rewrite skipn_app, skipn_all, Nat.sub_diag. simpl.
  replace (length pre + length mid - length pre) with (length mid + 0) by lia.
  rewrite firstn_app_2. simpl. apply app_nil_r.
Qed.

(** *** Searching for one character *)

Lemma find_from_char_absent (t : str) (c : char) (i : Z) :
  ~ In c t -> find_from t [c] i = (-1)%Z.
Proof.
  revert i; induction t as [|y t IH]; intros i Hin; simpl; [reflexivity|].
  rewrite andb_true_r.
  destruct (N.eqb_spec c y) as [->|Hne].
  - exfalso. apply Hin. now left.
  - apply IH. intros H. apply Hin. now right.
Qed.

Lemma find_from_char_first (pre rest : str) (c : char) (i : Z) :
  ~ In c pre ->
  find_from (pre ++ c :: rest) [c] i = (i + Z.of_nat (length pre))%Z.
Proof.
  revert i; induction pre as [|y pre IH]; intros i Hin; simpl.
  - rewrite N.eqb_refl. simpl. lia.
  - rewrite andb_true_r.
    destruct (N.eqb_spec c y) as [->|Hne].
    + exfalso. apply Hin. now left.
    + rewrite IH; [lia|]. intros H. apply Hin. now right.
Qed.

Lemma rfind_from_char_absent (t : str) (c : char) (i : Z) :
  ~ In c t -> rfind_from t [c] i = (-1)%Z.
Proof.
  revert i; induction t as [|y t IH]; intros i Hin; simpl; [reflexivity|].
  rewrite IH by (intros H; apply Hin; now right). simpl.
  rewrite andb_true_r.
  destruct (N.eqb_spec c y) as [->|Hne]; [|reflexivity].
  exfalso. apply Hin. now left.
Qed.

Lemma rfind_from_char_last (pre post : str) (c : char) (i : Z) :
  (0 <= i)%Z -> ~ In c post ->
  rfind_from (pre ++ c :: post) [c] i = (i + Z.of_nat (length pre))%Z.
Proof.
  revert i; induction pre as [|y pre IH]; intros i Hi Hin.
  - simpl. rewrite rfind_from_char_absent by assumption. simpl.
    rewrite N.eqb_refl. simpl. lia.
  - cbn [app rfind_from length]. rewrite IH by (assumption || lia).
    destruct (Z.leb_spec 0 (i + 1 + Z.of_nat (length pre))); lia.
Qed.

Lemma first_occurrence (c : char) (t : str) :
  In c t -> exists pre rest, t = pre ++ c :: rest /\ ~ In c pre.
Proof.
  induction t as [|y t IH]; intros Hin; [destruct Hin|].
  destruct (N.eq_dec y c) as [->|Hne].
  - exists [], t. split; [reflexivity | intros []].
  - destruct Hin as [Heq|Hin]; [contradiction|].
    destruct (IH Hin) as (pre & rest & -> & Hpre).
    exists (y :: pre), rest. split; [reflexivity|].
    intros [H|H]; [contradiction | now apply Hpre].
Qed.

Lemma last_occurrence (c : char) (t : str) :
  In c t -> exists pre post, t = pre ++ c :: post /\ ~ In c post.
Proof.
  induction t as [|y t IH]; intros Hin; [destruct Hin|].
  destruct (in_dec N.eq_dec c t) as [Ht|Ht].
  - destruct (IH Ht) as (pre & post & -> & Hpost).
    exists (y :: pre), post. split; [reflexivity | assumption].
  - destruct Hin as [->|Hin]; [|contradiction].
    exists [], t. split; [reflexivity | assumption].
Qed.

(** ** The JSON payload of a response *)

Lemma lbrace_neq_rbrace : lbrace <> rbrace.
Proof. discriminate. Qed.

(** The payload is the text from the first opening brace to the last
    closing brace. *)
Lemma json_payload_found (pre mid post : str) :
  ~ In lbrace pre -> ~ In rbrace post ->
  json_payload (pre ++ lbrace :: mid ++ rbrace :: post)
  = Some (lbrace :: mid ++ [rbrace]).
Proof.
  intros Hpre Hpost. unfold json_payload, find, rfind.
  rewrite find_from_char_first by assumption.
  replace (pre ++ lbrace :: mid ++ rbrace :: post)
    with ((pre ++ lbrace :: mid) ++ rbrace :: post)
    by (rewrite <- app_assoc; reflexivity).
  rewrite rfind_from_char_last by (assumption || lia).
  rewrite length_app. cbn [length].
  destruct (Z.geb_spec (0 + Z.of_nat (length pre)) 0); [|lia].
  destruct (Z.gtb_spec (0 + Z.of_nat (length pre + S (length mid)) + 1)
                       (0 + Z.of_nat (length pre))); [|lia].
  cbn [andb]. f_equal.
  replace ((pre ++ lbrace :: mid) ++ rbrace :: post)
    with (pre ++ (lbrace :: mid ++ [rbrace]) ++ post)
    by (cbn [app]; rewrite <- !app_assoc; reflexivity).
  replace (0 + Z.of_nat (length pre + S (length mid)) + 1)%Z
    with (Z.of_nat (length pre + length (lbrace :: mid ++ [rbrace])))
    by (cbn [length]; rewrite length_app; cbn [length]; lia).
  rewrite Z.add_0_l. apply slice_middle.
Qed.

(** Without an opening brace before a closing brace there is no payload. *)
Lemma json_payload_missing (t : str) :
  (~ exists pre mid post, t = pre ++ lbrace :: mid ++ rbrace :: post) ->
  json_payload t = None.
Proof.
  intros Hno. unfold json_payload, find, rfind.
  destruct (in_dec N.eq_dec lbrace t) as [Hl|Hl].
  2:{ rewrite find_from_char_absent by assumption. reflexivity. }
  destruct (first_occurrence _ _ Hl) as (pre & rest & -> & Hpre).
  rewrite find_from_char_first by assumption.
  assert (Hrest : ~ In rbrace rest).
  { intros Hr. apply in_split in Hr as (mid & post & ->).
    apply Hno. now exists pre, mid, post. }
  destruct (in_dec N.eq_dec rbrace pre) as [Hr|Hr].
  - destruct (last_occurrence _ _ Hr) as (p1 & p2 & -> & Hp2).
    rewrite <- app_assoc. cbn [app].
    rewrite rfind_from_char_last; [|lia|].
    + rewrite length_app. cbn [length].
      destruct (Z.gtb_spec (0 + Z.of_nat (length p1) + 1)
                           (0 + Z.of_nat (length p1 + S (length p2)))); [lia|].
      now rewrite andb_false_r.
    + intros H. apply in_app_or in H as [H|[H|H]]; auto.
      now apply lbrace_neq_rbrace.
  - rewrite rfind_from_char_absent.
    + destruct (Z.gtb_spec (-1 + 1) (0 + Z.of_nat (length pre))); [lia|].
      now rewrite andb_false_r.
    + intros H. apply in_app_or in H as [H|[H|H]]; auto.
      now apply lbrace_neq_rbrace.
Qed.

(** ** Running computations *)

Lemma bind_lift_inl {A B : Type} (e : exn) (k : A -> M B) (st : state) :
  bind (lift (inl e)) k st = (inl e, st).
Proof. reflexivity. Qed.

Lemma bind_lift_inr {A B : Type} (a : A) (k : A -> M B) (st : state) :
  bind (lift (inr a)) k st = k a st.
Proof. reflexivity. Qed.

Lemma try_except_run {A : Type} (m : M A) (h : exn -> M A) (st st' : state)
    (r : exn + A) :
  m st = (r, st') ->
  try_except m h st = match r with inr a => (inr a, st') | inl e => h e st' end.
Proof. intros H. unfold try_except. rewrite H. destruct r; reflexivity. Qed.

Section Responses.

Variable W : World.

Lemma gemini_text_run (prompt : str) (st : state) :
  gemini_text W prompt st =
  (match generate_content W (length (trace st)) prompt with
   | Some text => inr text
   | None => inl LibraryError
   end, log (GeminiCall prompt) st).
Proof.
  unfold gemini_text, bind, instant, emit. simpl.
  destruct (generate_content W (length (trace st)) prompt); reflexivity.
Qed.

(** What [generate_with_gemini] does with the text of a response. *)
Lemma generate_with_gemini_text (prompt text : str) (st : state) :
  generate_content W (length (trace st)) prompt = Some text ->
  generate_with_gemini W prompt st =
  let st1 := log (GeminiCall prompt) st in
  match json_payload (strip_fence (strip text)) with
  | Some json_str =>
      match json_loads W json_str with
      | Some v => (inr v, st1)
      | None =>
          (inr PNone,
           log (StError (lit "Error generating content with Gemini: ") (Some LibraryError)) st1)
      end
  | None => (inr PNone, log (StError (lit "Could not parse JSON from AI response") None) st1)
  end.
Proof.
  intros Htext. unfold generate_with_gemini, try_except, bind at 1.
  rewrite gemini_text_run, Htext. cbv zeta.
  destruct (json_payload (strip_fence (strip text))) as [json_str|].
  - unfold loads. destruct (json_loads W json_str); reflexivity.
  - reflexivity.
Qed.

(** C3: the text handed to the decoder is exactly the part of the
    (fence-stripped, trimmed) response from its first opening brace to its
    last closing brace, both included; when no opening brace is followed by
    a closing brace, nothing is decoded and the operation reports the
    failure and returns [None]. *)
Theorem payload_is_first_to_last_brace (prompt text : str) (st : state) :
  generate_content W (length (trace st)) prompt = Some text ->
  let response_text := strip_fence (strip text) in
  let st1 := log (GeminiCall prompt) st in
  (forall pre mid post,
      response_text = pre ++ lbrace :: mid ++ rbrace :: post ->
      ~ In lbrace pre -> ~ In rbrace post ->
      json_payload response_text = Some (lbrace :: mid ++ [rbrace]) /\
      generate_with_gemini W prompt st =
        match json_loads W (lbrace :: mid ++ [rbrace]) with
        | Some v => (inr v, st1)
        | None =>
            (inr PNone,
             log (StError (lit "Error generating content with Gemini: ")
                          (Some LibraryError)) st1)
        end)
  /\
  ((~ exists pre mid post, response_text = pre ++ lbrace :: mid ++ rbrace :: post) ->
      json_payload response_text = None /\
      generate_with_gemini W prompt st =
        (inr PNone, log (StError (lit "Could not parse JSON from AI response") None) st1)).
Proof.
  intros Htext response_text st1. split.
  - intros pre mid post Hsplit Hpre Hpost.
    assert (Hp : json_payload response_text = Some (lbrace :: mid ++ [rbrace])).
    { rewrite Hsplit. now apply json_payload_found. }
    split; [exact Hp|].
    rewrite (generate_with_gemini_text _ _ Htext). cbv zeta.
    fold response_text. rewrite Hp. reflexivity.
  - intros Hno.
    assert (Hp : json_payload response_text = None)
      by now apply json_payload_missing.
    split; [exact Hp|].
    rewrite (generate_with_gemini_text _ _ Htext). cbv zeta.
    fold response_text. rewrite Hp. reflexivity.
Qed.

(** C10: when the trimmed response contains the opening fence and its last
    fence does not lie beyond the opening one, the fence step leaves the
    text as it is and the payload is cut from the whole trimmed response. *)
Theorem unclosed_fence_is_kept (prompt text : str) (st : state) :
  generate_content W (length (trace st)) prompt = Some text ->
  contains (strip text) fence_open = true ->
  (rfind (strip text) fence <= find (strip text) fence_open + 7)%Z ->
  strip_fence (strip text) = strip text /\
  generate_with_gemini W prompt st =
  let st1 := log (GeminiCall prompt) st in
  match json_payload (strip text) with
  | Some json_str =>
      match json_loads W json_str with
      | Some v => (inr v, st1)
      | None =>
          (inr PNone,
           log (StError (lit "Error generating content with Gemini: ") (Some LibraryError)) st1)
      end
  | None => (inr PNone, log (StError (lit "Could not parse JSON from AI response") None) st1)
  end.
Proof.
  intros Htext Hopen Hlast.
  assert (Hkeep : strip_fence (strip text) = strip text).
  { unfold strip_fence. rewrite Hopen.
    destruct (Z.gtb_spec (rfind (strip text) fence)
                         (find (strip text) fence_open + 7)); [lia | reflexivity]. }
  split; [exact Hkeep|].
  rewrite (generate_with_gemini_text _ _ Htext), Hkeep. reflexivity.
Qed.

End Responses.

Lemma not_in_by_computation (c : char) (t : str) :
  existsb (N.eqb c) t = false -> ~ In c t.
Proof.
  intros Hb Hin.
  assert (existsb (N.eqb c) t = true)
    by (apply existsb_exists; exists c; split; [assumption | apply N.eqb_refl]).
  congruence.
Qed.

(** A response with prose around its object, and a response with no
    object. *)
Lemma payload_is_first_to_last_brace_witness :
  let W := answering prose_reply (qjoin ["{"; "a"; ": 1}"]) (PDict [(lit "a", PInt 1)])
                     (fun _ _ => FetchFailed) (fun _ _ => false) in
  (generate_with_gemini W (lit "prompt") initial
   = (inr (PDict [(lit "a", PInt 1)]), log (GeminiCall (lit "prompt")) initial))
  /\
  (generate_with_gemini (answering refusal_reply [] PNone (fun _ _ => FetchFailed)
                                   (fun _ _ => false)) (lit "prompt") initial
   = (inr PNone,
      log (StError (lit "Could not parse JSON from AI response") None)
          (log (GeminiCall (lit "prompt")) initial))).
Proof.
  intros W. split.
  - destruct (payload_is_first_to_last_brace W (lit "prompt") (text := prose_reply)
                initial eq_refl) as [Hfound _].
    destruct (Hfound (lit "Here you go: ") (qjoin [EmptyString; "a"; ": 1"]) (lit " Enjoy!")
                eq_refl) as [_ Hrun].
    + apply not_in_by_computation. reflexivity.
    + apply not_in_by_computation. reflexivity.
    + exact Hrun.
  - destruct (payload_is_first_to_last_brace
                (answering refusal_reply [] PNone (fun _ _ => FetchFailed) (fun _ _ => false))
                (lit "prompt") (text := refusal_reply) initial eq_refl) as [_ Hmissing].
    apply Hmissing.
    intros (pre & mid & post & Hsplit).
    assert (Hin : In lbrace (strip_fence (strip refusal_reply)))
      by (rewrite Hsplit; apply in_elt).
    revert Hin. apply not_in_by_computation. reflexivity.
Defined.

(** A response that opens a fence and never closes it. *)
Lemma unclosed_fence_is_kept_witness :
  let W := answering unclosed_reply (lit "{}") (PDict [])
                     (fun _ _ => FetchFailed) (fun _ _ => false) in
  strip_fence (strip unclosed_reply) = strip unclosed_reply /\
  generate_with_gemini W (lit "prompt") initial
  = (inr (PDict []), log (GeminiCall (lit "prompt")) initial).
Proof.
  intros W.
  assert (Hlast : (rfind (strip unclosed_reply) fence
                   <= find (strip unclosed_reply) fence_open + 7)%Z)
    by (vm_compute; discriminate).
  exact (unclosed_fence_is_kept W (lit "prompt") (text := unclosed_reply) initial
           eq_refl eq_refl Hlast).
Defined.

(** ** The prompt builder *)

(** C4: the prompt is a function of the topic and the document text alone;
    a document longer than 3000 characters contributes exactly its first
    3000 characters followed by the ellipsis, a non-empty document of at
    most 3000 characters appears in full with nothing added, and without a
    document the prompt asks for the topic from general knowledge. *)
Theorem create_presentation_prompt_cases (topic document_content : str) :
  (forall topic' document_content',
      topic' = topic -> document_content' = document_content ->
      create_presentation_prompt topic' document_content'
      = create_presentation_prompt topic document_content)
  /\
  (3000 < length document_content ->
   length (firstn 3000 document_content) = 3000 /\
   create_presentation_prompt topic document_content
   = base_prompt ++ [newline; newline] ++ lit "Document Content to Analyze:" ++ [newline]
       ++ (firstn 3000 document_content ++ ellipsis)
       ++ [newline; newline] ++ lit "Topic: " ++ topic)
  /\
  (document_content <> [] -> length document_content <= 3000 ->
   create_presentation_prompt topic document_content
   = base_prompt ++ [newline; newline] ++ lit "Document Content to Analyze:" ++ [newline]
       ++ document_content ++ [newline; newline] ++ lit "Topic: " ++ topic)
  /\
  (document_content = [] ->
   create_presentation_prompt topic document_content
   = base_prompt ++ [newline; newline] ++ lit "Topic to Present: " ++ topic
       ++ [newline; newline]
       ++ lit "Generate comprehensive content based on your knowledge with relevant examples, statistics, and references.").
Proof.
  split; [|split; [|split]].
  - intros topic' document_content' -> ->. reflexivity.
  - intros Hlong. split; [apply firstn_length_le; lia|].
    unfold create_presentation_prompt, len_gt.
    destruct document_content as [|c rest]; [simpl in Hlong; lia|].
    cbn [truthy length Nat.eqb negb].
    destruct (Z.gtb_spec (Z.of_nat (S (length rest))) 3000); [|simpl in Hlong; lia].
    change 3000%Z with (Z.of_nat 3000). rewrite slice_prefix. reflexivity.
  - intros Hne Hlen. unfold create_presentation_prompt, len_gt.
    destruct document_content as [|c rest]; [congruence|].
    cbn [truthy length Nat.eqb negb].
    destruct (Z.gtb_spec (Z.of_nat (S (length rest))) 3000); [simpl in Hlen; lia|].
    reflexivity.
  - intros ->. reflexivity.
Qed.

(** The three cases on a document of 3001 characters, a short one and none. *)
Lemma create_presentation_prompt_cases_witness :
  let long := repeat 97%N 3001 in
  let short := lit "quarterly figures" in
  create_presentation_prompt (lit "Sales") long
  = base_prompt ++ [newline; newline] ++ lit "Document Content to Analyze:" ++ [newline]
      ++ (firstn 3000 long ++ ellipsis) ++ [newline; newline] ++ lit "Topic: " ++ lit "Sales"
  /\
  create_presentation_prompt (lit "Sales") short
  = base_prompt ++ [newline; newline] ++ lit "Document Content to Analyze:" ++ [newline]
      ++ short ++ [newline; newline] ++ lit "Topic: " ++ lit "Sales"
  /\
  create_presentation_prompt (lit "Sales") []
  = base_prompt ++ [newline; newline] ++ lit "Topic to Present: " ++ lit "Sales"
      ++ [newline; newline]
      ++ lit "Generate comprehensive content based on your knowledge with relevant examples, statistics, and references."
  /\
  create_presentation_prompt (lit "Sales") short = create_presentation_prompt (lit "Sales") short.
Proof.
  intros long short. split; [|split; [|split]].
  - destruct (create_presentation_prompt_cases (lit "Sales") long) as (_ & Hlong & _).
    apply Hlong. apply Nat.ltb_lt. vm_compute. reflexivity.
  - destruct (create_presentation_prompt_cases (lit "Sales") short) as (_ & _ & Hshort & _).
    apply Hshort; [discriminate | apply Nat.leb_le; vm_compute; reflexivity].
  - destruct (create_presentation_prompt_cases (lit "Sales") []) as (_ & _ & _ & Hempty).
    apply Hempty. reflexivity.
  - destruct (create_presentation_prompt_cases (lit "Sales") short) as (Hsame & _).
    apply Hsame; reflexivity.
Defined.

(** ** The content generator *)

Section Generator.

Variable W : World.

Lemma fallback_run (topic0 : str) (st : state) :
  exists p, _generate_fallback_content W topic0 st = (inr p, st)
            /\ topic p = topic0
            /\ generated_at p = datetime_now W (length (trace st))
            /\ length (slides p) = 4.
Proof.
  eexists. split; [reflexivity|]. repeat split.
Qed.

(** C2: for every topic the fallback generator returns four slides, titled
    with the topic, "Introduction & Overview", "Key Analysis & Findings" and
    "Conclusions & Next Steps"; their bullet points are fixed, each slide
    has a non-empty text, exactly one placeholder image address and at
    least one placeholder reference address; the slides depend on the topic
    only (the world and the moment decide the timestamp alone). *)
Theorem fallback_content_shape (topic0 : str) (st : state) :
  exists p,
    _generate_fallback_content W topic0 st = (inr p, st) /\
    topic p = topic0 /\
    generated_at p = datetime_now W (length (trace st)) /\
    length (slides p) = 4 /\
    map title (slides p) =
      [PStr topic0;
       PStr (lit "Introduction & Overview");
       PStr (lit "Key Analysis & Findings");
       PStr (lit "Conclusions & Next Steps")] /\
    map bullet_points (slides p) =
      [PList [PStr (lit "AI-Generated Professional Presentation");
              PStr (lit "Comprehensive Analysis");
              PStr (lit "Data-Driven Insights")];
       PList [PStr (lit "Comprehensive overview of " ++ topic0);
              PStr (lit "Key concepts and fundamental principles");
              PStr (lit "Current relevance and importance");
              PStr (lit "Presentation structure and objectives")];
       PList [PStr (lit "Primary research findings and data");
              PStr (lit "Statistical analysis and trends");
              PStr (lit "Critical insights and interpretations");
              PStr (lit "Practical applications and use cases")];
       PList [PStr (lit "Summary of critical findings");
              PStr (lit "Key takeaways and insights");
              PStr (lit "Future considerations and opportunities");
              PStr (lit "Recommended actions and next steps")]] /\
    Forall carries_placeholders (slides p) /\
    (forall (W' : World) (st' : state),
        exists p', _generate_fallback_content W' topic0 st' = (inr p', st')
                   /\ slides p' = slides p /\ topic p' = topic p).
Proof.
  eexists. split; [reflexivity|].
  split; [reflexivity|]. split; [reflexivity|]. split; [reflexivity|].
  split; [reflexivity|]. split; [reflexivity|]. split.
  - repeat constructor;
      try (eexists; split; [reflexivity | discriminate]);
      try (eexists; split; reflexivity);
      try (do 2 eexists; split; reflexivity).
  - intros W' st'. eexists. split; [reflexivity|]. split; reflexivity.
Qed.

Lemma generate_with_gemini_outcome (prompt : str) (st : state) :
  generate_with_gemini W prompt st =
  let st1 := log (GeminiCall prompt) st in
  match outcome_of W prompt (length (trace st)) with
  | CallRaised | DecodeFailed =>
      (inr PNone,
       log (StError (lit "Error generating content with Gemini: ") (Some LibraryError)) st1)
  | NoPayload =>
      (inr PNone, log (StError (lit "Could not parse JSON from AI response") None) st1)
  | Decoded v => (inr v, st1)
  end.
Proof.
  unfold outcome_of.
  destruct (generate_content W (length (trace st)) prompt) as [text|] eqn:Htext.
  - rewrite (generate_with_gemini_text _ _ _ Htext). cbv zeta.
    destruct (json_payload (strip_fence (strip text))) as [json_str|]; [|reflexivity].
    destruct (json_loads W json_str); reflexivity.
  - unfold generate_with_gemini, try_except, bind at 1.
    rewrite gemini_text_run, Htext. reflexivity.
Qed.

Lemma truthy_str_nonempty (s : str) : truthy (PStr s) = true <-> s <> [].
Proof. destruct s; simpl; split; congruence. Qed.

Lemma dict_get_absent (d : list (str * pyval)) (key : str) (default : pyval) :
  has_key d key = false -> dict_get d key default = default.
Proof.
  induction d as [|[k v] d IH]; simpl; [reflexivity|].
  destruct (str_eqb k key); simpl; [discriminate | exact IH].
Qed.

Lemma new_events_app (st st' : state) (evs : list event) :
  trace st' = trace st ++ evs -> new_events st st' = evs.
Proof.
  intros H. unfold new_events. rewrite H, skipn_app, skipn_all, Nat.sub_diag.
  reflexivity.
Qed.

Lemma generate_without_key (self : AIContentGenerator)
    (topic0 document_content : str) (st : state) :
  api_key self = [] ->
  generate_presentation_content W self topic0 document_content st =
  _generate_fallback_content W topic0
    (log (StError (lit "Please provide a valid Gemini API key") None) st).
Proof.
  intros Hkey. unfold generate_presentation_content. rewrite Hkey. reflexivity.
Qed.

(** C9: with an empty credential the generator reports the missing key and
    returns the four-slide fallback at once; that report is the only step
    it takes, so the backend is not called. *)
Theorem empty_api_key_skips_backend (self : AIContentGenerator)
    (topic0 document_content : str) (st : state) :
  api_key self = [] ->
  exists p st',
    generate_presentation_content W self topic0 document_content st = (inr p, st') /\
    is_fallback W topic0 p st' /\
    length (slides p) = 4 /\
    new_events st st' = [StError (lit "Please provide a valid Gemini API key") None] /\
    (forall prompt, ~ In (GeminiCall prompt) (new_events st st')).
Proof.
  intros Hkey.
  destruct (fallback_run topic0
              (log (StError (lit "Please provide a valid Gemini API key") None) st))
    as (p & Hrun & _ & _ & Hlen).
  exists p, (log (StError (lit "Please provide a valid Gemini API key") None) st).
  assert (Hnew : new_events st (log (StError (lit "Please provide a valid Gemini API key")
                                             None) st)
                 = [StError (lit "Please provide a valid Gemini API key") None])
    by (apply new_events_app; reflexivity).
  split; [|split; [exact Hrun | split; [exact Hlen | split; [exact Hnew|]]]].
  - rewrite generate_without_key by assumption. exact Hrun.
  - intros prompt. rewrite Hnew. intros [H|[]]. discriminate H.
Qed.

(** The run of the generator once the backend outcome is known. *)
Lemma generate_presentation_content_run (self : AIContentGenerator)
    (topic0 document_content : str) (st : state) :
  api_key self <> [] ->
  let prompt := create_presentation_prompt topic0 document_content in
  let st1 := log (GeminiCall prompt) st in
  generate_presentation_content W self topic0 document_content st =
  match outcome_of W prompt (length (trace st)) with
  | CallRaised | DecodeFailed =>
      _generate_fallback_content W topic0
        (log (StError (lit "Error generating content with Gemini: ") (Some LibraryError)) st1)
  | NoPayload =>
      _generate_fallback_content W topic0
        (log (StError (lit "Could not parse JSON from AI response") None) st1)
  | Decoded v =>
      if truthy v then
        try_except
          (bind (lift (py_get v (lit "slides") (PList []))) (fun slides_value =>
           bind (lift (py_iter slides_value)) (fun items =>
           bind (for_each slide_of items) (fun slides =>
           bind (now W) (fun generated_at =>
           ret {| slides := slides; topic := topic0; generated_at := generated_at |})))))
          (fun e =>
             bind (st_error_exc (lit "Error parsing AI response: ") e)
                  (fun _ => _generate_fallback_content W topic0))
          st1
      else _generate_fallback_content W topic0 st1
  end.
Proof.
  intros Hkey prompt st1. unfold generate_presentation_content.
  apply truthy_str_nonempty in Hkey. rewrite Hkey. cbn [negb].
  fold prompt. unfold bind at 1.
  rewrite generate_with_gemini_outcome. cbv zeta. fold st1.
  destruct (outcome_of W prompt (length (trace st))) as [| | |v]; try reflexivity.
  destruct (truthy v); reflexivity.
Qed.

Lemma slide_of_pure (slide_data : pyval) (st : state) :
  exists r, slide_of slide_data st = (r, st).
Proof.
  unfold slide_of, bind, lift, ret.
  destruct (py_get slide_data (lit "title") (PStr [])); [eauto|].
  destruct (py_get slide_data (lit "bullet_points") (PList [])); [eauto|].
  destruct (py_get slide_data (lit "additional_info") (PStr [])); [eauto|].
  destruct (py_get slide_data (lit "image_urls") (PList [])); [eauto|].
  destruct (py_get slide_data (lit "reference_urls") (PList [])); eauto.
Qed.

Lemma for_each_slide_of_pure (items : list pyval) (st : state) :
  exists r, for_each slide_of items st = (r, st).
Proof.
  induction items as [|x items IH]; simpl; [eexists; reflexivity|].
  unfold bind at 1. destruct (slide_of_pure x st) as ([e|y] & ->); [eauto|].
  unfold bind at 1. destruct IH as ([e|ys] & ->); eexists; reflexivity.
Qed.

Lemma fallback_has_four_slides (topic0 : str) (p : PresentationData) (st : state) :
  is_fallback W topic0 p st -> length (slides p) = 4 /\ topic p = topic0.
Proof.
  unfold is_fallback. intros H.
  destruct (fallback_run topic0 st) as (p' & Hrun & Htopic & _ & Hlen).
  rewrite Hrun in H. injection H as <-. now split.
Qed.

(** The loop over the decoded value, under its [try]. *)
Lemma decoded_value_run (topic0 : str) (v : pyval) (st1 : state) :
  exists p st',
    try_except
      (bind (lift (py_get v (lit "slides") (PList []))) (fun slides_value =>
       bind (lift (py_iter slides_value)) (fun items =>
       bind (for_each slide_of items) (fun slides =>
       bind (now W) (fun generated_at =>
       ret {| slides := slides; topic := topic0; generated_at := generated_at |})))))
      (fun e =>
         bind (st_error_exc (lit "Error parsing AI response: ") e)
              (fun _ => _generate_fallback_content W topic0))
      st1 = (inr p, st') /\
    topic p = topic0 /\
    ((forall d, v <> PDict d) -> is_fallback W topic0 p st') /\
    (forall d e, v = PDict d ->
                 py_iter (dict_get d (lit "slides") (PList [])) = inl e ->
                 is_fallback W topic0 p st') /\
    (forall d, v = PDict d -> has_key d (lit "slides") = false ->
               slides p = [] /\ st' = st1).
Proof.
  assert (Hfall : forall e,
    exists p st',
      bind (st_error_exc (lit "Error parsing AI response: ") e)
           (fun _ => _generate_fallback_content W topic0) st1 = (inr p, st')
      /\ topic p = topic0 /\ is_fallback W topic0 p st').
  { intros e.
    destruct (fallback_run topic0 (log (StError (lit "Error parsing AI response: ") (Some e)) st1))
      as (p & Hrun & Htopic & _).
    exists p, (log (StError (lit "Error parsing AI response: ") (Some e)) st1).
    repeat split; assumption. }
  destruct v as [| b | z | f | s | l | d];
    try (destruct (Hfall AttributeError) as (p & st' & Hrun & Htopic & Hfb);
         exists p, st'; cbn [py_get];
         erewrite try_except_run by apply bind_lift_inl; cbv beta iota; rewrite Hrun;
         split; [reflexivity|]; split; [assumption|];
         split; [intros; assumption|]; split; [intros; assumption|];
         intros; discriminate).
  cbn [py_get].
  destruct (py_iter (dict_get d (lit "slides") (PList []))) as [e|items] eqn:Hiter.
  - destruct (Hfall e) as (p & st' & Hrun & Htopic & Hfb).
    exists p, st'.
    erewrite try_except_run
      by (rewrite bind_lift_inr, Hiter; apply bind_lift_inl).
    cbv beta iota. rewrite Hrun.
    split; [reflexivity|]. split; [assumption|].
    split; [intros; assumption|]. split; [intros; assumption|].
    intros d' H Hkey. injection H as <-.
    rewrite dict_get_absent in Hiter by assumption. discriminate.
  - destruct (for_each_slide_of_pure items st1) as ([e|slides0] & Hloop).
    + destruct (Hfall e) as (p & st' & Hrun & Htopic & Hfb).
      exists p, st'.
      erewrite try_except_run
        by (rewrite bind_lift_inr, Hiter, bind_lift_inr; unfold bind at 1;
            rewrite Hloop; reflexivity).
      cbv beta iota. rewrite Hrun. split; [reflexivity|]. split; [assumption|].
      split; [intros; assumption|]. split; [intros; assumption|].
      intros d' H Hkey. injection H as <-.
      rewrite dict_get_absent in Hiter by assumption.
      injection Hiter as <-. discriminate.
    + eexists. exists st1.
      erewrite try_except_run
        by (rewrite bind_lift_inr, Hiter, bind_lift_inr; unfold bind at 1;
            rewrite Hloop; reflexivity).
      split; [reflexivity|]. split; [reflexivity|].
      split; [intros Hnot; exfalso; now apply (Hnot d)|].
      split; [intros d' e H He; injection H as <-; congruence|].
      intros d' H Hkey. injection H as <-.
      rewrite dict_get_absent in Hiter by assumption.
      injection Hiter as <-. split; [|reflexivity].
      simpl in Hloop. injection Hloop as <-. reflexivity.
Qed.

Lemma truthy_dict_nonempty (d : list (str * pyval)) :
  truthy (PDict d) = true <-> d <> [].
Proof. destruct d; simpl; split; congruence. Qed.

(** C1, as the code has it: the generator never raises and always returns
    a presentation on its topic.  It returns the four-slide fallback when
    the credential is empty, when the call raises, when the response holds
    no payload, when the payload does not decode, when the decoded value is
    empty or is not an object, and when its [slides] entry cannot be
    iterated.  A non-empty decoded object without a [slides] key is not an
    error for the code: the entry defaults to an empty list, and the
    presentation returned has no slide and is not the fallback. *)
Theorem generate_presentation_content_outcomes (self : AIContentGenerator)
    (topic0 document_content : str) (st : state) :
  let outcome :=
    outcome_of W (create_presentation_prompt topic0 document_content)
               (length (trace st)) in
  exists p st',
    generate_presentation_content W self topic0 document_content st = (inr p, st') /\
    topic p = topic0 /\
    (is_fallback W topic0 p st' -> length (slides p) = 4) /\
    (api_key self = [] -> is_fallback W topic0 p st') /\
    (api_key self <> [] ->
     (outcome = CallRaised \/ outcome = NoPayload \/ outcome = DecodeFailed ->
      is_fallback W topic0 p st') /\
     (forall v, outcome = Decoded v -> truthy v = false -> is_fallback W topic0 p st') /\
     (forall v, outcome = Decoded v -> (forall d, v <> PDict d) ->
                is_fallback W topic0 p st') /\
     (forall d e, outcome = Decoded (PDict d) ->
                  py_iter (dict_get d (lit "slides") (PList [])) = inl e ->
                  is_fallback W topic0 p st') /\
     (forall d, outcome = Decoded (PDict d) -> d <> [] ->
                has_key d (lit "slides") = false ->
                slides p = [] /\ ~ is_fallback W topic0 p st')).
Proof.
  cbv zeta.
  remember (outcome_of W (create_presentation_prompt topic0 document_content)
                       (length (trace st))) as outcome eqn:Hdef.
  assert (Hfour : forall p st', is_fallback W topic0 p st' -> length (slides p) = 4)
    by (intros p st' H; now apply fallback_has_four_slides in H).
  assert (Hfallback : forall st1,
    generate_presentation_content W self topic0 document_content st
      = _generate_fallback_content W topic0 st1 ->
    (api_key self <> [] ->
     forall d, outcome = Decoded (PDict d) -> d <> [] ->
               has_key d (lit "slides") = false -> False) ->
    (api_key self <> [] ->
     forall v, outcome = Decoded v -> (forall d, v <> PDict d) -> truthy v = true ->
               False) ->
    (api_key self <> [] ->
     forall d e, outcome = Decoded (PDict d) ->
                 py_iter (dict_get d (lit "slides") (PList [])) = inl e ->
                 truthy (PDict d) = true -> False) ->
    exists p st',
      generate_presentation_content W self topic0 document_content st = (inr p, st') /\
      topic p = topic0 /\
      (is_fallback W topic0 p st' -> length (slides p) = 4) /\
      (api_key self = [] -> is_fallback W topic0 p st') /\
      (api_key self <> [] ->
       (outcome = CallRaised \/ outcome = NoPayload \/ outcome = DecodeFailed ->
        is_fallback W topic0 p st') /\
       (forall v, outcome = Decoded v -> truthy v = false -> is_fallback W topic0 p st') /\
       (forall v, outcome = Decoded v -> (forall d, v <> PDict d) ->
                  is_fallback W topic0 p st') /\
       (forall d e, outcome = Decoded (PDict d) ->
                    py_iter (dict_get d (lit "slides") (PList [])) = inl e ->
                    is_fallback W topic0 p st') /\
       (forall d, outcome = Decoded (PDict d) -> d <> [] ->
                  has_key d (lit "slides") = false ->
                  slides p = [] /\ ~ is_fallback W topic0 p st'))).
  { intros st1 Hrun Habsurd _ _.
    destruct (fallback_run topic0 st1) as (p & Hfb & Htopic & _ & _).
    exists p, st1. rewrite Hrun.
    split; [exact Hfb|]. split; [exact Htopic|]. split; [apply Hfour|].
    split; [intros _; exact Hfb|]. intros Hkey.
    split; [intros _; exact Hfb|]. split; [intros; exact Hfb|].
    split; [intros; exact Hfb|]. split; [intros; exact Hfb|].
    intros d Hd Hne Hno. exfalso. exact (Habsurd Hkey d Hd Hne Hno). }
  assert (Hcases : api_key self = [] \/ api_key self <> [])
    by (destruct (api_key self); [now left | right; discriminate]).
  destruct Hcases as [Hkey|Hkey'].
  { apply (Hfallback _ (generate_without_key self topic0 document_content st Hkey));
      intros H; congruence. }
  pose proof (generate_presentation_content_run self topic0 document_content st Hkey')
    as Hrun.
  cbv zeta in Hrun. rewrite <- Hdef in Hrun.
  clear Hdef. destruct outcome as [| | |v];
    try (apply (Hfallback _ Hrun); intros; discriminate).
  destruct (truthy v) eqn:Htruthy.
  2:{ apply (Hfallback _ Hrun).
      - intros _ d H Hne _. injection H as ->.
        apply truthy_dict_nonempty in Hne. congruence.
      - intros _ v' H _ Ht. injection H as ->. congruence.
      - intros _ d e H _ Ht. injection H as ->. congruence. }
  destruct (decoded_value_run topic0 v
              (log (GeminiCall (create_presentation_prompt topic0 document_content)) st))
    as (p & st' & Htry & Htopic & Hnotdict & Hnoiter & Hnokey).
  exists p, st'. rewrite Hrun, Htry.
  split; [reflexivity|]. split; [exact Htopic|]. split; [apply Hfour|].
  split; [intros H; contradiction|]. intros _.
  split; [intros [H|[H|H]]; discriminate|].
  split; [intros v' H Hf; injection H as ->; congruence|].
  split; [intros v' H Hnd; injection H as ->; now apply Hnotdict|].
  split; [intros d e H He; injection H as ->; now apply (Hnoiter d e)|].
  intros d H Hne Hno. injection H as ->.
  destruct (Hnokey d eq_refl Hno) as [Hslides _].
  split; [exact Hslides|].
  intros Hfb. apply Hfour in Hfb. rewrite Hslides in Hfb. discriminate.
Qed.

End Generator.

(** C1 fails as stated: the decoded object [{"a": 1}] lacks [slides], yet
    the generator returns a presentation with no slide at all, which is
    not the fallback. *)
Lemma missing_slides_counterexample :
  outcome_of no_slides_world (create_presentation_prompt (lit "Sales") []) 0
  = Decoded (PDict [(lit "a", PInt 1)]) /\
  has_key [(lit "a", PInt 1)] (lit "slides") = false /\
  exists p st',
    generate_presentation_content no_slides_world keyed (lit "Sales") [] initial
    = (inr p, st') /\
    slides p = [] /\
    ~ 1 <= length (slides p) /\
    ~ is_fallback no_slides_world (lit "Sales") p st'.
Proof.
  split; [vm_compute; reflexivity|]. split; [reflexivity|].
  eexists. eexists. split; [vm_compute; reflexivity|].
  split; [reflexivity|]. split; [simpl; lia|].
  intros Hfb. apply fallback_has_four_slides in Hfb as [Hlen _].
  discriminate Hlen.
Qed.

(** The object without [slides] gives an empty presentation; an
    unreachable backend gives the fallback. *)
Lemma generate_presentation_content_outcomes_witness :
  (exists p st',
      generate_presentation_content no_slides_world keyed (lit "Sales") [] initial
      = (inr p, st') /\ slides p = [])
  /\
  (exists p st',
      generate_presentation_content offline keyed (lit "Sales") [] initial = (inr p, st')
      /\ is_fallback offline (lit "Sales") p st' /\ length (slides p) = 4).
Proof.
  split.
  - destruct (generate_presentation_content_outcomes no_slides_world keyed
                (lit "Sales") [] initial)
      as (p & st' & Hrun & _ & _ & _ & Hkeyed).
    assert (Hkey : api_key keyed <> []) by discriminate.
    destruct (Hkeyed Hkey) as (_ & _ & _ & _ & Hmissing).
    assert (Hout : outcome_of no_slides_world (create_presentation_prompt (lit "Sales") [])
                              (length (trace initial))
                   = Decoded (PDict [(lit "a", PInt 1)]))
      by (vm_compute; reflexivity).
    assert (Hne : [(lit "a", PInt 1)] <> []) by discriminate.
    destruct (Hmissing _ Hout Hne eq_refl) as [Hslides _].
    exists p, st'. split; assumption.
  - destruct (generate_presentation_content_outcomes offline keyed (lit "Sales") [] initial)
      as (p & st' & Hrun & _ & Hfour & _ & Hkeyed).
    assert (Hkey : api_key keyed <> []) by discriminate.
    destruct (Hkeyed Hkey) as (Hfailed & _).
    assert (Hfb : is_fallback offline (lit "Sales") p st')
      by (apply Hfailed; left; reflexivity).
    exists p, st'. split; [assumption|]. split; [assumption | now apply Hfour].
Defined.

(** Without a key, one report and the fallback. *)
Lemma empty_api_key_skips_backend_witness :
  exists p st',
    generate_presentation_content offline keyless (lit "Sales") (lit "notes") initial
    = (inr p, st') /\
    length (slides p) = 4 /\
    new_events initial st' = [StError (lit "Please provide a valid Gemini API key") None].
Proof.
  destruct (empty_api_key_skips_backend offline keyless (lit "Sales") (lit "notes")
              initial eq_refl)
    as (p & st' & Hrun & _ & Hlen & Hnew & _).
  exists p, st'. repeat split; assumption.
Defined.

(** ** The document processor *)

Section Documents.

Variable W : World.

(** C8: a file whose declared type is none of the four supported ones is
    reported with [st.error] as unsupported, and the processor returns the
    empty string without raising; the application then generates as it
    does when no document is given. *)
Theorem unsupported_type_yields_no_text (file : UploadedFile) (st : state) :
  ~ In (file_type file) supported_types ->
  let st1 := log (StError (lit "Unsupported file type: " ++ file_type file) None) st in
  process_uploaded_file W (Some file) st = (inr [], st1) /\
  (forall ai_generator topic0,
      main_generate W ai_generator UploadDocument topic0 (Some file) st
      = main_generate W ai_generator TopicOnly topic0 None st1 /\
      main_generate W ai_generator TopicOnly topic0 None st1
      = generate_presentation_content W ai_generator topic0 [] st1).
Proof.
  intros Hnot st1.
  assert (Hrun : process_uploaded_file W (Some file) st = (inr [], st1)).
  { unfold process_uploaded_file.
    repeat match goal with
           | |- context [str_eqb (file_type file) ?t] =>
               let H := fresh "H" in
               destruct (str_eqb (file_type file) t) eqn:H;
               [ exfalso; apply Hnot; apply str_eqb_eq in H; rewrite H;
                 simpl; tauto | ]
           end.
    reflexivity. }
  split; [exact Hrun|].
  intros ai_generator topic0. split; [|reflexivity].
  unfold main_generate, main_document_content.
  unfold bind at 1. rewrite Hrun. reflexivity.
Qed.

End Documents.

(** A PNG picture is not a supported document. *)
Lemma unsupported_type_yields_no_text_witness :
  let picture := {| file_type := lit "image/png"; file_bytes := [137; 80; 78; 71]%N |} in
  let st1 := log (StError (lit "Unsupported file type: image/png") None) initial in
  process_uploaded_file offline (Some picture) initial = (inr [], st1) /\
  main_generate offline keyed UploadDocument (lit "Sales") (Some picture) initial
  = generate_presentation_content offline keyed (lit "Sales") [] st1.
Proof.
  intros picture st1.
  assert (Hnot : ~ In (file_type picture) supported_types).
  { intros Hin. simpl in Hin.
    repeat (destruct Hin as [Hin|Hin]; [discriminate Hin|]). exact Hin. }
  destruct (unsupported_type_yields_no_text offline picture initial Hnot) as [Hrun Hflow].
  split; [exact Hrun|].
  destruct (Hflow keyed (lit "Sales")) as [Hupload Htopic].
  exact (eq_trans Hupload Htopic).
Defined.

(** ** The PDF generator *)

Lemma fresh_name_is_fresh (existing : list path) : ~ In (fresh_name existing) existing.
Proof.
  unfold fresh_name. intros Hin.
  assert (Hall : Forall (fun k => k <= list_max existing) existing)
    by (apply list_max_le; lia).
  rewrite Forall_forall in Hall. apply Hall in Hin. lia.
Qed.

Lemma filter_out_absent (p : path) (l : list path) :
  ~ In p l -> filter (fun q => negb (Nat.eqb p q)) l = l.
Proof.
  induction l as [|q l IH]; intros Hin; simpl; [reflexivity|].
  destruct (Nat.eqb_spec p q) as [->|Hne]; simpl.
  - exfalso. apply Hin. now left.
  - rewrite IH; [reflexivity|]. intros H. apply Hin. now right.
Qed.

Lemma state_eq (st st' : state) :
  trace st = trace st' -> files st = files st' -> st = st'.
Proof. destruct st, st'; simpl; intros -> ->; reflexivity. Qed.

Section Renderer.

Variable W : World.

Lemma bind_run {A B : Type} (m : M A) (k : A -> M B) (st st' : state) (a : A) :
  m st = (inr a, st') -> bind m k st = k a st'.
Proof. intros H. unfold bind. now rewrite H. Qed.

Lemma bind_raise {A B : Type} (m : M A) (k : A -> M B) (st st' : state) (e : exn) :
  m st = (inl e, st') -> bind m k st = (inl e, st').
Proof. intros H. unfold bind. now rewrite H. Qed.

(** *** Paragraphs *)

Lemma Paragraph_new_run (text : pyval) (sty : style) (st : state) :
  accepted W (Paragraph text sty) = true ->
  Paragraph_new W text sty st = (inr (Paragraph text sty), st).
Proof.
  unfold accepted, Paragraph_new.
  destruct (Paragraph_raises W text sty); [discriminate | reflexivity].
Qed.

Lemma Paragraph_new_raises (text : pyval) (sty : style) (e : exn) (st : state) :
  Paragraph_raises W text sty = Some e ->
  Paragraph_new W text sty st = (inl e, st).
Proof. unfold Paragraph_new. now intros ->. Qed.

(** A loop that adds one bulleted paragraph per item. *)
Lemma paragraph_lines_run (sty : style) (items : list pyval) :
  forall (content : list flowable) (st : state),
    forallb (accepted W) (bullet_lines W sty items) = true ->
    for_fold (fun content v =>
                bind (Paragraph_new W (PStr (bullet ++ format_value W v)) sty)
                     (fun para => ret (content ++ [para])))
             items content st
    = (inr (content ++ bullet_lines W sty items), st).
Proof.
  induction items as [|v items IH]; intros content st Hacc.
  - simpl. now rewrite app_nil_r.
  - cbn [bullet_lines map forallb] in Hacc. apply andb_true_iff in Hacc as [Hv Hrest].
    cbn [for_fold].
    erewrite bind_run by (erewrite bind_run by (apply Paragraph_new_run; exact Hv);
                          reflexivity).
    rewrite IH by exact Hrest.
    cbn [bullet_lines map]. now rewrite <- app_assoc.
Qed.

(** *** Downloads *)

Lemma download_image_run (url : pyval) (st : state) :
  download_image W url st =
  let p := fresh_name (files st) in
  match requests_get W (length (trace st)) url with
  | FetchFailed =>
      match print_raises W url LibraryError with
      | None => (inr None, after st (Refused url))
      | Some e => (inl e, log (HttpGet url) st)
      end
  | FetchInterrupted =>
      match print_raises W url LibraryError with
      | None => (inr None, after st (Interrupted url p))
      | Some e =>
          (inl e, {| trace := trace st ++ [HttpGet url; TempFileCreated p];
                     files := p :: files st |})
      end
  | FetchDone =>
      (inr (Some p),
       {| trace := trace st ++ [HttpGet url; TempFileCreated p]; files := p :: files st |})
  end.
Proof.
  unfold download_image, try_except, bind, instant, emit, NamedTemporaryFile, after,
    print_download_error, ret, raise.
  simpl.
  destruct (requests_get W (length (trace st)) url); simpl;
    try destruct (print_raises W url LibraryError); unfold emit, log; simpl;
    rewrite <- ?app_assoc; reflexivity.
Qed.

Lemma download_image_settles (url : pyval) (st : state) :
  settles W url st ->
  download_image W url st =
  let p := fresh_name (files st) in
  match requests_get W (length (trace st)) url with
  | FetchFailed => (inr None, after st (Refused url))
  | FetchInterrupted => (inr None, after st (Interrupted url p))
  | FetchDone =>
      (inr (Some p),
       {| trace := trace st ++ [HttpGet url; TempFileCreated p]; files := p :: files st |})
  end.
Proof.
  intros Hs. rewrite download_image_run. cbv zeta. unfold settles, printable in Hs.
  destruct (requests_get W (length (trace st)) url); try reflexivity;
    destruct (print_raises W url LibraryError); try reflexivity;
    destruct Hs; discriminate.
Qed.

(** One image of a content slide: what is added to the slide and what
    becomes of the state follow the attempt the world decides. *)
Lemma content_slide_image_run (content : list flowable) (url : pyval) (st : state) :
  settles W url st ->
  content_slide_image W content url st =
  (inr (content ++ content_image (attempt_at W st url)), after st (attempt_at W st url)).
Proof.
  intros Hs.
  unfold content_slide_image. unfold bind at 1. rewrite download_image_settles by exact Hs.
  cbv zeta. unfold attempt_at.
  destruct (requests_get W (length (trace st)) url); cbn [content_image].
  - rewrite app_nil_r. reflexivity.
  - rewrite app_nil_r. reflexivity.
  - cbv [try_except bind Image_new instant emit log unlink ret raise].
    cbn [trace files]. rewrite length_app. cbn [length].
    destruct (Image_opens W (length (trace st) + 2) (fresh_name (files st))).
    + cbn [trace files existsb filter]. rewrite Nat.eqb_refl. cbn [orb negb content_image].
      f_equal.
      * rewrite <- app_assoc. reflexivity.
      * apply state_eq; cbn [trace files after attempt_events attempt_leak app].
        -- rewrite <- !app_assoc. reflexivity.
        -- apply filter_out_absent, fresh_name_is_fresh.
    + cbn [content_image]. rewrite app_nil_r. f_equal.
      apply state_eq; cbn [trace files after attempt_events attempt_leak app].
      * rewrite <- !app_assoc. reflexivity.
      * reflexivity.
Qed.

(** The image loop of a content slide. *)
Lemma content_slide_images_run (urls : list pyval) :
  forall (content : list flowable) (st : state),
    forallb (printable W) urls = true ->
    for_fold (content_slide_image W) urls content st =
    (inr (content ++ flat_map content_image (fst (run_attempts W st urls))),
     snd (run_attempts W st urls)).
Proof.
  induction urls as [|url urls IH]; intros content st Hpr.
  - simpl. rewrite app_nil_r. reflexivity.
  - cbn [forallb] in Hpr. apply andb_true_iff in Hpr as [Hurl Hrest].
    cbn [for_fold]. unfold bind at 1.
    rewrite content_slide_image_run by (right; exact Hurl).
    rewrite IH by exact Hrest.
    cbn [run_attempts].
    destruct (run_attempts W (after st (attempt_at W st url)) urls) as [l st'].
    cbn [fst snd flat_map]. rewrite <- app_assoc. reflexivity.
Qed.

Lemma well_typed_slide_lists (s : SlideContent) :
  well_typed_slide s = true ->
  bullet_points s = PList (items_of (bullet_points s)) /\
  image_urls s = PList (items_of (image_urls s)) /\
  reference_urls s = PList (items_of (reference_urls s)).
Proof.
  unfold well_typed_slide, is_str_list. intros H.
  repeat (apply andb_true_iff in H as [H ?]).
  destruct (bullet_points s), (image_urls s), (reference_urls s);
    try discriminate; repeat split.
Qed.

Lemma truthy_list (l : list pyval) :
  truthy (PList l) = match l with [] => false | _ => true end.
Proof. destruct l; reflexivity. Qed.

Lemma forallb_firstn {A : Type} (f : A -> bool) (n : nat) (l : list A) :
  forallb f l = true -> forallb f (firstn n l) = true.
Proof.
  revert n; induction l as [|x l IH]; intros [|n] H; try reflexivity.
  cbn [forallb] in H. apply andb_true_iff in H as [Hx Hl].
  cbn [firstn forallb]. now rewrite Hx, IH.
Qed.

(** A content slide is its head, the images that could be embedded and its
    foot; the state moves by the attempts on its first two addresses. *)
Lemma content_slide_run (s : SlideContent) (i : nat) (st : state) :
  well_typed_slide s = true ->
  forallb (accepted W) (content_slide_head W s ++ content_slide_foot W s) = true ->
  forallb (printable W) (firstn 2 (items_of (image_urls s))) = true ->
  let r := run_attempts W st (firstn 2 (items_of (image_urls s))) in
  _create_enhanced_content_slide W s i st =
  (inr (content_slide_head W s ++ flat_map content_image (fst r) ++ content_slide_foot W s),
   snd r).
Proof.
  intros Hty Hacc Hpr r. destruct (well_typed_slide_lists s Hty) as (Hpts & Hurls & Hrefs).
  rewrite forallb_app in Hacc. apply andb_true_iff in Hacc as [Hhead Hfoot].
  unfold content_slide_head in Hhead. rewrite !forallb_app in Hhead.
  apply andb_true_iff in Hhead as [Htitle Hhead].
  apply andb_true_iff in Hhead as [Hbullets Hhead].
  apply andb_true_iff in Hhead as [_ Hinfo].
  cbn [forallb andb] in Htitle. rewrite andb_true_r in Htitle.
  unfold content_slide_foot in Hfoot.
  unfold _create_enhanced_content_slide, content_slide_head, content_slide_foot.
  subst r. revert Hpts Hurls Hrefs Hbullets Hfoot Hpr.
  generalize (items_of (bullet_points s)) as pts.
  generalize (items_of (image_urls s)) as urls.
  generalize (items_of (reference_urls s)) as refs.
  intros refs urls pts -> -> -> Hbullets Hfoot Hpr.
  cbv zeta.
  erewrite bind_run by (apply Paragraph_new_run; exact Htitle).
  cbn [py_iter]. rewrite bind_lift_inr.
  erewrite bind_run by (apply paragraph_lines_run; exact Hbullets).
  rewrite !truthy_list in *.
  assert (Himages : forall content,
    (if match urls with [] => false | _ :: _ => true end
     then bind (lift (py_slice_to (PList urls) 2)) (fun first_two =>
          bind (lift (py_iter first_two)) (fun urls0 =>
          for_fold (content_slide_image W) urls0 content))
     else ret content) st
    = (inr (content ++ flat_map content_image (fst (run_attempts W st (firstn 2 urls)))),
       snd (run_attempts W st (firstn 2 urls)))).
  { intros content. destruct urls as [|u urls].
    - simpl. rewrite app_nil_r. reflexivity.
    - cbn [py_slice_to]. rewrite bind_lift_inr. cbn [py_iter]. rewrite bind_lift_inr.
      change 2%Z with (Z.of_nat 2). rewrite slice_prefix.
      apply content_slide_images_run. exact Hpr. }
  assert (Hrefs : forall content st0,
    (if match refs with [] => false | _ :: _ => true end
     then bind (Paragraph_new W (PStr (lit "<b>References & Further Reading:</b>"))
                              BulletPoint) (fun ref_title =>
          bind (lift (py_iter (PList refs))) (fun urls0 =>
          for_fold (fun content0 url =>
                      bind (Paragraph_new W (PStr (bullet ++ format_value W url)) URLStyle)
                           (fun url_para => ret (content0 ++ [url_para])))
                   urls0 ((content ++ [Spacer 1 1]) ++ [ref_title])))
     else ret content) st0
    = (inr (content
              ++ (if match refs with [] => false | _ :: _ => true end
                  then [Spacer 1 1;
                        Paragraph (PStr (lit "<b>References & Further Reading:</b>"))
                                  BulletPoint]
                         ++ bullet_lines W URLStyle refs
                  else [])), st0)).
  { intros content st0. destruct refs as [|ref refs].
    - unfold ret. now rewrite app_nil_r.
    - rewrite forallb_app in Hfoot. apply andb_true_iff in Hfoot as [Hhd Hlines].
      cbn [forallb andb] in Hhd. rewrite andb_true_r in Hhd.
      erewrite bind_run by (apply Paragraph_new_run; exact Hhd).
      cbn [py_iter]. rewrite bind_lift_inr.
      rewrite paragraph_lines_run by exact Hlines.
      rewrite <- !app_assoc. reflexivity. }
  destruct (truthy (additional_info s)).
  - cbn [forallb andb] in Hinfo. rewrite andb_true_r in Hinfo.
    erewrite bind_run
      by (erewrite bind_run by (apply Paragraph_new_run; exact Hinfo); reflexivity).
    erewrite bind_run by apply Himages.
    erewrite bind_run by apply Hrefs.
    unfold ret. rewrite <- !app_assoc. reflexivity.
  - erewrite bind_run by reflexivity.
    erewrite bind_run by apply Himages.
    erewrite bind_run by apply Hrefs.
    unfold ret. rewrite <- !app_assoc. reflexivity.
Qed.

(** The image of the title slide. *)
Lemma title_slide_image_run (content : list flowable) (url : pyval) (st : state) :
  settles W url st ->
  title_slide_image W content url st =
  (inr (content ++ title_image (attempt_at W st url)), after st (attempt_at W st url)).
Proof.
  intros Hs.
  unfold title_slide_image. unfold bind at 1. rewrite download_image_settles by exact Hs.
  cbv zeta. unfold attempt_at.
  destruct (requests_get W (length (trace st)) url); cbn [title_image].
  - rewrite app_nil_r. reflexivity.
  - rewrite app_nil_r. reflexivity.
  - cbv [try_except bind Image_new instant emit log unlink ret raise].
    cbn [trace files]. rewrite length_app. cbn [length].
    destruct (Image_opens W (length (trace st) + 2) (fresh_name (files st))).
    + cbn [trace files existsb filter]. rewrite Nat.eqb_refl. cbn [orb negb title_image].
      f_equal.
      apply state_eq; cbn [trace files after attempt_events attempt_leak app].
      * rewrite <- !app_assoc. reflexivity.
      * apply filter_out_absent, fresh_name_is_fresh.
    + cbn [title_image]. rewrite app_nil_r. f_equal.
      apply state_eq; cbn [trace files after attempt_events attempt_leak app].
      * rewrite <- !app_assoc. reflexivity.
      * reflexivity.
Qed.

(** The title slide is its head, the image if it could be embedded and its
    foot; the state moves by the attempt on its first address. *)
Lemma title_slide_run (s : SlideContent) (pd : PresentationData) (st : state) :
  well_typed_slide s = true ->
  forallb (accepted W) (title_slide_head W s pd ++ title_slide_foot W pd) = true ->
  forallb (printable W) (firstn 1 (items_of (image_urls s))) = true ->
  let r := run_attempts W st (firstn 1 (items_of (image_urls s))) in
  _create_enhanced_title_slide W s pd st =
  (inr (title_slide_head W s pd ++ flat_map title_image (fst r) ++ title_slide_foot W pd),
   snd r).
Proof.
  intros Hty Hacc Hpr r. destruct (well_typed_slide_lists s Hty) as (Hpts & Hurls & _).
  rewrite forallb_app in Hacc. apply andb_true_iff in Hacc as [Hhead Hfoot].
  unfold title_slide_head in Hhead. rewrite !forallb_app in Hhead.
  apply andb_true_iff in Hhead as [Htopic Hhead].
  apply andb_true_iff in Hhead as [Hbullets Hhead].
  apply andb_true_iff in Hhead as [_ Hhead].
  apply andb_true_iff in Hhead as [Hinfo _].
  cbn [forallb andb] in Htopic. rewrite andb_true_r in Htopic.
  unfold title_slide_foot in Hfoot. cbn [forallb andb] in Hfoot.
  rewrite andb_true_r in Hfoot.
  unfold _create_enhanced_title_slide, title_slide_head, title_slide_foot.
  subst r. revert Hpts Hurls Hbullets Hpr.
  generalize (items_of (bullet_points s)) as pts.
  generalize (items_of (image_urls s)) as urls.
  intros urls pts -> -> Hbullets Hpr.
  cbv zeta.
  erewrite bind_run by (apply Paragraph_new_run; exact Htopic).
  rewrite !truthy_list.
  assert (Hpoints : forall content,
    (if match pts with [] => false | _ :: _ => true end
     then bind (lift (py_iter (PList pts))) (fun points =>
          for_fold (fun content0 point =>
                      bind (Paragraph_new W (PStr (bullet ++ format_value W point))
                                          BulletPoint)
                           (fun subtitle => ret (content0 ++ [subtitle])))
                   points content)
     else ret content) st
    = (inr (content ++ bullet_lines W BulletPoint pts), st)).
  { intros content. destruct pts as [|pt pts].
    - unfold ret. now rewrite app_nil_r.
    - cbn [py_iter]. rewrite bind_lift_inr. now apply paragraph_lines_run. }
  erewrite bind_run by apply Hpoints.
  assert (Himage : forall content,
    (if match urls with [] => false | _ :: _ => true end
     then bind (lift (py_index0 (PList urls))) (fun url => title_slide_image W content url)
     else ret content) st
    = (inr (content ++ flat_map title_image (fst (run_attempts W st (firstn 1 urls)))),
       snd (run_attempts W st (firstn 1 urls)))).
  { intros content. destruct urls as [|u urls].
    - simpl. unfold ret. now rewrite app_nil_r.
    - cbn [py_index0]. rewrite bind_lift_inr.
      cbn [firstn forallb] in Hpr. rewrite andb_true_r in Hpr.
      rewrite title_slide_image_run by (right; exact Hpr).
      cbn [firstn run_attempts fst snd flat_map]. now rewrite app_nil_r. }
  destruct (truthy (additional_info s)).
  - cbn [forallb andb] in Hinfo. rewrite andb_true_r in Hinfo.
    erewrite bind_run
      by (erewrite bind_run by (apply Paragraph_new_run; exact Hinfo); reflexivity).
    erewrite bind_run by apply Himage.
    erewrite bind_run by (apply Paragraph_new_run; exact Hfoot).
    unfold ret. rewrite <- !app_assoc. reflexivity.
  - erewrite bind_run by reflexivity.
    erewrite bind_run by apply Himage.
    erewrite bind_run by (apply Paragraph_new_run; exact Hfoot).
    unfold ret. rewrite <- !app_assoc. reflexivity.
Qed.

Lemma slide_run (pd : PresentationData) (i : nat) (s : SlideContent) (st : state) :
  well_typed_slide s = true ->
  page_accepted W pd i s = true ->
  forallb (printable W) (slide_requests i s) = true ->
  (if Nat.eqb i 0
   then _create_enhanced_title_slide W s pd
   else _create_enhanced_content_slide W s i) st =
  (inr (slide_page W pd i s (fst (run_attempts W st (slide_requests i s)))),
   snd (run_attempts W st (slide_requests i s))).
Proof.
  intros Hty. unfold page_accepted, slide_page, slide_requests.
  destruct (Nat.eqb i 0); cbn [flat_map app]; intros Hacc Hpr.
  - now apply title_slide_run.
  - now apply content_slide_run.
Qed.

(** The loop of [create_presentation] lays the pages out with one page
    break between consecutive pages. *)
Lemma story_loop_run (pd : PresentationData) (n : nat) (rest : list SlideContent) :
  forall (i : nat) (story : list flowable) (st : state),
    forallb well_typed_slide rest = true ->
    pages_accepted W pd i rest = true ->
    forallb (printable W) (requests_from i rest) = true ->
    i + length rest = n ->
    story_loop W pd n i rest story st =
    (inr (story ++ join_pages (fst (pages_from W pd i rest st))),
     snd (pages_from W pd i rest st)).
Proof.
  induction rest as [|s rest IH]; intros i story st Hty Hacc Hpr Hn.
  - simpl. rewrite app_nil_r. reflexivity.
  - cbn [forallb] in Hty. apply andb_true_iff in Hty as [Hs Hrest].
    cbn [pages_accepted] in Hacc. apply andb_true_iff in Hacc as [Hacc Haccs].
    cbn [requests_from] in Hpr. rewrite forallb_app in Hpr.
    apply andb_true_iff in Hpr as [Hpr Hprs].
    cbn [story_loop]. unfold bind at 1. rewrite slide_run by assumption.
    cbn [length] in Hn.
    rewrite IH by (assumption || lia).
    cbn [pages_from].
    destruct (pages_from W pd (S i) rest
                (snd (run_attempts W st (slide_requests i s)))) as [pages st'] eqn:Hpages.
    cbn [fst snd]. f_equal.
    destruct rest as [|s' rest].
    + cbn [pages_from] in Hpages. injection Hpages as <- <-.
      cbn [length] in Hn.
      destruct (Z.ltb_spec (Z.of_nat i) (Z.of_nat n - 1)); [lia|].
      cbn [join_pages]. rewrite app_nil_r. reflexivity.
    + cbn [length] in Hn.
      destruct (Z.ltb_spec (Z.of_nat i) (Z.of_nat n - 1)); [|lia].
      cbn [pages_from] in Hpages.
      destruct (pages_from W pd (S (S i)) rest
                  (snd (run_attempts W (snd (run_attempts W st (slide_requests i s)))
                                     (slide_requests (S i) s')))) as [pages' st''].
      injection Hpages as <- <-.
      cbn [join_pages]. rewrite <- !app_assoc. reflexivity.
Qed.

Lemma create_presentation_story_run (pd : PresentationData) (st : state) :
  well_typed pd = true ->
  paragraphs_accepted W pd = true ->
  addresses_printable W pd = true ->
  create_presentation_story W pd st =
  (inr (join_pages (fst (pages_from W pd 0 (slides pd) st))),
   snd (pages_from W pd 0 (slides pd) st)).
Proof.
  intros Hty Hacc Hpr. unfold create_presentation_story.
  rewrite story_loop_run by (assumption || reflexivity). reflexivity.
Qed.

(** *** The build *)

Lemma build_without_images (story : list flowable) (st : state) :
  image_files story = [] ->
  SimpleDocTemplate_build W story st =
  match doc_build W story with
  | Some pdf => (inr pdf, st)
  | None => (inl LibraryError, st)
  end.
Proof. unfold SimpleDocTemplate_build. now intros ->. Qed.

(** The build raises as soon as one file of the story is not on disk. *)
Lemma build_missing_file (story : list flowable) (st : state) (p : path) :
  In p (image_files story) -> ~ In p (files st) ->
  SimpleDocTemplate_build W story st = (inl LibraryError, st).
Proof.
  intros Hin Hgone. unfold SimpleDocTemplate_build.
  destruct (forallb (fun q => existsb (Nat.eqb q) (files st)) (image_files story))
    eqn:Hall; [|reflexivity].
  rewrite forallb_forall in Hall. apply Hall in Hin.
  apply existsb_exists in Hin as (q & Hq & Heq).
  apply Nat.eqb_eq in Heq. subst q. contradiction.
Qed.

Lemma build_outcome (story : list flowable) (st : state) :
  exists r, SimpleDocTemplate_build W story st = (r, st).
Proof.
  unfold SimpleDocTemplate_build.
  destruct (forallb (fun q => existsb (Nat.eqb q) (files st)) (image_files story));
    [destruct (doc_build W story)|]; eexists; reflexivity.
Qed.

(** *** Page breaks *)

Lemma page_breaks_app (a b : list flowable) :
  page_breaks (a ++ b) = page_breaks a + page_breaks b.
Proof. unfold page_breaks. rewrite filter_app, length_app. reflexivity. Qed.

Lemma page_breaks_bullet_lines (sty : style) (items : list pyval) :
  page_breaks (bullet_lines W sty items) = 0.
Proof. induction items as [|v items IH]; [reflexivity | exact IH]. Qed.

Lemma page_breaks_title_images (attempts : list attempt) :
  page_breaks (flat_map title_image attempts) = 0.
Proof.
  induction attempts as [|a attempts IH]; [reflexivity|].
  cbn [flat_map]. rewrite page_breaks_app, IH. destruct a; reflexivity.
Qed.

Lemma page_breaks_content_images (attempts : list attempt) :
  page_breaks (flat_map content_image attempts) = 0.
Proof.
  induction attempts as [|a attempts IH]; [reflexivity|].
  cbn [flat_map]. rewrite page_breaks_app, IH. destruct a; reflexivity.
Qed.

(** No slide puts a page break on its own page. *)
Lemma page_breaks_slide_page (pd : PresentationData) (i : nat) (s : SlideContent)
    (attempts : list attempt) :
  page_breaks (slide_page W pd i s attempts) = 0.
Proof.
  unfold slide_page, title_slide_head, title_slide_foot, content_slide_head,
    content_slide_foot.
  destruct (Nat.eqb i 0); rewrite !page_breaks_app, ?page_breaks_bullet_lines,
    ?page_breaks_title_images, ?page_breaks_content_images.
  - destruct (truthy (additional_info s)); reflexivity.
  - destruct (truthy (additional_info s)), (truthy (reference_urls s));
      rewrite ?page_breaks_app, ?page_breaks_bullet_lines; reflexivity.
Qed.

Lemma page_breaks_join_pages (pages : list (list flowable)) :
  Forall (fun page => page_breaks page = 0) pages ->
  page_breaks (join_pages pages) = length pages - 1.
Proof.
  induction 1 as [|page pages Hpage Hpages IH]; [reflexivity|].
  destruct pages as [|page' pages].
  - simpl. rewrite Hpage. reflexivity.
  - change (join_pages (page :: page' :: pages))
      with (page ++ PageBreak :: join_pages (page' :: pages)).
    rewrite page_breaks_app, Hpage.
    change (page_breaks (PageBreak :: join_pages (page' :: pages)))
      with (S (page_breaks (join_pages (page' :: pages)))).
    rewrite IH. simpl. lia.
Qed.

(** The story does not end with a page break. *)
Lemma join_pages_ends_with_page (pages : list (list flowable)) :
  Forall (fun page => page_breaks page = 0 /\ page <> []) pages ->
  forall front, join_pages pages <> front ++ [PageBreak].
Proof.
  induction 1 as [|page pages [Hpage Hne] Hpages IH]; intros front Heq.
  - simpl in Heq. now destruct front.
  - destruct pages as [|page' pages].
    + simpl in Heq. subst page. rewrite page_breaks_app in Hpage.
      simpl in Hpage. unfold page_breaks in Hpage. simpl in Hpage. lia.
    + change (join_pages (page :: page' :: pages))
        with (page ++ PageBreak :: join_pages (page' :: pages)) in Heq.
      destruct (exists_last (l := join_pages (page' :: pages))) as (init & x & Hlast).
      { inversion Hpages as [|? ? [_ Hne'] _]; subst.
        destruct pages; simpl; [assumption|].
        destruct page'; [contradiction | discriminate]. }
      rewrite Hlast in Heq.
      replace (page ++ PageBreak :: init ++ [x])
        with ((page ++ PageBreak :: init) ++ [x]) in Heq
        by (rewrite <- app_assoc; reflexivity).
      apply app_inj_tail in Heq as [_ ->].
      now apply (IH init).
Qed.

Lemma pages_from_pages (pd : PresentationData) (slides0 : list SlideContent) :
  forall (i : nat) (st : state),
    length (fst (pages_from W pd i slides0 st)) = length slides0 /\
    Forall (fun page => page_breaks page = 0 /\ page <> [])
           (fst (pages_from W pd i slides0 st)) /\
    (forall k s, nth_error slides0 k = Some s ->
                 exists attempts,
                   nth_error (fst (pages_from W pd i slides0 st)) k
                   = Some (slide_page W pd (i + k) s attempts)).
Proof.
  induction slides0 as [|s0 slides0 IH]; intros i st.
  - simpl. repeat split; [constructor|]. intros [|k] s H; discriminate H.
  - cbn [pages_from].
    destruct (IH (S i) (snd (run_attempts W st (slide_requests i s0))))
      as (Hlen & Hall & Hnth).
    destruct (pages_from W pd (S i) slides0
                (snd (run_attempts W st (slide_requests i s0)))) as [pages st'].
    cbn [fst] in *. split; [simpl; now rewrite Hlen|]. split.
    + constructor; [|assumption]. split; [apply page_breaks_slide_page|].
      unfold slide_page, title_slide_head, content_slide_head.
      destruct (Nat.eqb i 0); discriminate.
    + intros [|k] s Hk.
      * injection Hk as <-. rewrite Nat.add_0_r. eexists. reflexivity.
      * destruct (Hnth k s Hk) as (attempts & Hpage).
        exists attempts. cbn [nth_error]. rewrite Hpage.
        replace (i + S k) with (S i + k) by lia. reflexivity.
Qed.

Lemma page_in_join_pages (pages : list (list flowable)) (k : nat)
    (page : list flowable) (f : flowable) :
  nth_error pages k = Some page -> In f page -> In f (join_pages pages).
Proof.
  revert k; induction pages as [|page0 pages IH]; intros k Hk Hin.
  - destruct k; discriminate.
  - assert (Hjoin : forall g, In g page0 \/ In g (join_pages pages) ->
                              In g (join_pages (page0 :: pages))).
    { intros g Hg. destruct pages as [|page1 pages].
      - destruct Hg as [Hg|[]]. exact Hg.
      - change (join_pages (page0 :: page1 :: pages))
          with (page0 ++ PageBreak :: join_pages (page1 :: pages)).
        apply in_or_app. destruct Hg as [Hg|Hg]; [now left | right; now right]. }
    apply Hjoin. destruct k as [|k].
    + injection Hk as ->. now left.
    + right. now apply (IH k).
Qed.

Lemma startswith_refl (t : str) : startswith t t = true.
Proof. induction t as [|c t IH]; simpl; [reflexivity|]. now rewrite N.eqb_refl. Qed.

Lemma contains_refl (t : str) : contains t t = true.
Proof.
  unfold contains, find. destruct t as [|c t]; [reflexivity|].
  unfold find_from. rewrite startswith_refl. reflexivity.
Qed.

Lemma text_appears_paragraph (t : str) (sty : style) (story : list flowable) :
  In (Paragraph (PStr t) sty) story -> text_appears t story = true.
Proof.
  intros Hin. unfold text_appears. apply existsb_exists.
  exists (Paragraph (PStr t) sty). split; [assumption | apply contains_refl].
Qed.

(** C5, as the code has it: for a presentation with N >= 1 slides whose
    fields have their declared types, whose texts [Paragraph] accepts and
    whose addresses can be printed, the story is its N pages with one page
    break between consecutive pages and none after the last, N-1 in all,
    and it is what [doc.build] receives.  The page of every slide after
    the first carries that slide's title; the first page carries the topic
    of the presentation as its heading, not the title of the first
    slide. *)
Theorem story_pages_and_titles (pd : PresentationData) (st : state) :
  well_typed pd = true ->
  paragraphs_accepted W pd = true ->
  addresses_printable W pd = true ->
  1 <= length (slides pd) ->
  exists pages st',
    create_presentation_story W pd st = (inr (join_pages pages), st') /\
    create_presentation W pd st = SimpleDocTemplate_build W (join_pages pages) st' /\
    length pages = length (slides pd) /\
    Forall (fun page => page_breaks page = 0) pages /\
    page_breaks (join_pages pages) = length (slides pd) - 1 /\
    (forall front, join_pages pages <> front ++ [PageBreak]) /\
    (forall k s, nth_error (slides pd) k = Some s -> 1 <= k ->
                 exists page, nth_error pages k = Some page /\
                              In (Paragraph (title s) SlideTitle) page /\
                              In (Paragraph (title s) SlideTitle) (join_pages pages) /\
                              (forall t, title s = PStr t ->
                                         text_appears t (join_pages pages) = true)) /\
    (exists page, nth_error pages 0 = Some page /\
                  In (Paragraph (PStr (topic pd)) TitleSlide) page /\
                  text_appears (topic pd) (join_pages pages) = true).
Proof.
  intros Hty Hacc Hpr Hn.
  destruct (pages_from_pages pd (slides pd) 0 st) as (Hlen & Hall & Hnth).
  pose proof (create_presentation_story_run pd st Hty Hacc Hpr) as Hrun.
  destruct (pages_from W pd 0 (slides pd) st) as [pages st'].
  cbn [fst snd] in *. exists pages, st'.
  assert (Hbreaks : Forall (fun page => page_breaks page = 0) pages)
    by (eapply Forall_impl; [|exact Hall]; now intros page [H _]).
  split; [exact Hrun|]. split.
  { unfold create_presentation. erewrite bind_run by exact Hrun. reflexivity. }
  split; [exact Hlen|]. split; [exact Hbreaks|]. split.
  { rewrite page_breaks_join_pages by assumption. now rewrite Hlen. }
  split; [now apply join_pages_ends_with_page|]. split.
  - intros k s Hk Hpos. destruct (Hnth k s Hk) as (attempts & Hpage).
    exists (slide_page W pd (0 + k) s attempts). split; [exact Hpage|].
    assert (Hin : In (Paragraph (title s) SlideTitle) (slide_page W pd (0 + k) s attempts)).
    { unfold slide_page. destruct k as [|k]; [lia|].
      cbn [Nat.add Nat.eqb]. unfold content_slide_head. simpl. tauto. }
    split; [exact Hin|].
    assert (Hstory : In (Paragraph (title s) SlideTitle) (join_pages pages))
      by (eapply page_in_join_pages; eassumption).
    split; [exact Hstory|].
    intros t Ht. rewrite Ht in Hstory. now apply text_appears_paragraph in Hstory.
  - destruct (slides pd) as [|s0 rest] eqn:Hslides; [simpl in Hn; lia|].
    destruct (Hnth 0 s0 eq_refl) as (attempts & Hpage).
    exists (slide_page W pd (0 + 0) s0 attempts). split; [exact Hpage|].
    assert (Hin : In (Paragraph (PStr (topic pd)) TitleSlide)
                     (slide_page W pd (0 + 0) s0 attempts))
      by (unfold slide_page, title_slide_head; simpl; tauto).
    split; [exact Hin|].
    eapply text_appears_paragraph, page_in_join_pages; eassumption.
Qed.

(** *** Image attempts *)

Lemma run_attempts_app (st : state) (a b : list pyval) :
  fst (run_attempts W st (a ++ b))
  = fst (run_attempts W st a) ++ fst (run_attempts W (snd (run_attempts W st a)) b) /\
  snd (run_attempts W st (a ++ b))
  = snd (run_attempts W (snd (run_attempts W st a)) b).
Proof.
  revert st; induction a as [|url a IH]; intros st; [split; reflexivity|].
  cbn [app run_attempts].
  destruct (IH (after st (attempt_at W st url))) as [Hfst Hsnd].
  destruct (run_attempts W (after st (attempt_at W st url)) (a ++ b)) as [l st'].
  destruct (run_attempts W (after st (attempt_at W st url)) a) as [la sta].
  cbn [fst snd] in *. subst. split; reflexivity.
Qed.

Lemma run_attempts_state (urls : list pyval) (st : state) :
  let r := run_attempts W st urls in
  trace (snd r) = trace st ++ flat_map attempt_events (fst r) /\
  files (snd r) = flat_map attempt_leak (rev (fst r)) ++ files st /\
  map attempt_url (fst r) = urls.
Proof.
  revert st; induction urls as [|url urls IH]; intros st.
  - simpl. rewrite app_nil_r. repeat split.
  - cbn [run_attempts]. cbv zeta in IH.
    destruct (IH (after st (attempt_at W st url))) as (Htrace & Hfiles & Hurls).
    destruct (run_attempts W (after st (attempt_at W st url)) urls) as [l st'].
    cbn [fst snd] in *. split; [|split].
    + rewrite Htrace. cbn [after trace flat_map]. now rewrite app_assoc.
    + rewrite Hfiles. cbn [after files rev]. rewrite flat_map_app. cbn [flat_map].
      rewrite app_nil_r, app_assoc. reflexivity.
    + cbn [map]. rewrite Hurls. f_equal. unfold attempt_at.
      destruct (requests_get W (length (trace st)) url); [reflexivity..|].
      destruct (Image_opens W (length (trace st) + 2) (fresh_name (files st)));
        reflexivity.
Qed.

Lemma http_gets_attempts (attempts : list attempt) :
  http_gets (flat_map attempt_events attempts) = map attempt_url attempts.
Proof.
  induction attempts as [|a attempts IH]; [reflexivity|].
  destruct a; cbn [flat_map attempt_events app http_gets map attempt_url];
    now rewrite IH.
Qed.

Lemma attempts_raise_no_st_error (attempts : list attempt) :
  forallb (fun e => negb (is_st_error e)) (flat_map attempt_events attempts) = true.
Proof.
  induction attempts as [|a attempts IH]; [reflexivity|].
  destruct a; cbn [flat_map attempt_events app forallb is_st_error negb andb];
    exact IH.
Qed.

Lemma attempts_unlink_after_embed (attempts : list attempt) :
  unlink_follows_embed (flat_map attempt_events attempts) = true.
Proof.
  induction attempts as [|a attempts IH]; [reflexivity|].
  destruct a; cbn [flat_map attempt_events app unlink_follows_embed]; try exact IH.
  - rewrite IH, andb_true_r.
    destruct attempts as [|a' attempts]; [reflexivity|]. destruct a'; reflexivity.
  - rewrite Nat.eqb_refl, IH. reflexivity.
Qed.

Lemma image_files_app (a b : list flowable) :
  image_files (a ++ b) = image_files a ++ image_files b.
Proof.
  induction a as [|f a IH]; [reflexivity|].
  destruct f; cbn [app image_files]; now rewrite IH.
Qed.

Lemma image_files_bullet_lines (sty : style) (items : list pyval) :
  image_files (bullet_lines W sty items) = [].
Proof. induction items as [|v items IH]; [reflexivity | exact IH]. Qed.

Lemma image_files_slide_page (pd : PresentationData) (i : nat) (s : SlideContent)
    (attempts : list attempt) :
  image_files (slide_page W pd i s attempts) = embedded_files attempts.
Proof.
  assert (Htitle : forall l, image_files (flat_map title_image l) = embedded_files l).
  { induction l as [|a l IH]; [reflexivity|].
    cbn [flat_map]. rewrite image_files_app, IH. destruct a; reflexivity. }
  assert (Hcontent : forall l, image_files (flat_map content_image l) = embedded_files l).
  { induction l as [|a l IH]; [reflexivity|].
    cbn [flat_map]. rewrite image_files_app, IH. destruct a; reflexivity. }
  unfold slide_page, title_slide_head, title_slide_foot, content_slide_head,
    content_slide_foot.
  destruct (Nat.eqb i 0); rewrite !image_files_app, ?image_files_bullet_lines,
    ?Htitle, ?Hcontent.
  - destruct (truthy (additional_info s)); cbn [image_files app];
      now rewrite app_nil_r.
  - destruct (truthy (additional_info s)), (truthy (reference_urls s));
      rewrite ?image_files_app, ?image_files_bullet_lines; cbn [image_files app];
      now rewrite app_nil_r.
Qed.

Lemma image_files_join_pages (pages : list (list flowable)) :
  image_files (join_pages pages) = flat_map image_files pages.
Proof.
  induction pages as [|page pages IH]; [reflexivity|].
  destruct pages as [|page' pages].
  - simpl. now rewrite app_nil_r.
  - change (join_pages (page :: page' :: pages))
      with (page ++ PageBreak :: join_pages (page' :: pages)).
    rewrite image_files_app. cbn [image_files flat_map]. now rewrite IH.
Qed.

(** The pages are laid out along the attempts on the requested addresses. *)
Lemma pages_from_attempts (pd : PresentationData) (slides0 : list SlideContent) :
  forall (i : nat) (st : state),
    let r := run_attempts W st (requests_from i slides0) in
    snd (pages_from W pd i slides0 st) = snd r /\
    flat_map image_files (fst (pages_from W pd i slides0 st)) = embedded_files (fst r).
Proof.
  induction slides0 as [|s slides0 IH]; intros i st; [split; reflexivity|].
  cbv zeta. cbn [pages_from requests_from].
  destruct (run_attempts_app st (slide_requests i s) (requests_from (S i) slides0))
    as [Hfst Hsnd].
  rewrite Hfst, Hsnd.
  destruct (IH (S i) (snd (run_attempts W st (slide_requests i s)))) as [Hst Himg].
  destruct (pages_from W pd (S i) slides0
              (snd (run_attempts W st (slide_requests i s)))) as [pages st'].
  cbn [fst snd] in *. split; [exact Hst|].
  cbn [flat_map]. rewrite image_files_slide_page, Himg.
  unfold embedded_files. now rewrite flat_map_app.
Qed.

Lemma new_events_after (st : state) (a : attempt) :
  new_events st (after st a) = attempt_events a.
Proof. apply new_events_app. reflexivity. Qed.

Lemma attempt_at_failed (st : state) (url : pyval) :
  requests_get W (length (trace st)) url <> FetchDone \/
  Image_opens W (length (trace st) + 2) (fresh_name (files st)) = false ->
  content_image (attempt_at W st url) = [] /\ title_image (attempt_at W st url) = [].
Proof.
  unfold attempt_at. intros [Hget|Hopen].
  - destruct (requests_get W (length (trace st)) url); try (split; reflexivity).
    congruence.
  - rewrite Hopen. destruct (requests_get W (length (trace st)) url); split; reflexivity.
Qed.

Lemma images_are_images_or_gaps (attempts : list attempt) :
  forallb is_image_or_gap (flat_map title_image attempts) = true /\
  forallb is_image_or_gap (flat_map content_image attempts) = true.
Proof.
  induction attempts as [|a attempts [IHt IHc]]; [split; reflexivity|].
  destruct a; cbn [flat_map title_image content_image app forallb is_image_or_gap andb];
    split; assumption.
Qed.

Lemma well_typed_without_images (l : list SlideContent) :
  forallb well_typed_slide l = true ->
  forallb well_typed_slide (map without_images l) = true.
Proof.
  induction l as [|s l IH]; [reflexivity|]. cbn [forallb map].
  intros H. apply andb_true_iff in H as [Hs Hl].
  rewrite IH by assumption. rewrite andb_true_r.
  unfold well_typed_slide in *. cbn [without_images title bullet_points additional_info
    image_urls reference_urls is_str_list forallb].
  repeat (apply andb_true_iff in Hs as [Hs ?]).
  repeat (apply andb_true_iff; split); try assumption; reflexivity.
Qed.

(** The pages of a presentation are those of the same presentation
    without image addresses, with images (and their gaps) inserted. *)
Lemma pages_without_images (pd : PresentationData) (slides0 : list SlideContent) :
  forall (i : nat) (st st0 : state),
    snd (pages_from W (presentation_without_images pd) i (map without_images slides0) st0)
    = st0 /\
    Forall2 (fun page page0 =>
               exists head images foot,
                 page = head ++ images ++ foot /\
                 forallb is_image_or_gap images = true /\
                 page0 = head ++ foot)
            (fst (pages_from W pd i slides0 st))
            (fst (pages_from W (presentation_without_images pd) i
                             (map without_images slides0) st0)).
Proof.
  induction slides0 as [|s slides0 IH]; intros i st st0.
  - split; [reflexivity | constructor].
  - cbn [map pages_from].
    assert (Hnone : slide_requests i (without_images s) = [])
      by (unfold slide_requests; cbn; now destruct (Nat.eqb i 0)).
    rewrite Hnone. cbn [run_attempts snd fst].
    destruct (IH (S i) (snd (run_attempts W st (slide_requests i s))) st0) as [Hst Hall].
    destruct (pages_from W pd (S i) slides0
                (snd (run_attempts W st (slide_requests i s)))) as [pages st'].
    destruct (pages_from W (presentation_without_images pd) (S i)
                (map without_images slides0) st0) as [pages0 st0'].
    cbn [fst snd] in *. split; [exact Hst|].
    constructor; [|exact Hall].
    destruct (images_are_images_or_gaps (fst (run_attempts W st (slide_requests i s))))
      as [Htitle Hcontent].
    unfold slide_page. destruct (Nat.eqb i 0).
    + exists (title_slide_head W s pd),
        (flat_map title_image (fst (run_attempts W st (slide_requests i s)))),
        (title_slide_foot W pd).
      split; [reflexivity|]. split; [exact Htitle | reflexivity].
    + exists (content_slide_head W s),
        (flat_map content_image (fst (run_attempts W st (slide_requests i s)))),
        (content_slide_foot W s).
      split; [reflexivity|]. split; [exact Hcontent | reflexivity].
Qed.

Lemma pages_without_images_any_state (pd : PresentationData) (l : list SlideContent) :
  forall (i : nat) (st0 st1 : state),
    fst (pages_from W (presentation_without_images pd) i (map without_images l) st0)
    = fst (pages_from W (presentation_without_images pd) i (map without_images l) st1).
Proof.
  induction l as [|s l IH]; intros i st0 st1; [reflexivity|].
  cbn [map pages_from].
  assert (Hnone : slide_requests i (without_images s) = [])
    by (unfold slide_requests; cbn; now destruct (Nat.eqb i 0)).
  rewrite Hnone. cbn [run_attempts snd fst].
  specialize (IH (S i) st0 st1).
  destruct (pages_from W (presentation_without_images pd) (S i)
              (map without_images l) st0) as [pa sa].
  destruct (pages_from W (presentation_without_images pd) (S i)
              (map without_images l) st1) as [pb sb].
  cbn [fst] in *. now rewrite IH.
Qed.

Lemma pages_accepted_without_images (pd : PresentationData) (l : list SlideContent) :
  forall i,
    pages_accepted W (presentation_without_images pd) i (map without_images l)
    = pages_accepted W pd i l.
Proof.
  induction l as [|s l IH]; intros i; [reflexivity|].
  cbn [map pages_accepted]. rewrite IH. reflexivity.
Qed.

Lemma requests_without_images (l : list SlideContent) :
  forall i, requests_from i (map without_images l) = [].
Proof.
  induction l as [|s l IH]; intros i; [reflexivity|].
  cbn [map requests_from]. rewrite IH.
  unfold slide_requests. cbn. now destruct (Nat.eqb i 0).
Qed.

Lemma embedded_files_app (a b : list attempt) :
  embedded_files (a ++ b) = embedded_files a ++ embedded_files b.
Proof. unfold embedded_files. apply flat_map_app. Qed.

(** Attempts none of which ended with an image add nothing to a page. *)
Lemma no_embedded_no_images (attempts : list attempt) :
  embedded_files attempts = [] ->
  flat_map title_image attempts = [] /\ flat_map content_image attempts = [].
Proof.
  induction attempts as [|a attempts IH]; [split; reflexivity|].
  destruct a; cbn [embedded_files flat_map app title_image content_image];
    try exact IH; discriminate.
Qed.

(** When no image is embedded the pages are those of the presentation
    without image addresses. *)
Lemma pages_no_images (pd : PresentationData) (l : list SlideContent) :
  forall (i : nat) (st st0 : state),
    embedded_files (fst (run_attempts W st (requests_from i l))) = [] ->
    fst (pages_from W pd i l st)
    = fst (pages_from W (presentation_without_images pd) i (map without_images l) st0).
Proof.
  induction l as [|s l IH]; intros i st st0 Hnone; [reflexivity|].
  cbn [requests_from] in Hnone.
  destruct (run_attempts_app st (slide_requests i s) (requests_from (S i) l)) as [Hfst _].
  rewrite Hfst, embedded_files_app in Hnone. apply app_eq_nil in Hnone as [Hs Hl].
  cbn [map pages_from].
  assert (Hreq : slide_requests i (without_images s) = [])
    by (unfold slide_requests; cbn; now destruct (Nat.eqb i 0)).
  rewrite Hreq. cbn [run_attempts fst snd].
  specialize (IH (S i) (snd (run_attempts W st (slide_requests i s))) st0 Hl).
  destruct (pages_from W pd (S i) l (snd (run_attempts W st (slide_requests i s))))
    as [pages st1].
  destruct (pages_from W (presentation_without_images pd) (S i) (map without_images l) st0)
    as [pages0 st2].
  cbn [fst] in *. rewrite IH. f_equal.
  destruct (no_embedded_no_images _ Hs) as [Ht Hc].
  unfold slide_page. rewrite Ht, Hc. destruct (Nat.eqb i 0); reflexivity.
Qed.

Lemma flat_map_nil_all {A B : Type} (f : A -> list B) (l : list A) :
  flat_map f l = [] -> forall a, In a l -> f a = [].
Proof.
  induction l as [|x l IH]; intros H a Hin; [contradiction|].
  cbn [flat_map] in H. apply app_eq_nil in H as [Hx Hl].
  destruct Hin as [<-|Hin]; [exact Hx | now apply IH].
Qed.

Lemma all_nil_flat_map {A B : Type} (f : A -> list B) (l : list A) :
  (forall a, In a l -> f a = []) -> flat_map f l = [].
Proof.
  induction l as [|x l IH]; intros H; [reflexivity|].
  cbn [flat_map]. rewrite (H x) by now left. apply IH.
  intros a Ha. apply H. now right.
Qed.

(** As long as no attempt leaves a file behind, every file that was
    embedded had the name that is fresh for the files of the start. *)
Lemma embedded_files_fresh (urls : list pyval) :
  forall (st : state) (p : path),
    flat_map attempt_leak (fst (run_attempts W st urls)) = [] ->
    In p (embedded_files (fst (run_attempts W st urls))) ->
    p = fresh_name (files st).
Proof.
  induction urls as [|url urls IH]; intros st p Hleak Hin; [contradiction|].
  cbn [run_attempts] in Hleak, Hin.
  destruct (run_attempts W (after st (attempt_at W st url)) urls) as [l st'] eqn:Hrest.
  cbn [fst flat_map] in Hleak, Hin.
  apply app_eq_nil in Hleak as [Ha Hl].
  assert (Hfiles : files (after st (attempt_at W st url)) = files st)
    by (cbn [after files]; now rewrite Ha).
  change (embedded_files (attempt_at W st url :: l))
    with ((match attempt_at W st url with Embedded _ q => [q] | _ => [] end)
            ++ embedded_files l) in Hin.
  apply in_app_or in Hin as [Hin|Hin].
  - unfold attempt_at in Hin.
    destruct (requests_get W (length (trace st)) url); try contradiction.
    destruct (Image_opens W (length (trace st) + 2) (fresh_name (files st)));
      [|contradiction].
    destruct Hin as [<-|[]]. reflexivity.
  - specialize (IH (after st (attempt_at W st url)) p).
    rewrite Hrest in IH. cbn [fst] in IH. rewrite <- Hfiles. now apply IH.
Qed.

(** C6: while the story is laid out no image failure raises and none is
    reported: the images of the story are those of the attempts that ended
    with [Image] returning, each page is the page of the same slide
    without images with the images inserted, and a content slide asks for
    the first two of its addresses only.  When no attempt ends with an
    image (the request fails, the download breaks off, [Image] raises),
    the build receives the story of the presentation without images.  But
    when a download goes through and [Image] returns (and no other attempt
    leaves a file behind, under whose name a later file could be taken for
    this one), the file is removed before the build reads it: the build
    raises, [create_presentation] raises and the download block reports
    the failure. *)
Theorem embed_failure_aborts_rendering (pd : PresentationData) (st : state) :
  well_typed pd = true ->
  paragraphs_accepted W pd = true ->
  addresses_printable W pd = true ->
  exists pages pages0 attempts st',
    run_attempts W st (requests_from 0 (slides pd)) = (attempts, st') /\
    create_presentation_story W pd st = (inr (join_pages pages), st') /\
    forallb (fun e => negb (is_st_error e)) (new_events st st') = true /\
    http_gets (new_events st st') = requests_from 0 (slides pd) /\
    (forall k s, nth_error (slides pd) k = Some s -> 1 <= k ->
                 slide_requests k s = firstn 2 (items_of (image_urls s)) /\
                 length (slide_requests k s) <= 2) /\
    image_files (join_pages pages) = embedded_files attempts /\
    (forall st0,
        create_presentation_story W (presentation_without_images pd) st0
        = (inr (join_pages pages0), st0)) /\
    Forall2 (fun page page0 =>
               exists head images foot,
                 page = head ++ images ++ foot /\
                 forallb is_image_or_gap images = true /\
                 page0 = head ++ foot)
            pages pages0 /\
    (embedded_files attempts = [] ->
     pages = pages0 /\
     create_presentation W pd st =
     match doc_build W (join_pages pages0) with
     | Some pdf => (inr pdf, st')
     | None => (inl LibraryError, st')
     end) /\
    (embedded_files attempts <> [] ->
     flat_map attempt_leak attempts = [] ->
     files st' = files st /\
     (forall p, In p (image_files (join_pages pages)) -> ~ In p (files st')) /\
     create_presentation W pd st = (inl LibraryError, st') /\
     main_pdf_download W pd st
     = (inr None, log (StError (lit "Error generating PDF: ") (Some LibraryError)) st')).
Proof.
  intros Hty Hacc Hpr.
  pose proof (create_presentation_story_run pd st Hty Hacc Hpr) as Hrun.
  destruct (pages_from_attempts pd (slides pd) 0 st) as [Hst Himg].
  destruct (run_attempts_state (requests_from 0 (slides pd)) st)
    as (Htrace & Hfiles & Hurls).
  assert (Hty0 : well_typed (presentation_without_images pd) = true)
    by (apply well_typed_without_images; exact Hty).
  assert (Hacc0 : paragraphs_accepted W (presentation_without_images pd) = true)
    by (unfold paragraphs_accepted; cbn [presentation_without_images slides];
        rewrite pages_accepted_without_images; exact Hacc).
  assert (Hpr0 : addresses_printable W (presentation_without_images pd) = true)
    by (unfold addresses_printable; cbn [presentation_without_images slides];
        now rewrite requests_without_images).
  rewrite Hst in Hrun.
  destruct (run_attempts W st (requests_from 0 (slides pd))) as [attempts st'] eqn:Hr.
  cbn [fst snd] in *.
  exists (fst (pages_from W pd 0 (slides pd) st)),
    (fst (pages_from W (presentation_without_images pd) 0
                     (map without_images (slides pd)) initial)),
    attempts, st'.
  assert (Hnew : new_events st st' = flat_map attempt_events attempts)
    by (apply new_events_app; exact Htrace).
  assert (Himages : image_files (join_pages (fst (pages_from W pd 0 (slides pd) st)))
                    = embedded_files attempts)
    by (rewrite image_files_join_pages; exact Himg).
  assert (Hdoc : create_presentation W pd st
                 = SimpleDocTemplate_build W
                     (join_pages (fst (pages_from W pd 0 (slides pd) st))) st')
    by (unfold create_presentation; erewrite bind_run by exact Hrun; reflexivity).
  split; [reflexivity|].
  split; [exact Hrun|]. split; [rewrite Hnew; apply attempts_raise_no_st_error|].
  split; [rewrite Hnew, http_gets_attempts; exact Hurls|]. split.
  { intros k s _ Hk. unfold slide_requests.
    destruct k as [|k]; [lia|]. cbn [Nat.eqb]. split; [reflexivity|].
    rewrite length_firstn. lia. }
  split; [exact Himages|]. split.
  { intros st0. rewrite (create_presentation_story_run _ st0 Hty0 Hacc0 Hpr0).
    cbn [presentation_without_images slides].
    destruct (pages_without_images pd (slides pd) 0 st st0) as [Hst0 _].
    rewrite Hst0. f_equal. f_equal. f_equal.
    apply pages_without_images_any_state. }
  split; [now destruct (pages_without_images pd (slides pd) 0 st initial) as [_ Hinit]|].
  split.
  - intros Hnone.
    assert (Hpages : fst (pages_from W pd 0 (slides pd) st)
                     = fst (pages_from W (presentation_without_images pd) 0
                                       (map without_images (slides pd)) initial)).
    { apply pages_no_images. now rewrite Hr. }
    split; [exact Hpages|].
    rewrite Hdoc, build_without_images by (rewrite Himages; exact Hnone).
    rewrite Hpages. reflexivity.
  - intros Hsome Hleak.
    assert (Hsame : files st' = files st).
    { rewrite Hfiles. rewrite all_nil_flat_map; [reflexivity|].
      intros a Ha. apply in_rev in Ha. now apply (flat_map_nil_all _ _ Hleak). }
    assert (Hgone : forall p,
               In p (image_files (join_pages (fst (pages_from W pd 0 (slides pd) st)))) ->
               ~ In p (files st')).
    { intros p Hp. rewrite Himages in Hp.
      pose proof (embedded_files_fresh (requests_from 0 (slides pd)) st p) as Hfresh.
      rewrite Hr in Hfresh. cbn [fst] in Hfresh.
      rewrite (Hfresh Hleak Hp), Hsame. apply fresh_name_is_fresh. }
    assert (Hraise : create_presentation W pd st = (inl LibraryError, st')).
    { rewrite Hdoc.
      destruct (embedded_files attempts) as [|p rest] eqn:Hemb; [contradiction|].
      apply (build_missing_file _ st' p).
      - rewrite Himages. now left.
      - apply Hgone. rewrite Himages. now left. }
    split; [exact Hsame|]. split; [exact Hgone|]. split; [exact Hraise|].
    unfold main_pdf_download, try_except.
    erewrite bind_raise by exact Hraise. reflexivity.
Qed.

Lemma attempt_at_done (st : state) (url : pyval) (ok : bool) :
  requests_get W (length (trace st)) url = FetchDone ->
  Image_opens W (length (trace st) + 2) (fresh_name (files st)) = ok ->
  attempt_at W st url
  = if ok then Embedded url (fresh_name (files st))
    else Rejected url (fresh_name (files st)).
Proof. unfold attempt_at. now intros -> ->. Qed.

(** C7: a temporary file is removed right after [Image] returns, and only
    then: before the build has read it.  For one image of a content slide
    and for the image of the title slide, after a download that went
    through: when [Image] returns, the file is unlinked as the next step,
    it is gone afterwards, and the build of any story with this image
    raises; when [Image] raises, no unlink follows and the file stays.
    For a whole presentation: in the steps recorded every [Image] that
    returned is followed at once by the unlink of its file and no other
    is, and the files left behind are those of the attempts that did not
    end with [Image] returning after their file was created. *)
Theorem temporary_files_cleanup (content : list flowable) (url : pyval) (st : state) :
  let p := fresh_name (files st) in
  requests_get W (length (trace st)) url = FetchDone ->
  (Image_opens W (length (trace st) + 2) p = true ->
   exists st1,
     content_slide_image W content url st
     = (inr (content ++ [Image p 25 18; Spacer 1 1]), st1) /\
     title_slide_image W content url st = (inr (content ++ [Image p 30 20]), st1) /\
     new_events st st1
     = [HttpGet url; TempFileCreated p; ImageOpened p true; Unlinked p] /\
     files st1 = files st /\ ~ In p (files st1) /\
     (forall story, In p (image_files story) ->
                    SimpleDocTemplate_build W story st1 = (inl LibraryError, st1))) /\
  (Image_opens W (length (trace st) + 2) p = false ->
   exists st1,
     content_slide_image W content url st = (inr content, st1) /\
     title_slide_image W content url st = (inr content, st1) /\
     new_events st st1 = [HttpGet url; TempFileCreated p; ImageOpened p false] /\
     files st1 = p :: files st) /\
  (forall pd st0,
      well_typed pd = true ->
      paragraphs_accepted W pd = true ->
      addresses_printable W pd = true ->
      exists story attempts st',
        create_presentation_story W pd st0 = (inr story, st') /\
        run_attempts W st0 (requests_from 0 (slides pd)) = (attempts, st') /\
        new_events st0 st' = flat_map attempt_events attempts /\
        unlink_follows_embed (new_events st0 st') = true /\
        files st' = flat_map attempt_leak (rev attempts) ++ files st0 /\
        image_files story = embedded_files attempts /\
        (forall url0 p0, In (Rejected url0 p0) attempts ->
                         In (ImageOpened p0 false) (new_events st0 st') /\
                         In p0 (files st'))).
Proof.
  intros p Hget. split; [|split].
  - intros Hopen. exists (after st (attempt_at W st url)).
    rewrite content_slide_image_run, title_slide_image_run by (left; exact Hget).
    rewrite new_events_after, (attempt_at_done st url Hget Hopen). fold p.
    cbn [content_image title_image attempt_events after files attempt_leak app].
    assert (Hfresh : ~ In p (files st)) by apply fresh_name_is_fresh.
    split; [reflexivity|]. split; [reflexivity|]. split; [reflexivity|].
    split; [reflexivity|]. split; [exact Hfresh|].
    intros story Hin. now apply (build_missing_file story _ p).
  - intros Hopen. exists (after st (attempt_at W st url)).
    rewrite content_slide_image_run, title_slide_image_run by (left; exact Hget).
    rewrite new_events_after, (attempt_at_done st url Hget Hopen). fold p.
    cbn [content_image title_image attempt_events after files attempt_leak app].
    rewrite app_nil_r. repeat split.
  - intros pd st0 Hty Hacc Hpr.
    pose proof (create_presentation_story_run pd st0 Hty Hacc Hpr) as Hrun.
    destruct (pages_from_attempts pd (slides pd) 0 st0) as [Hst Himg].
    destruct (run_attempts_state (requests_from 0 (slides pd)) st0)
      as (Htrace & Hfiles & _).
    rewrite Hst in Hrun.
    destruct (run_attempts W st0 (requests_from 0 (slides pd))) as [attempts st'] eqn:Hr.
    cbn [fst snd] in *.
    exists (join_pages (fst (pages_from W pd 0 (slides pd) st0))), attempts, st'.
    assert (Hnew : new_events st0 st' = flat_map attempt_events attempts)
      by (apply new_events_app; exact Htrace).
    split; [exact Hrun|]. split; [reflexivity|]. split; [exact Hnew|].
    split; [rewrite Hnew; apply attempts_unlink_after_embed|].
    split; [exact Hfiles|].
    split; [rewrite image_files_join_pages; exact Himg|].
    intros url0 p0 Hin. split.
    + rewrite Hnew. apply in_flat_map. exists (Rejected url0 p0).
      split; [exact Hin | simpl; tauto].
    + rewrite Hfiles. apply in_or_app. left. apply in_flat_map.
      exists (Rejected url0 p0). split; [now apply in_rev in Hin | now left].
Qed.

End Renderer.

(** C5 fails as stated: the only slide of this presentation is titled
    "Welcome"; a document is emitted, and no paragraph of its story
    contains that text; the title page shows the topic "Energy". *)
Lemma first_slide_title_counterexample :
  well_typed welcome_deck = true /\
  map title (slides welcome_deck) = [PStr (lit "Welcome")] /\
  exists story pdf st',
    create_presentation_story offline welcome_deck initial = (inr story, st') /\
    create_presentation offline welcome_deck initial = (inr pdf, st') /\
    text_appears (lit "Welcome") story = false /\
    text_appears (lit "Energy") story = true.
Proof.
  split; [reflexivity|]. split; [reflexivity|].
  eexists. eexists. eexists. split; [vm_compute; reflexivity|].
  split; [vm_compute; reflexivity|].
  split; vm_compute; reflexivity.
Qed.

(** Two slides: one page break, and the title of the second slide in the
    story. *)
Lemma story_pages_and_titles_witness :
  exists pages st',
    create_presentation_story flaky energy_deck initial = (inr (join_pages pages), st') /\
    length pages = 2 /\
    page_breaks (join_pages pages) = 1 /\
    text_appears (lit "Costs") (join_pages pages) = true.
Proof.
  assert (Hn : 1 <= length (slides energy_deck)) by (simpl; lia).
  destruct (@story_pages_and_titles flaky energy_deck initial eq_refl eq_refl eq_refl Hn)
    as (pages & st' & Hrun & _ & Hlen & _ & Hbreaks & _ & Htitles & _).
  exists pages, st'. split; [exact Hrun|]. split; [exact Hlen|]. split; [exact Hbreaks|].
  assert (Hk : 1 <= 1) by lia.
  destruct (Htitles 1 costs_slide eq_refl Hk) as (page & _ & _ & _ & Htext).
  apply Htext. reflexivity.
Defined.

(** Three addresses are requested (the fourth is beyond the first two of
    its slide); two downloads go through, their files are removed, and no
    document is made. *)
Lemma embed_failure_aborts_rendering_witness :
  exists attempts st',
    run_attempts flaky initial (requests_from 0 (slides energy_deck)) = (attempts, st') /\
    attempts = [Embedded (PStr (lit "https://img.example/a")) 1;
                Embedded (PStr (lit "https://img.example/b")) 1;
                Refused (PStr (lit "https://img.example/c"))] /\
    files st' = [] /\
    create_presentation flaky energy_deck initial = (inl LibraryError, st') /\
    main_pdf_download flaky energy_deck initial
    = (inr None, log (StError (lit "Error generating PDF: ") (Some LibraryError)) st').
Proof.
  destruct (@embed_failure_aborts_rendering flaky energy_deck initial
              eq_refl eq_refl eq_refl)
    as (pages & pages0 & attempts & st' & Hattempts & _ & _ & _ & _ & _ & _ & _ & _ & Hslip).
  assert (Hvalue : attempts = [Embedded (PStr (lit "https://img.example/a")) 1;
                               Embedded (PStr (lit "https://img.example/b")) 1;
                               Refused (PStr (lit "https://img.example/c"))])
    by (vm_compute in Hattempts; injection Hattempts as <- _; vm_compute; reflexivity).
  assert (Hsome : embedded_files attempts <> []) by (rewrite Hvalue; discriminate).
  assert (Hleak : flat_map attempt_leak attempts = []) by (rewrite Hvalue; reflexivity).
  destruct (Hslip Hsome Hleak) as (Hfiles & _ & Hraise & Hmain).
  exists attempts, st'. split; [exact Hattempts|]. split; [exact Hvalue|].
  split; [exact Hfiles|]. split; [exact Hraise | exact Hmain].
Defined.

(** The first image of the sample presentation: downloaded, removed, and
    missing when a story with it is built. *)
Lemma temporary_files_cleanup_witness :
  exists st1,
    content_slide_image flaky [] (PStr (lit "https://img.example/a")) initial
    = (inr [Image 1 25 18; Spacer 1 1], st1) /\
    files st1 = [] /\
    SimpleDocTemplate_build flaky [Image 1 25 18; Spacer 1 1] st1 = (inl LibraryError, st1).
Proof.
  destruct (@temporary_files_cleanup flaky [] (PStr (lit "https://img.example/a")) initial
              eq_refl) as (Hdone & _ & _).
  destruct (Hdone eq_refl) as (st1 & Hrun & _ & _ & Hfiles & _ & Hbuild).
  exists st1. split; [exact Hrun|]. split; [exact Hfiles|].
  apply Hbuild. simpl. now left.
Defined.

(** * Further properties of the module *)

(** ** Trimming *)

Lemma lstrip_split (t : str) :
  exists pre, t = pre ++ lstrip t /\ is_blank pre = true.
Proof.
  induction t as [|c t (pre & Ht & Hpre)]; [exists []; split; reflexivity|].
  simpl. destruct (isspace c) eqn:Hc.
  - exists (c :: pre). split; [simpl; now rewrite <- Ht|].
    unfold is_blank in *. simpl. now rewrite Hc.
  - exists []. split; reflexivity.
Qed.

Lemma lstrip_head (t : str) (c : char) (rest : str) :
  lstrip t = c :: rest -> isspace c = false.
Proof.
  induction t as [|x t IH]; simpl; [discriminate|].
  destruct (isspace x) eqn:Hx; [exact IH|]. intros H. injection H as <- _. exact Hx.
Qed.

Lemma lstrip_keeps_last (t : str) (c : char) :
  isspace c = false -> lstrip (t ++ [c]) = lstrip t ++ [c].
Proof.
  intros Hc. induction t as [|x t IH]; simpl; [now rewrite Hc|].
  destruct (isspace x); [exact IH | reflexivity].
Qed.

Lemma lstrip_blank (t : str) : is_blank t = true -> lstrip t = [].
Proof.
  unfold is_blank. induction t as [|x t IH]; simpl; [reflexivity|].
  intros H. apply andb_true_iff in H as [Hx Ht]. rewrite Hx. now apply IH.
Qed.

Lemma is_blank_app (a b : str) : is_blank (a ++ b) = is_blank a && is_blank b.
Proof. unfold is_blank. apply forallb_app. Qed.

Lemma is_blank_rev (a : str) : is_blank (rev a) = is_blank a.
Proof.
  unfold is_blank. induction a as [|x a IH]; [reflexivity|].
  simpl. rewrite forallb_app, IH. simpl. rewrite andb_true_r. apply andb_comm.
Qed.

(** [strip] cuts whitespace off both ends and nothing else. *)
Lemma strip_split (t : str) :
  exists pre post,
    t = pre ++ strip t ++ post /\ is_blank pre = true /\ is_blank post = true.
Proof.
  destruct (lstrip_split t) as (pre & Ht & Hpre).
  destruct (lstrip_split (rev (lstrip t))) as (post & Hr & Hpost).
  exists pre, (rev post). split; [|split; [exact Hpre | now rewrite is_blank_rev]].
  unfold strip, rstrip. rewrite <- rev_app_distr, <- Hr, rev_involutive. exact Ht.
Qed.

Lemma strip_is_trimmed (t : str) : is_trimmed (strip t) = true.
Proof.
  unfold strip, rstrip.
  destruct (lstrip t) as [|c u] eqn:Hl; [reflexivity|].
  pose proof (lstrip_head _ Hl) as Hc.
  destruct (exists_last (l := c :: u)) as (init & z & Hz); [discriminate|].
  rewrite Hz, rev_app_distr. cbn [rev app].
  destruct (isspace z) eqn:Hspace.
  - (* the last character is blank: the first non-blank one ends the text *)
    remember (lstrip (z :: rev init)) as w eqn:Hw.
    destruct w as [|y w]; [reflexivity|].
    symmetry in Hw. pose proof (lstrip_head _ Hw) as Hy.
    assert (Hin : exists front, rev (y :: w) = c :: front).
    { destruct (lstrip_split (z :: rev init)) as (blank & Hsplit & Hblank).
      rewrite Hw in Hsplit.
      assert (Hrev : c :: u = rev (y :: w) ++ rev blank).
      { rewrite Hz. rewrite <- rev_app_distr, <- Hsplit. cbn [rev].
        now rewrite rev_involutive. }
      destruct (rev (y :: w)) as [|a front] eqn:Hfront.
      - apply (f_equal (@rev char)) in Hfront. rewrite rev_involutive in Hfront.
        discriminate.
      - injection Hrev as -> _. now exists front. }
    destruct Hin as (front & Hfront). rewrite Hfront. cbn [is_trimmed].
    rewrite Hc. cbn [negb andb].
    assert (Hlast : last (c :: front) c = y).
    { rewrite <- Hfront. cbn [rev]. apply last_last. }
    now rewrite Hlast, Hy.
  - cbn [lstrip]. rewrite Hspace. cbn [rev]. rewrite rev_involutive.
    rewrite <- Hz. cbn [is_trimmed]. rewrite Hc. cbn [negb andb].
    rewrite Hz, last_last. now rewrite Hspace.
Qed.

Lemma strip_blank (t : str) : is_blank t = true -> strip t = [].
Proof.
  intros H. unfold strip, rstrip. now rewrite (lstrip_blank _ H).
Qed.

Lemma strip_of_trimmed (t : str) : is_trimmed t = true -> strip t = t.
Proof.
  destruct t as [|c u]; [reflexivity|]. cbn [is_trimmed]. intros H.
  apply andb_true_iff in H as [Hc Hlast].
  apply negb_true_iff in Hc. apply negb_true_iff in Hlast.
  unfold strip, rstrip. cbn [lstrip]. rewrite Hc.
  destruct (exists_last (l := c :: u)) as (init & z & Hz); [discriminate|].
  rewrite Hz in *. rewrite last_last in Hlast.
  rewrite rev_app_distr. cbn [rev app lstrip]. rewrite Hlast.
  cbn [rev]. now rewrite rev_involutive.
Qed.

(** ** Reading documents *)

Section Reading.

Variable W : World.

Lemma fold_lines (parts : list str) (acc : str) :
  fold_left (fun text part => text ++ part ++ [newline]) parts acc
  = acc ++ lines_of parts.
Proof.
  revert acc; induction parts as [|part parts IH]; intros acc; simpl.
  - now rewrite app_nil_r.
  - rewrite IH, <- !app_assoc. reflexivity.
Qed.

Lemma extract_text_from_pdf_run (file : UploadedFile) (st : state) :
  extract_text_from_pdf W file st =
  match PdfReader_pages W file with
  | Some pages => (inr (strip (lines_of pages)), st)
  | None => (inr [], log (StError (lit "Error reading PDF: ") (Some LibraryError)) st)
  end.
Proof.
  unfold extract_text_from_pdf, try_except.
  destruct (PdfReader_pages W file) as [pages|]; [|reflexivity].
  rewrite fold_lines. reflexivity.
Qed.

Lemma extract_text_from_docx_run (file : UploadedFile) (st : state) :
  extract_text_from_docx W file st =
  match Document_paragraphs W file with
  | Some paragraphs => (inr (strip (lines_of paragraphs)), st)
  | None => (inr [], log (StError (lit "Error reading DOCX: ") (Some LibraryError)) st)
  end.
Proof.
  unfold extract_text_from_docx, try_except.
  destruct (Document_paragraphs W file) as [paragraphs|]; [|reflexivity].
  rewrite fold_lines. reflexivity.
Qed.

Lemma new_events_same (st : state) : new_events st st = [].
Proof. apply new_events_app. now rewrite app_nil_r. Qed.

Lemma new_events_log (st : state) (e : event) : new_events st (log e st) = [e].
Proof. apply new_events_app. reflexivity. Qed.

(** X1: reading an upload never raises.  Whatever the file and whatever the
    libraries do, [process_uploaded_file] returns a text, touches no file,
    and records at most one step: an [st.error], in which case the text is
    empty. *)
Theorem process_uploaded_file_never_raises (uploaded_file : option UploadedFile)
    (st : state) :
  exists text st',
    process_uploaded_file W uploaded_file st = (inr text, st') /\
    files st' = files st /\
    (new_events st st' = [] \/
     (text = [] /\ exists msg exc, new_events st st' = [StError msg exc])).
Proof.
  destruct uploaded_file as [file|].
  2:{ exists [], st. split; [reflexivity|]. split; [reflexivity|].
      left. apply new_events_same. }
  unfold process_uploaded_file.
  destruct (str_eqb (file_type file) (lit "application/pdf")).
  { rewrite extract_text_from_pdf_run.
    destruct (PdfReader_pages W file); eexists; eexists;
      (split; [reflexivity|]); (split; [reflexivity|]).
    - left. apply new_events_same.
    - right. split; [reflexivity|]. do 2 eexists. apply new_events_log. }
  destruct (str_eqb (file_type file)
              (lit "application/vnd.openxmlformats-officedocument.wordprocessingml.document")).
  { rewrite extract_text_from_docx_run.
    destruct (Document_paragraphs W file); eexists; eexists;
      (split; [reflexivity|]); (split; [reflexivity|]).
    - left. apply new_events_same.
    - right. split; [reflexivity|]. do 2 eexists. apply new_events_log. }
  destruct (str_eqb (file_type file) (lit "text/plain")).
  { unfold extract_text_from_txt, try_except.
    destruct (decode_utf8 W (file_bytes file)); eexists; eexists;
      (split; [reflexivity|]); (split; [reflexivity|]).
    - left. apply new_events_same.
    - right. split; [reflexivity|]. do 2 eexists. apply new_events_log. }
  destruct (str_eqb (file_type file) (lit "text/csv")).
  { unfold extract_text_from_csv, try_except.
    destruct (read_csv W file) as [[[[rows columns] names] described]|];
      eexists; eexists; (split; [reflexivity|]); (split; [reflexivity|]).
    - left. apply new_events_same.
    - right. split; [reflexivity|]. do 2 eexists. apply new_events_log. }
  eexists. eexists. split; [reflexivity|]. split; [reflexivity|].
  right. split; [reflexivity|]. do 2 eexists. apply new_events_log.
Qed.

(** X2: the text of a PDF is its pages, each followed by an end of line,
    with the whitespace at both ends removed and nothing else: it never
    begins or ends with whitespace, and what was cut off is blank.  The
    same holds for the paragraphs of a Word document. *)
Theorem pdf_and_docx_text_is_trimmed (file : UploadedFile) (st : state) :
  (forall pages,
      PdfReader_pages W file = Some pages ->
      exists text pre post,
        extract_text_from_pdf W file st = (inr text, st) /\
        is_trimmed text = true /\
        lines_of pages = pre ++ text ++ post /\
        is_blank pre = true /\ is_blank post = true) /\
  (forall paragraphs,
      Document_paragraphs W file = Some paragraphs ->
      exists text pre post,
        extract_text_from_docx W file st = (inr text, st) /\
        is_trimmed text = true /\
        lines_of paragraphs = pre ++ text ++ post /\
        is_blank pre = true /\ is_blank post = true).
Proof.
  split.
  - intros pages Hpages.
    destruct (strip_split (lines_of pages)) as (pre & post & Hsplit & Hpre & Hpost).
    exists (strip (lines_of pages)), pre, post.
    rewrite extract_text_from_pdf_run, Hpages.
    split; [reflexivity|]. split; [apply strip_is_trimmed|].
    split; [exact Hsplit|]. split; assumption.
  - intros paragraphs Hparagraphs.
    destruct (strip_split (lines_of paragraphs)) as (pre & post & Hsplit & Hpre & Hpost).
    exists (strip (lines_of paragraphs)), pre, post.
    rewrite extract_text_from_docx_run, Hparagraphs.
    split; [reflexivity|]. split; [apply strip_is_trimmed|].
    split; [exact Hsplit|]. split; assumption.
Qed.

Lemma lines_of_blank (parts : list str) :
  forallb is_blank parts = true -> is_blank (lines_of parts) = true.
Proof.
  induction parts as [|part parts IH]; [reflexivity|].
  cbn [forallb lines_of flat_map]. intros H.
  apply andb_true_iff in H as [Hpart Hparts].
  rewrite !is_blank_app, Hpart. change (flat_map _ parts) with (lines_of parts).
  rewrite (IH Hparts). reflexivity.
Qed.

(** X3: a PDF whose pages hold only whitespace is no document at all: no
    step is recorded, and the application generates exactly as it does
    with the topic alone. *)
Theorem blank_pdf_is_no_document (file : UploadedFile) (pages : list str)
    (ai_generator : AIContentGenerator) (topic0 : str) (st : state) :
  file_type file = mime_pdf ->
  PdfReader_pages W file = Some pages ->
  forallb is_blank pages = true ->
  process_uploaded_file W (Some file) st = (inr [], st) /\
  main_generate W ai_generator UploadDocument topic0 (Some file) st
  = main_generate W ai_generator TopicOnly topic0 None st.
Proof.
  intros Htype Hpages Hblank.
  assert (Hrun : process_uploaded_file W (Some file) st = (inr [], st)).
  { unfold process_uploaded_file. rewrite Htype.
    change (str_eqb mime_pdf (lit "application/pdf")) with true. cbv iota.
    rewrite extract_text_from_pdf_run, Hpages.
    now rewrite (strip_blank _ (lines_of_blank _ Hblank)). }
  split; [exact Hrun|].
  unfold main_generate, main_document_content. unfold bind at 1. rewrite Hrun.
  reflexivity.
Qed.

(** X4: a table pandas can read always counts as a document, even an empty
    one: the summary begins with its fixed heading and is never empty, so
    the application hands it to the generator as the document text. *)
Theorem readable_csv_is_a_document (file : UploadedFile) (rows columns : nat)
    (names : list str) (described : str) (ai_generator : AIContentGenerator)
    (topic0 : str) (st : state) :
  file_type file = mime_csv ->
  read_csv W file = Some (rows, columns, names, described) ->
  exists summary,
    process_uploaded_file W (Some file) st = (inr summary, st) /\
    summary = lit "Dataset Summary:" ++ [newline]
                ++ lit "Shape: " ++ str_of_nat rows ++ lit " rows, "
                ++ str_of_nat columns ++ lit " columns" ++ [newline]
                ++ lit "Columns: " ++ join (lit ", ") names ++ [newline; newline]
                ++ lit "Data Overview:" ++ [newline] ++ described /\
    truthy (PStr summary) = true /\
    main_generate W ai_generator UploadDocument topic0 (Some file) st
    = generate_presentation_content W ai_generator topic0 summary st.
Proof.
  intros Htype Hread.
  assert (Hrun : exists summary,
    process_uploaded_file W (Some file) st = (inr summary, st) /\
    summary = lit "Dataset Summary:" ++ [newline]
                ++ lit "Shape: " ++ str_of_nat rows ++ lit " rows, "
                ++ str_of_nat columns ++ lit " columns" ++ [newline]
                ++ lit "Columns: " ++ join (lit ", ") names ++ [newline; newline]
                ++ lit "Data Overview:" ++ [newline] ++ described).
  { eexists. split.
    - unfold process_uploaded_file. rewrite Htype.
      change (str_eqb mime_csv (lit "application/pdf")) with false.
      change (str_eqb mime_csv
                (lit "application/vnd.openxmlformats-officedocument.wordprocessingml.document"))
        with false.
      change (str_eqb mime_csv (lit "text/plain")) with false.
      change (str_eqb mime_csv (lit "text/csv")) with true. cbv iota.
      unfold extract_text_from_csv, try_except. rewrite Hread. reflexivity.
    - rewrite <- !app_assoc. reflexivity. }
  destruct Hrun as (summary & Hrun & Hsummary).
  exists summary. split; [exact Hrun|]. split; [exact Hsummary|]. split.
  - rewrite Hsummary. reflexivity.
  - unfold main_generate, main_document_content. unfold bind at 1. rewrite Hrun.
    reflexivity.
Qed.

End Reading.

(** ** More on the payload *)

Lemma brace_split_dec (t : str) :
  (exists pre mid post,
      t = pre ++ lbrace :: mid ++ rbrace :: post /\
      ~ In lbrace pre /\ ~ In rbrace post) \/
  ~ (exists pre mid post, t = pre ++ lbrace :: mid ++ rbrace :: post).
Proof.
  destruct (in_dec N.eq_dec lbrace t) as [Hl|Hl].
  2:{ right. intros (pre & mid & post & ->). apply Hl, in_elt. }
  destruct (first_occurrence _ _ Hl) as (pre & rest & -> & Hpre).
  destruct (in_dec N.eq_dec rbrace rest) as [Hr|Hr].
  - destruct (last_occurrence _ _ Hr) as (mid & post & -> & Hpost).
    left. now exists pre, mid, post.
  - right. intros (pre' & mid' & post' & Heq).
    assert (Hin : In rbrace (mid' ++ rbrace :: post')) by apply in_elt.
    apply app_eq_app in Heq as (l & [[Hpre' Hrest]|[Hpre' Hrest]]).
    + destruct l as [|x l].
      * simpl in Hrest. injection Hrest as <-. contradiction.
      * injection Hrest as <- _. apply Hpre. rewrite Hpre'. apply in_elt.
    + destruct l as [|x l].
      * simpl in Hrest. injection Hrest as ->. contradiction.
      * injection Hrest as _ ->. apply Hr. apply in_or_app. right. now right.
Qed.

(** X5: whatever is handed to the decoder is a part of the response that
    begins with an opening brace and ends with a closing brace, with no
    opening brace before it and no closing brace after it; cutting the
    payload out of a payload gives the payload again. *)
Theorem json_payload_shape (t json_str : str) :
  json_payload t = Some json_str ->
  exists pre mid post,
    t = pre ++ json_str ++ post /\
    json_str = lbrace :: mid ++ [rbrace] /\
    ~ In lbrace pre /\ ~ In rbrace post /\
    2 <= length json_str /\
    json_payload json_str = Some json_str.
Proof.
  intros Hpayload.
  destruct (brace_split_dec t) as [(pre & mid & post & Ht & Hpre & Hpost)|Hno].
  2:{ rewrite (@json_payload_missing t Hno) in Hpayload. discriminate. }
  pose proof (@json_payload_found pre mid post Hpre Hpost) as Hfound.
  rewrite <- Ht, Hpayload in Hfound. injection Hfound as ->.
  exists pre, mid, post. split.
  { rewrite Ht. cbn [app]. rewrite <- app_assoc. reflexivity. }
  split; [reflexivity|]. split; [exact Hpre|]. split; [exact Hpost|]. split.
  { cbn [length]. rewrite length_app. simpl. lia. }
  apply (@json_payload_found [] mid []); intros [].
Qed.

(** ** Closed fences *)

Lemma startswith_app (sub rest : str) : startswith (sub ++ rest) sub = true.
Proof.
  induction sub as [|c sub IH]; [reflexivity|].
  simpl. now rewrite N.eqb_refl.
Qed.

Lemma find_from_skip (pre rest : str) (c : char) (sub : str) (i : Z) :
  ~ In c pre ->
  find_from (pre ++ rest) (c :: sub) i
  = find_from rest (c :: sub) (i + Z.of_nat (length pre)).
Proof.
  revert i; induction pre as [|x pre IH]; intros i Hin.
  - simpl. now rewrite Z.add_0_r.
  - cbn [app find_from startswith].
    destruct (N.eqb_spec c x) as [->|Hne]; [exfalso; apply Hin; now left|].
    cbn [andb]. rewrite IH by (intros H; apply Hin; now right).
    f_equal. cbn [length]. lia.
Qed.

Lemma rfind_from_at (front : str) (x : char) (rest sub : str) (i : Z) :
  (0 <= i)%Z ->
  startswith (x :: rest) sub = true ->
  (forall j, rfind_from rest sub j = (-1)%Z) ->
  rfind_from (front ++ x :: rest) sub i = (i + Z.of_nat (length front))%Z.
Proof.
  intros Hi Hstart Hnone. revert i Hi.
  induction front as [|y front IH]; intros i Hi.
  - cbn [app rfind_from]. rewrite Hnone. cbn. rewrite Hstart. simpl. lia.
  - cbn [app rfind_from length]. rewrite IH by lia.
    destruct (Z.leb_spec 0 (i + 1 + Z.of_nat (length front))); lia.
Qed.

Lemma startswith_fence (x : char) (rest : str) :
  startswith (x :: rest) fence = N.eqb backtick x && startswith rest [backtick; backtick].
Proof. reflexivity. Qed.

Lemma not_backtick (x : char) (rest : str) :
  ~ In backtick (x :: rest) -> N.eqb backtick x = false.
Proof.
  intros Hin. destruct (N.eqb_spec backtick x) as [<-|]; [|reflexivity].
  exfalso. apply Hin. now left.
Qed.

Lemma rfind_from_fence_absent (post : str) (j : Z) :
  ~ In backtick post -> rfind_from post fence j = (-1)%Z.
Proof.
  revert j; induction post as [|x post IH]; intros j Hin; [reflexivity|].
  cbn [rfind_from]. rewrite IH by (intros H; apply Hin; now right).
  rewrite startswith_fence, (not_backtick Hin). reflexivity.
Qed.

Lemma rfind_from_fence_tail (post : str) (j : Z) :
  ~ In backtick post ->
  rfind_from (backtick :: backtick :: post) fence j = (-1)%Z.
Proof.
  intros Hin. cbn [rfind_from].
  rewrite rfind_from_fence_absent by assumption.
  rewrite !startswith_fence.
  destruct post as [|x rest]; [reflexivity|].
  cbn [startswith]. rewrite (not_backtick Hin). reflexivity.
Qed.

Lemma find_from_here (t sub : str) (i : Z) :
  startswith t sub = true -> find_from t sub i = i.
Proof. intros H. destruct t; simpl; now rewrite H. Qed.

(** The fence step on a response with one closed fence. *)
Lemma strip_fence_closed (pre body post : str) :
  ~ In backtick pre -> ~ In backtick body -> ~ In backtick post ->
  let t := pre ++ fence_open ++ body ++ fence ++ post in
  strip_fence t = if Nat.eqb (length body) 0 then t else strip body.
Proof.
  intros Hpre Hbody Hpost t.
  assert (Hfind : find t fence_open = Z.of_nat (length pre)).
  { unfold find, t. change fence_open with (backtick :: lit "``json").
    rewrite find_from_skip by assumption.
    change (backtick :: lit "``json") with fence_open.
    rewrite find_from_here by apply startswith_app. lia. }
  assert (Hrfind : rfind t fence
                   = Z.of_nat (length pre + 7 + length body)).
  { unfold rfind, t.
    replace (pre ++ fence_open ++ body ++ fence ++ post)
      with ((pre ++ fence_open ++ body) ++ backtick :: (backtick :: backtick :: post))
      by (rewrite <- !app_assoc; reflexivity).
    rewrite rfind_from_at.
    - rewrite !length_app. change (length fence_open) with 7. lia.
    - lia.
    - reflexivity.
    - intros j. now apply rfind_from_fence_tail. }
  unfold strip_fence, contains. rewrite Hfind, Hrfind.
  destruct (Z.leb_spec 0 (Z.of_nat (length pre))); [|lia].
  destruct body as [|b body].
  - cbn [length Nat.eqb].
    destruct (Z.gtb_spec (Z.of_nat (length pre + 7 + 0)) (Z.of_nat (length pre) + 7));
      [lia | reflexivity].
  - cbn [length Nat.eqb].
    destruct (Z.gtb_spec (Z.of_nat (length pre + 7 + S (length body)))
                         (Z.of_nat (length pre) + 7)); [|lia].
    f_equal. unfold t.
    replace (pre ++ fence_open ++ (b :: body) ++ fence ++ post)
      with ((pre ++ fence_open) ++ (b :: body) ++ fence ++ post)
      by (rewrite <- !app_assoc; reflexivity).
    replace (Z.of_nat (length pre) + 7)%Z with (Z.of_nat (length (pre ++ fence_open)))
      by (rewrite length_app; change (length fence_open) with 7; lia).
    replace (Z.of_nat (length pre + 7 + S (length body)))
      with (Z.of_nat (length (pre ++ fence_open) + length (b :: body)))
      by (rewrite length_app; change (length fence_open) with 7; cbn [length]; lia).
    apply slice_middle.
Qed.

Section Parsing.

Variable W : World.

(** X6: in a response with one closed fence, the commentary before and
    after the fence is dropped, braces included: the payload is cut from
    the trimmed text between the fences.  When there is nothing between
    the fences the response is left as it is. *)
Theorem fenced_payload_ignores_commentary (prompt text pre body post : str)
    (st : state) :
  generate_content W (length (trace st)) prompt = Some text ->
  strip text = pre ++ fence_open ++ body ++ fence ++ post ->
  ~ In backtick pre -> ~ In backtick body -> ~ In backtick post ->
  let inner := if Nat.eqb (length body) 0 then strip text else strip body in
  strip_fence (strip text) = inner /\
  generate_with_gemini W prompt st =
  let st1 := log (GeminiCall prompt) st in
  match json_payload inner with
  | Some json_str =>
      match json_loads W json_str with
      | Some v => (inr v, st1)
      | None =>
          (inr PNone,
           log (StError (lit "Error generating content with Gemini: ") (Some LibraryError)) st1)
      end
  | None => (inr PNone, log (StError (lit "Could not parse JSON from AI response") None) st1)
  end.
Proof.
  intros Htext Hsplit Hpre Hbody Hpost inner.
  assert (Hfence : strip_fence (strip text) = inner).
  { subst inner. rewrite Hsplit. now apply strip_fence_closed. }
  split; [exact Hfence|].
  rewrite (generate_with_gemini_text W prompt st Htext), Hfence. reflexivity.
Qed.

(** *** From decoded objects to slides *)

Lemma slide_of_dict (d : list (str * pyval)) (st : state) :
  slide_of (PDict d) st = (inr (slide_defaults d), st).
Proof. reflexivity. Qed.

Lemma slide_of_other (v : pyval) (st : state) :
  is_dict v = false -> slide_of v st = (inl AttributeError, st).
Proof. destruct v; try reflexivity. discriminate. Qed.

Lemma for_each_slide_of_dicts (ds : list (list (str * pyval))) (st : state) :
  for_each slide_of (map PDict ds) st = (inr (map slide_defaults ds), st).
Proof.
  induction ds as [|d ds IH]; [reflexivity|].
  cbn [map for_each]. unfold bind at 1. rewrite slide_of_dict.
  unfold bind at 1. rewrite IH. reflexivity.
Qed.

Lemma for_each_slide_of_other (items : list pyval) (st : state) :
  existsb (fun v => negb (is_dict v)) items = true ->
  for_each slide_of items st = (inl AttributeError, st).
Proof.
  induction items as [|v items IH]; [discriminate|].
  cbn [existsb for_each]. intros H. unfold bind at 1.
  destruct (is_dict v) eqn:Hv.
  - destruct v; try discriminate. rewrite slide_of_dict.
    unfold bind at 1. rewrite IH by exact H. reflexivity.
  - now rewrite slide_of_other.
Qed.

Lemma for_each_slide_of_result (items : list pyval) (st st' : state)
    (l : list SlideContent) :
  for_each slide_of items st = (inr l, st') ->
  exists ds, items = map PDict ds /\ l = map slide_defaults ds /\ st' = st.
Proof.
  revert l st'; induction items as [|v items IH]; intros l st' H.
  - injection H as <- <-. now exists [].
  - cbn [for_each] in H. unfold bind at 1 in H.
    destruct (is_dict v) eqn:Hv.
    + destruct v; try discriminate. rewrite slide_of_dict in H.
      unfold bind at 1 in H.
      destruct (for_each slide_of items st) as [[e|l'] st''] eqn:Hrest;
        [discriminate|].
      destruct (IH l' st'' eq_refl) as (ds & -> & -> & ->).
      injection H as <- <-. now exists (d :: ds).
    + rewrite slide_of_other in H by assumption. discriminate.
Qed.

Lemma all_dicts (items : list pyval) :
  existsb (fun v => negb (is_dict v)) items = false ->
  exists ds, items = map PDict ds.
Proof.
  induction items as [|v items IH]; [now exists []|].
  cbn [existsb]. intros H. apply orb_false_iff in H as [Hv Hitems].
  destruct (IH Hitems) as (ds & ->).
  destruct v; try discriminate. now exists (d :: ds).
Qed.

(** The loop over the decoded value, under its [try]: either every item
    of its [slides] entry is an object and becomes a slide, or the
    exception is reported and the fallback is generated. *)
Lemma decoded_value_cases (topic0 : str) (v : pyval) (st1 : state) :
  let run :=
    try_except
      (bind (lift (py_get v (lit "slides") (PList []))) (fun slides_value =>
       bind (lift (py_iter slides_value)) (fun items =>
       bind (for_each slide_of items) (fun slides =>
       bind (now W) (fun generated_at =>
       ret {| slides := slides; topic := topic0; generated_at := generated_at |})))))
      (fun e =>
         bind (st_error_exc (lit "Error parsing AI response: ") e)
              (fun _ => _generate_fallback_content W topic0))
      st1 in
  (exists d ds,
      v = PDict d /\
      py_iter (dict_get d (lit "slides") (PList [])) = inr (map PDict ds) /\
      run = (inr {| slides := map slide_defaults ds;
                    topic := topic0;
                    generated_at := datetime_now W (length (trace st1)) |}, st1)) \/
  (exists e,
      run = _generate_fallback_content W topic0
              (log (StError (lit "Error parsing AI response: ") (Some e)) st1) /\
      (forall d items,
          v = PDict d ->
          py_iter (dict_get d (lit "slides") (PList [])) = inr items ->
          e = AttributeError /\ existsb (fun x => negb (is_dict x)) items = true)).
Proof.
  cbv zeta.
  destruct v as [| b | z | f | s0 | l | d];
    try (right; exists AttributeError; split;
         [cbn [py_get]; erewrite try_except_run by apply bind_lift_inl; reflexivity
         | intros; discriminate]).
  cbn [py_get].
  destruct (py_iter (dict_get d (lit "slides") (PList []))) as [e|items] eqn:Hiter.
  { right. exists e. split.
    - erewrite try_except_run by (rewrite bind_lift_inr, Hiter; apply bind_lift_inl).
      reflexivity.
    - intros d' items H Hitems. injection H as <-. congruence. }
  destruct (existsb (fun x => negb (is_dict x)) items) eqn:Hother.
  - right. exists AttributeError. split.
    + erewrite try_except_run
        by (rewrite bind_lift_inr, Hiter, bind_lift_inr; unfold bind at 1;
            rewrite (for_each_slide_of_other items st1 Hother); reflexivity).
      reflexivity.
    + intros d' items' H Hitems. injection H as <-.
      rewrite Hiter in Hitems. injection Hitems as <-. now split.
  - destruct (all_dicts items Hother) as (ds & ->).
    left. exists d, ds. split; [reflexivity|]. split; [exact Hiter|].
    erewrite try_except_run
      by (rewrite bind_lift_inr, Hiter, bind_lift_inr; unfold bind at 1;
          rewrite for_each_slide_of_dicts; reflexivity).
    reflexivity.
Qed.

(** X7: when the decoded object holds a list of slide objects, the
    presentation has one slide per object, in the order of the list, each
    with the entries of its object and the defaults for the missing ones;
    nothing is reported, and the only step taken is the call of the
    backend. *)
Theorem decoded_slides_in_order (self : AIContentGenerator)
    (topic0 document_content : str) (st : state)
    (d : list (str * pyval)) (ds : list (list (str * pyval))) :
  api_key self <> [] ->
  let prompt := create_presentation_prompt topic0 document_content in
  let st1 := log (GeminiCall prompt) st in
  outcome_of W prompt (length (trace st)) = Decoded (PDict d) ->
  d <> [] ->
  dict_get d (lit "slides") (PList []) = PList (map PDict ds) ->
  generate_presentation_content W self topic0 document_content st =
  (inr {| slides := map slide_defaults ds;
          topic := topic0;
          generated_at := datetime_now W (length (trace st1)) |}, st1).
Proof.
  intros Hkey prompt st1 Hout Hne Hslides.
  rewrite (generate_presentation_content_run W self topic0 document_content st Hkey).
  cbv zeta. fold prompt. rewrite Hout.
  apply truthy_dict_nonempty in Hne. rewrite Hne. fold st1.
  erewrite try_except_run
    by (cbn [py_get]; rewrite bind_lift_inr, Hslides; cbn [py_iter];
        rewrite bind_lift_inr; unfold bind at 1;
        rewrite for_each_slide_of_dicts; reflexivity).
  reflexivity.
Qed.

(** X8: no partial result.  If one item of the decoded [slides] list is
    not an object, none of the slides is kept: the failure is reported and
    the fallback is returned. *)
Theorem one_bad_slide_discards_all (self : AIContentGenerator)
    (topic0 document_content : str) (st : state)
    (d : list (str * pyval)) (items : list pyval) :
  api_key self <> [] ->
  let prompt := create_presentation_prompt topic0 document_content in
  let st2 := log (StError (lit "Error parsing AI response: ") (Some AttributeError))
                 (log (GeminiCall prompt) st) in
  outcome_of W prompt (length (trace st)) = Decoded (PDict d) ->
  d <> [] ->
  dict_get d (lit "slides") (PList []) = PList items ->
  existsb (fun v => negb (is_dict v)) items = true ->
  exists p,
    generate_presentation_content W self topic0 document_content st = (inr p, st2) /\
    is_fallback W topic0 p st2 /\
    length (slides p) = 4.
Proof.
  intros Hkey prompt st2 Hout Hne Hslides Hother.
  destruct (fallback_run W topic0 st2) as (p & Hfb & _ & _ & Hlen).
  exists p. split; [|split; [exact Hfb | exact Hlen]].
  rewrite (generate_presentation_content_run W self topic0 document_content st Hkey).
  cbv zeta. fold prompt. rewrite Hout.
  apply truthy_dict_nonempty in Hne. rewrite Hne.
  erewrite try_except_run
    by (cbn [py_get]; rewrite bind_lift_inr, Hslides; cbn [py_iter];
        rewrite bind_lift_inr; unfold bind at 1;
        rewrite (for_each_slide_of_other items _ Hother); reflexivity).
  exact Hfb.
Qed.

(** What a run of the generator can come to. *)
Lemma generate_presentation_content_cases (self : AIContentGenerator)
    (topic0 document_content : str) (st : state) :
  let prompt := create_presentation_prompt topic0 document_content in
  exists p st',
    generate_presentation_content W self topic0 document_content st = (inr p, st') /\
    files st' = files st /\
    (is_fallback W topic0 p st' \/ exists ds, slides p = map slide_defaults ds) /\
    (api_key self <> [] ->
     new_events st st' = [GeminiCall prompt] \/
     (exists msg exc, new_events st st' = [GeminiCall prompt; StError msg exc]
                      /\ is_fallback W topic0 p st')).
Proof.
  intros prompt.
  assert (Hfall : forall st1 evs,
    trace st1 = trace st ++ evs -> files st1 = files st ->
    (api_key self <> [] ->
     evs = [GeminiCall prompt] \/
     exists msg exc, evs = [GeminiCall prompt; StError msg exc]) ->
    generate_presentation_content W self topic0 document_content st
      = _generate_fallback_content W topic0 st1 ->
    exists p st',
      generate_presentation_content W self topic0 document_content st = (inr p, st') /\
      files st' = files st /\
      (is_fallback W topic0 p st' \/ exists ds, slides p = map slide_defaults ds) /\
      (api_key self <> [] ->
       new_events st st' = [GeminiCall prompt] \/
       (exists msg exc, new_events st st' = [GeminiCall prompt; StError msg exc]
                        /\ is_fallback W topic0 p st'))).
  { intros st1 evs Htrace Hfiles Hevs Hrun.
    destruct (fallback_run W topic0 st1) as (p & Hfb & _).
    exists p, st1. rewrite Hrun. split; [exact Hfb|]. split; [exact Hfiles|].
    split; [now left|]. intros Hkey.
    rewrite (new_events_app st st1 evs Htrace).
    destruct (Hevs Hkey) as [->|(msg & exc & ->)]; [now left|].
    right. exists msg, exc. now split. }
  assert (Hcases : api_key self = [] \/ api_key self <> [])
    by (destruct (api_key self); [now left | right; discriminate]).
  destruct Hcases as [Hkey|Hkey].
  { apply (Hfall (log (StError (lit "Please provide a valid Gemini API key") None) st)
                 [StError (lit "Please provide a valid Gemini API key") None]);
      [reflexivity | reflexivity | intros H; contradiction
      | now apply generate_without_key]. }
  pose proof (generate_presentation_content_run W self topic0 document_content st Hkey)
    as Hrun.
  cbv zeta in Hrun. fold prompt in Hrun.
  assert (Hreport : forall msg exc,
    generate_presentation_content W self topic0 document_content st
      = _generate_fallback_content W topic0
          (log (StError msg exc) (log (GeminiCall prompt) st)) ->
    exists p st',
      generate_presentation_content W self topic0 document_content st = (inr p, st') /\
      files st' = files st /\
      (is_fallback W topic0 p st' \/ exists ds, slides p = map slide_defaults ds) /\
      (api_key self <> [] ->
       new_events st st' = [GeminiCall prompt] \/
       (exists msg exc, new_events st st' = [GeminiCall prompt; StError msg exc]
                        /\ is_fallback W topic0 p st'))).
  { intros msg exc H.
    apply (Hfall (log (StError msg exc) (log (GeminiCall prompt) st))
                 [GeminiCall prompt; StError msg exc]);
      [cbn [log trace]; now rewrite <- app_assoc | reflexivity
      | intros _; right; eauto | exact H]. }
  destruct (outcome_of W prompt (length (trace st))) as [| | |v];
    try (eapply Hreport; exact Hrun).
  destruct (truthy v).
  2:{ apply (Hfall (log (GeminiCall prompt) st) [GeminiCall prompt]);
        [reflexivity | reflexivity | intros _; now left | exact Hrun]. }
  destruct (decoded_value_cases topic0 v (log (GeminiCall prompt) st))
    as [(d & ds & _ & _ & Htry)|(e & Htry & _)]; cbv zeta in Htry.
  - rewrite Htry in Hrun. eexists. eexists. split; [exact Hrun|].
    split; [reflexivity|]. split; [right; now exists ds|].
    intros _. left. apply new_events_log.
  - rewrite Htry in Hrun. eapply Hreport. exact Hrun.
Qed.

Lemma slide_defaults_lists_are_set (d : list (str * pyval)) :
  lists_are_set (slide_defaults d).
Proof.
  unfold lists_are_set, slide_defaults, SlideContent_init.
  cbn [image_urls reference_urls].
  destruct (dict_get d (lit "image_urls") (PList []));
    destruct (dict_get d (lit "reference_urls") (PList [])); split; discriminate.
Qed.

Lemma fallback_content_cases_for_lists (topic0 : str) (st : state) :
  exists p, _generate_fallback_content W topic0 st = (inr p, st)
            /\ Forall lists_are_set (slides p).
Proof.
  eexists. split; [reflexivity|].
  repeat constructor; discriminate.
Qed.

(** X9: whatever the backend answers, no slide of the returned presentation
    has [None] for its image list or its reference list: a null entry
    decodes to the empty list. *)
Theorem returned_slides_have_their_lists (self : AIContentGenerator)
    (topic0 document_content : str) (st : state) :
  exists p st',
    generate_presentation_content W self topic0 document_content st = (inr p, st') /\
    Forall lists_are_set (slides p).
Proof.
  destruct (generate_presentation_content_cases self topic0 document_content st)
    as (p & st' & Hrun & _ & Hshape & _).
  exists p, st'. split; [exact Hrun|].
  destruct Hshape as [Hfb|(ds & ->)].
  - unfold is_fallback in Hfb.
    destruct (fallback_content_cases_for_lists topic0 st') as (p' & Hrun' & Hall).
    rewrite Hrun' in Hfb. injection Hfb as <-. exact Hall.
  - apply Forall_forall. intros s Hin. apply in_map_iff in Hin as (d & <- & _).
    apply slide_defaults_lists_are_set.
Qed.

(** X10: with a credential, one generation calls the backend exactly once,
    with the prompt of the prompt builder, and never again; it reports at
    most one error, and when it reports one the result is the fallback.
    No file is touched. *)
Theorem one_backend_call_per_generation (self : AIContentGenerator)
    (topic0 document_content : str) (st : state) :
  api_key self <> [] ->
  let prompt := create_presentation_prompt topic0 document_content in
  exists p st',
    generate_presentation_content W self topic0 document_content st = (inr p, st') /\
    files st' = files st /\
    (new_events st st' = [GeminiCall prompt] \/
     (exists msg exc, new_events st st' = [GeminiCall prompt; StError msg exc]
                      /\ is_fallback W topic0 p st')).
Proof.
  intros Hkey prompt.
  destruct (generate_presentation_content_cases self topic0 document_content st)
    as (p & st' & Hrun & Hfiles & _ & Hevents).
  exists p, st'. split; [exact Hrun|]. split; [exact Hfiles|]. now apply Hevents.
Qed.

End Parsing.

(** ** The size of the prompt *)

(** X11: however long the document, the prompt is the fixed preamble
    followed by at most 3043 characters and the topic: the document
    contributes at most 3003 of them. *)
Theorem prompt_length_is_bounded (topic0 document_content : str) :
  exists rest,
    create_presentation_prompt topic0 document_content = base_prompt ++ rest /\
    length rest <= 3043 + length topic0 /\
    length (create_presentation_prompt topic0 document_content)
    <= 4577 + length topic0.
Proof.
  assert (Hbase : length base_prompt = 1534) by (vm_compute; reflexivity).
  assert (Hrest : exists rest,
    create_presentation_prompt topic0 document_content = base_prompt ++ rest /\
    length rest <= 3043 + length topic0).
  { unfold create_presentation_prompt.
    destruct (truthy (PStr document_content)).
    - eexists. split; [reflexivity|].
      assert (Hpreview :
        length (if len_gt document_content 3000
                then slice document_content 0 3000 ++ ellipsis
                else document_content) <= 3003).
      { unfold len_gt.
        destruct (Z.gtb_spec (Z.of_nat (length document_content)) 3000).
        - change 3000%Z with (Z.of_nat 3000). rewrite slice_prefix, length_app.
          rewrite length_firstn. change (length ellipsis) with 3. lia.
        - lia. }
      rewrite !length_app.
      change (length [newline; newline]) with 2.
      change (length (lit "Document Content to Analyze:")) with 28.
      change (length [newline]) with 1.
      change (length (lit "Topic: ")) with 7. lia.
    - eexists. split; [reflexivity|].
      rewrite !length_app.
      change (length [newline; newline]) with 2.
      change (length (lit "Topic to Present: ")) with 18.
      change (length (lit "Generate comprehensive content based on your knowledge with relevant examples, statistics, and references."))
        with 106.
      lia. }
  destruct Hrest as (rest & Hprompt & Hlen).
  exists rest. split; [exact Hprompt|]. split; [exact Hlen|].
  rewrite Hprompt, length_app, Hbase. lia.
Qed.

(** ** More on rendering *)

Section Rendering.

Variable W : World.

(** X12: [download_image] never calls [st.error], and it raises only when
    the [print] of its handler raises: the exception is then the one of
    [print].  It returns a file only when the download went through; when
    the download breaks off after the temporary file was created, the file
    stays on disk. *)
Theorem download_image_outcomes (url : pyval) (st : state) :
  let p := fresh_name (files st) in
  exists r st',
    download_image W url st = (r, st') /\
    forallb (fun e => negb (is_st_error e)) (new_events st st') = true /\
    ~ In p (files st) /\
    match requests_get W (length (trace st)) url with
    | FetchDone =>
        r = inr (Some p) /\ files st' = p :: files st /\
        new_events st st' = [HttpGet url; TempFileCreated p]
    | FetchInterrupted =>
        files st' = p :: files st /\
        match print_raises W url LibraryError with
        | None =>
            r = inr None /\
            new_events st st'
            = [HttpGet url; TempFileCreated p;
               ConsolePrint (lit "Error downloading image ") url LibraryError]
        | Some e => r = inl e /\ new_events st st' = [HttpGet url; TempFileCreated p]
        end
    | FetchFailed =>
        files st' = files st /\
        match print_raises W url LibraryError with
        | None =>
            r = inr None /\
            new_events st st'
            = [HttpGet url; ConsolePrint (lit "Error downloading image ") url LibraryError]
        | Some e => r = inl e /\ new_events st st' = [HttpGet url]
        end
    end.
Proof.
  intros p. rewrite download_image_run. cbv zeta. fold p.
  destruct (requests_get W (length (trace st)) url);
    try destruct (print_raises W url LibraryError);
    eexists; eexists; (split; [reflexivity|]);
    (erewrite new_events_app by reflexivity);
    (split; [reflexivity|]); (split; [apply fresh_name_is_fresh|]);
    repeat split.
Qed.

(** *** Slides that cannot be rendered *)


Lemma content_slide_rejected_title (s : SlideContent) (i : nat) (st : state) (e : exn) :
  Paragraph_raises W (title s) SlideTitle = Some e ->
  _create_enhanced_content_slide W s i st = (inl e, st).
Proof.
  intros Htitle. unfold _create_enhanced_content_slide. cbv zeta.
  erewrite bind_raise by (apply Paragraph_new_raises; exact Htitle). reflexivity.
Qed.

Lemma story_loop_aborts (pd : PresentationData) (n : nat) (s : SlideContent)
    (back : list SlideContent) (e : exn) (front : list SlideContent) :
  (forall i st0, _create_enhanced_content_slide W s i st0 = (inl e, st0)) ->
  forall (i : nat) (story : list flowable) (st : state),
    forallb well_typed_slide front = true ->
    pages_accepted W pd i front = true ->
    forallb (printable W) (requests_from i front) = true ->
    1 <= i + length front ->
    story_loop W pd n i (front ++ s :: back) story st
    = (inl e, snd (pages_from W pd i front st)).
Proof.
  intros Hraise. induction front as [|s0 front IH]; intros i story st Hty Hacc Hpr Hpos.
  - cbn [app story_loop pages_from snd]. unfold bind at 1.
    destruct i as [|i]; [simpl in Hpos; lia|]. cbn [Nat.eqb].
    rewrite Hraise. reflexivity.
  - cbn [forallb] in Hty. apply andb_true_iff in Hty as [Hs0 Hfront].
    cbn [pages_accepted] in Hacc. apply andb_true_iff in Hacc as [Hacc Haccs].
    cbn [requests_from] in Hpr. rewrite forallb_app in Hpr.
    apply andb_true_iff in Hpr as [Hpr Hprs].
    cbn [app story_loop]. unfold bind at 1. rewrite slide_run by assumption.
    rewrite IH by (assumption || (cbn [length] in Hpos; lia)).
    cbn [pages_from].
    destruct (pages_from W pd (S i) front
                (snd (run_attempts W st (slide_requests i s0)))) as [pages st'].
    reflexivity.
Qed.

(** A slide after the first that cannot be laid out stops the rendering
    after the images of the slides before it. *)
Lemma rendering_aborts (pd : PresentationData) (front back : list SlideContent)
    (s : SlideContent) (e : exn) (st : state) :
  slides pd = front ++ s :: back ->
  front <> [] ->
  forallb well_typed_slide front = true ->
  pages_accepted W pd 0 front = true ->
  forallb (printable W) (requests_from 0 front) = true ->
  (forall i st0, _create_enhanced_content_slide W s i st0 = (inl e, st0)) ->
  let st' := snd (run_attempts W st (requests_from 0 front)) in
  create_presentation_story W pd st = (inl e, st') /\
  create_presentation W pd st = (inl e, st') /\
  main_pdf_download W pd st
  = (inr None, log (StError (lit "Error generating PDF: ") (Some e)) st').
Proof.
  intros Hslides Hfront Hty Hacc Hpr Hraise st'.
  assert (Hstory : create_presentation_story W pd st = (inl e, st')).
  { unfold create_presentation_story. rewrite Hslides.
    erewrite story_loop_aborts;
      [| exact Hraise | assumption | assumption | assumption
       | destruct front; [contradiction | simpl; lia]].
    destruct (pages_from_attempts W pd front 0 st) as [-> _]. reflexivity. }
  assert (Hdoc : create_presentation W pd st = (inl e, st'))
    by (unfold create_presentation; erewrite bind_raise by exact Hstory; reflexivity).
  split; [exact Hstory|]. split; [exact Hdoc|].
  unfold main_pdf_download, try_except.
  erewrite bind_raise by exact Hdoc. reflexivity.
Qed.


(** X18: a title that [Paragraph] does not accept aborts the rendering.
    For the topic on the title page this happens before anything is
    requested; for the title of a later slide, after the images of the
    slides before it and before any of its own.  In both cases
    [doc.build] is not reached and the download block reports the
    exception of [Paragraph]. *)
Theorem rejected_title_aborts_rendering (pd : PresentationData) (e : exn) (st : state) :
  (slides pd <> [] ->
   Paragraph_raises W (PStr (topic pd)) TitleSlide = Some e ->
   create_presentation_story W pd st = (inl e, st) /\
   create_presentation W pd st = (inl e, st) /\
   main_pdf_download W pd st
   = (inr None, log (StError (lit "Error generating PDF: ") (Some e)) st)) /\
  (forall front s back,
      slides pd = front ++ s :: back ->
      front <> [] ->
      forallb well_typed_slide front = true ->
      pages_accepted W pd 0 front = true ->
      forallb (printable W) (requests_from 0 front) = true ->
      Paragraph_raises W (title s) SlideTitle = Some e ->
      let st' := snd (run_attempts W st (requests_from 0 front)) in
      create_presentation_story W pd st = (inl e, st') /\
      create_presentation W pd st = (inl e, st') /\
      main_pdf_download W pd st
      = (inr None, log (StError (lit "Error generating PDF: ") (Some e)) st')).
Proof.
  split.
  - intros Hslides Htopic.
    assert (Hstory : create_presentation_story W pd st = (inl e, st)).
    { unfold create_presentation_story.
      destruct (slides pd) as [|s0 rest]; [contradiction|].
      cbn [story_loop Nat.eqb]. unfold _create_enhanced_title_slide. cbv zeta.
      erewrite bind_raise
        by (erewrite bind_raise by (apply Paragraph_new_raises; exact Htopic);
            reflexivity).
      reflexivity. }
    assert (Hdoc : create_presentation W pd st = (inl e, st))
      by (unfold create_presentation; erewrite bind_raise by exact Hstory; reflexivity).
    split; [exact Hstory|]. split; [exact Hdoc|].
    unfold main_pdf_download, try_except.
    erewrite bind_raise by exact Hdoc. reflexivity.
  - intros front s back Hslides Hfront Hty Hacc Hpr Htitle.
    exact (@rendering_aborts pd front back s e st Hslides Hfront Hty Hacc Hpr
             (fun i st0 => @content_slide_rejected_title s i st0 e Htitle)).
Qed.

(** X19: an address whose failure cannot be printed aborts the rendering.
    When the request for an image fails and the [print] of the handler
    raises, the exception leaves [download_image] and the image step of
    the slide, whose [try] does not cover the download; nothing is
    printed, and no temporary file is created. *)
Theorem unprintable_failure_escapes (content : list flowable) (url : pyval) (e : exn)
    (st : state) :
  requests_get W (length (trace st)) url = FetchFailed ->
  print_raises W url LibraryError = Some e ->
  let st' := log (HttpGet url) st in
  download_image W url st = (inl e, st') /\
  title_slide_image W content url st = (inl e, st') /\
  content_slide_image W content url st = (inl e, st') /\
  (forall more, for_fold (content_slide_image W) (url :: more) content st = (inl e, st')) /\
  files st' = files st.
Proof.
  intros Hget Hprint st'.
  assert (Hrun : download_image W url st = (inl e, st'))
    by (rewrite download_image_run; cbv zeta; now rewrite Hget, Hprint).
  split; [exact Hrun|]. split; [|split; [|split]].
  - unfold title_slide_image. erewrite bind_raise by exact Hrun. reflexivity.
  - unfold content_slide_image. erewrite bind_raise by exact Hrun. reflexivity.
  - intros more. cbn [for_fold].
    erewrite bind_raise
      by (unfold content_slide_image; erewrite bind_raise by exact Hrun; reflexivity).
    reflexivity.
  - reflexivity.
Qed.

(** *** What a page shows *)

Lemma paragraphs_in_app (sty : style) (a b : list flowable) :
  paragraphs_in sty (a ++ b) = paragraphs_in sty a ++ paragraphs_in sty b.
Proof.
  induction a as [|f a IH]; [reflexivity|].
  destruct f; cbn [app paragraphs_in]; try exact IH.
  destruct (style_eqb sty sty0); cbn [app]; now rewrite IH.
Qed.

Lemma paragraphs_in_bullet_lines (sty sty' : style) (items : list pyval) :
  paragraphs_in sty (bullet_lines W sty' items)
  = if style_eqb sty sty' then bulleted W items else [].
Proof.
  induction items as [|v items IH]; [now destruct (style_eqb sty sty')|].
  cbn [bullet_lines bulleted map paragraphs_in].
  change (map (fun v0 => Paragraph (PStr (bullet ++ format_value W v0)) sty') items)
    with (bullet_lines W sty' items).
  rewrite IH. destruct (style_eqb sty sty'); reflexivity.
Qed.

Lemma paragraphs_in_images (sty : style) (attempts : list attempt) :
  paragraphs_in sty (flat_map title_image attempts) = [] /\
  paragraphs_in sty (flat_map content_image attempts) = [].
Proof.
  induction attempts as [|a attempts [IHt IHc]]; [split; reflexivity|].
  cbn [flat_map]. rewrite !paragraphs_in_app, IHt, IHc.
  destruct a; split; reflexivity.
Qed.

(** X14: for a slide of the data model whose texts [Paragraph] accepts,
    the page of a slide after the first shows the slide's title, its
    bullet points in order, and its reference addresses in order under
    their heading; the title page shows the topic, the bullet points and
    the date, and neither the references nor the title of its slide. *)
Theorem pages_show_bullets_and_references (pd : PresentationData) (s : SlideContent)
    (i : nat) (st : state) :
  well_typed_slide s = true ->
  forallb (printable W) (firstn 2 (items_of (image_urls s))) = true ->
  (forallb (accepted W) (content_slide_head W s ++ content_slide_foot W s) = true ->
   exists page st',
     _create_enhanced_content_slide W s i st = (inr page, st') /\
     paragraphs_in SlideTitle page = [title s] /\
     paragraphs_in BulletPoint page
     = bulleted W (items_of (bullet_points s))
         ++ (if truthy (reference_urls s)
             then [PStr (lit "<b>References & Further Reading:</b>")] else []) /\
     paragraphs_in URLStyle page = bulleted W (items_of (reference_urls s)) /\
     paragraphs_in TitleSlide page = []) /\
  (forallb (accepted W) (title_slide_head W s pd ++ title_slide_foot W pd) = true ->
   exists page st',
     _create_enhanced_title_slide W s pd st = (inr page, st') /\
     paragraphs_in TitleSlide page = [PStr (topic pd)] /\
     paragraphs_in BulletPoint page = bulleted W (items_of (bullet_points s)) /\
     paragraphs_in URLStyle page
     = [PStr (lit "Generated: " ++ strftime W (generated_at pd))] /\
     paragraphs_in SlideTitle page = []).
Proof.
  intros Hty Hpr. split; intros Hacc.
  - pose proof (content_slide_run W s i st Hty Hacc Hpr) as Hrun. cbv zeta in Hrun.
    eexists. eexists. split; [exact Hrun|].
    unfold content_slide_head, content_slide_foot.
    repeat split;
      rewrite !paragraphs_in_app, !paragraphs_in_bullet_lines,
        (proj2 (paragraphs_in_images _ _));
      destruct (truthy (additional_info s)), (truthy (reference_urls s)) eqn:Hrefs;
      rewrite ?paragraphs_in_app, ?paragraphs_in_bullet_lines;
      cbn [paragraphs_in style_eqb app]; rewrite ?app_nil_r; try reflexivity.
    all: destruct (well_typed_slide_lists s Hty) as (_ & _ & Hlist);
      rewrite Hlist in Hrefs; rewrite truthy_list in Hrefs;
      destruct (items_of (reference_urls s)); [reflexivity | discriminate].
  - assert (Hpr1 : forallb (printable W) (firstn 1 (items_of (image_urls s))) = true).
    { destruct (items_of (image_urls s)) as [|u l]; [reflexivity|].
      cbn [firstn forallb] in *. apply andb_true_iff in Hpr as [-> _]. reflexivity. }
    pose proof (title_slide_run W s pd st Hty Hacc Hpr1) as Hrun. cbv zeta in Hrun.
    eexists. eexists. split; [exact Hrun|].
    unfold title_slide_head, title_slide_foot.
    repeat split;
      rewrite !paragraphs_in_app, !paragraphs_in_bullet_lines,
        (proj1 (paragraphs_in_images _ _));
      destruct (truthy (additional_info s));
      cbn [paragraphs_in style_eqb app]; rewrite ?app_nil_r; reflexivity.
Qed.

(** *** The download *)

Lemma download_name_facts (pd : PresentationData) :
  ~ In space (download_name pd) /\
  length (download_name pd) = length (topic pd) + 13.
Proof.
  unfold download_name, str_replace_char. split.
  - intros Hin. apply in_app_or in Hin as [Hin|Hin].
    + apply in_map_iff in Hin as (c & Hc & _).
      destruct (N.eqb c space) eqn:Heq; [discriminate Hc|].
      apply N.eqb_neq in Heq. congruence.
    + revert Hin. apply not_in_by_computation. reflexivity.
  - rewrite length_app, length_map. reflexivity.
Qed.

(** X15: the download block never raises.  The name offered is the topic
    with its spaces replaced by underscores and the suffix
    [_enhanced.pdf].  For a presentation of the data model whose texts
    [Paragraph] accepts and whose addresses can be printed, the document is
    offered exactly when the build of its story succeeds; when the build
    raises, the failure is reported with [st.error] and nothing is
    offered. *)
Theorem pdf_download_never_raises (pd : PresentationData) (st : state) :
  (exists r st', main_pdf_download W pd st = (inr r, st')) /\
  ~ In space (download_name pd) /\
  length (download_name pd) = length (topic pd) + 13 /\
  (well_typed pd = true ->
   paragraphs_accepted W pd = true ->
   addresses_printable W pd = true ->
   exists story st1,
     create_presentation_story W pd st = (inr story, st1) /\
     main_pdf_download W pd st =
     match SimpleDocTemplate_build W story st1 with
     | (inr pdf, _) => (inr (Some (pdf, download_name pd)), st1)
     | (inl e, _) =>
         (inr None, log (StError (lit "Error generating PDF: ") (Some e)) st1)
     end).
Proof.
  destruct (download_name_facts pd) as [Hspace Hlen].
  split; [|split; [exact Hspace | split; [exact Hlen|]]].
  - unfold main_pdf_download, try_except, bind at 1.
    destruct (create_presentation W pd st) as [[e|pdf] st1]; eexists; eexists; reflexivity.
  - intros Hty Hacc Hpr.
    pose proof (create_presentation_story_run W pd st Hty Hacc Hpr) as Hrun.
    eexists. eexists. split; [exact Hrun|].
    unfold main_pdf_download, try_except, bind at 1.
    unfold create_presentation. erewrite bind_run by exact Hrun.
    destruct (build_outcome W (join_pages (fst (pages_from W pd 0 (slides pd) st)))
                (snd (pages_from W pd 0 (slides pd) st))) as [[e|pdf] ->]; reflexivity.
Qed.

End Rendering.

(** ** Two more compositions *)

Section Compositions.

Variable W : World.

(** X16: a text file is handed on as it was decoded, without trimming: a
    file of blanks is a document for the generator, where a PDF of blank
    pages is none. *)
Theorem text_file_is_not_trimmed (file : UploadedFile) (text : str)
    (ai_generator : AIContentGenerator) (topic0 : str) (st : state) :
  file_type file = mime_txt ->
  decode_utf8 W (file_bytes file) = Some text ->
  process_uploaded_file W (Some file) st = (inr text, st) /\
  main_generate W ai_generator UploadDocument topic0 (Some file) st
  = generate_presentation_content W ai_generator topic0 text st /\
  (text <> [] ->
   create_presentation_prompt topic0 text
   = base_prompt ++ [newline; newline] ++ lit "Document Content to Analyze:" ++ [newline]
       ++ (if len_gt text 3000 then slice text 0 3000 ++ ellipsis else text)
       ++ [newline; newline] ++ lit "Topic: " ++ topic0).
Proof.
  intros Htype Hdecode.
  assert (Hrun : process_uploaded_file W (Some file) st = (inr text, st)).
  { unfold process_uploaded_file. rewrite Htype.
    change (str_eqb mime_txt (lit "application/pdf")) with false.
    change (str_eqb mime_txt
              (lit "application/vnd.openxmlformats-officedocument.wordprocessingml.document"))
      with false.
    change (str_eqb mime_txt (lit "text/plain")) with true. cbv iota.
    unfold extract_text_from_txt, try_except. now rewrite Hdecode. }
  split; [exact Hrun|]. split.
  - unfold main_generate, main_document_content. unfold bind at 1. now rewrite Hrun.
  - intros Hne. unfold create_presentation_prompt.
    apply truthy_str_nonempty in Hne. now rewrite Hne.
Qed.

(** X17: a decoded object without [slides] ends in an empty document: the
    presentation has no slide, the story handed to [doc.build] is empty,
    no image is requested, and the download block offers whatever
    [doc.build] makes of the empty story. *)
Theorem missing_slides_render_nothing (self : AIContentGenerator)
    (topic0 document_content : str) (st : state) (d : list (str * pyval)) :
  api_key self <> [] ->
  let prompt := create_presentation_prompt topic0 document_content in
  let st1 := log (GeminiCall prompt) st in
  outcome_of W prompt (length (trace st)) = Decoded (PDict d) ->
  d <> [] ->
  has_key d (lit "slides") = false ->
  exists p,
    generate_presentation_content W self topic0 document_content st = (inr p, st1) /\
    slides p = [] /\
    create_presentation_story W p st1 = (inr [], st1) /\
    main_pdf_download W p st1 =
    match doc_build W [] with
    | Some pdf => (inr (Some (pdf, download_name p)), st1)
    | None =>
        (inr None, log (StError (lit "Error generating PDF: ") (Some LibraryError)) st1)
    end.
Proof.
  intros Hkey prompt st1 Hout Hne Hno.
  eexists. split.
  - rewrite (generate_presentation_content_run W self topic0 document_content st Hkey).
    cbv zeta. fold prompt. rewrite Hout.
    apply truthy_dict_nonempty in Hne. rewrite Hne. fold st1.
    erewrite try_except_run
      by (cbn [py_get]; rewrite bind_lift_inr, (dict_get_absent _ _ _ Hno);
          cbn [py_iter]; rewrite bind_lift_inr; reflexivity).
    reflexivity.
  - split; [reflexivity|]. split; [reflexivity|].
    unfold main_pdf_download, try_except, bind at 1.
    unfold create_presentation, bind at 1.
    cbn [create_presentation_story slides length story_loop ret].
    unfold SimpleDocTemplate_build. cbn [image_files forallb].
    destruct (doc_build W []); reflexivity.
Qed.

End Compositions.

(** ** The further properties at work *)

(** Two pages with blanks around their words. *)
Lemma pdf_and_docx_text_is_trimmed_witness :
  extract_text_from_pdf (reading [lit "  Hello "; lit "world  "]) pdf_file initial
  = (inr (lit "Hello " ++ [newline] ++ lit "world"), initial) /\
  extract_text_from_docx (reading [lit "  Hello "; lit "world  "]) pdf_file initial
  = (inr (lit "Hello " ++ [newline] ++ lit "world"), initial).
Proof.
  destruct (@pdf_and_docx_text_is_trimmed (reading [lit "  Hello "; lit "world  "])
              pdf_file initial) as [Hpdf Hdocx].
  destruct (Hpdf _ eq_refl) as (text & pre & post & Hrun & _).
  destruct (Hdocx _ eq_refl) as (text' & pre' & post' & Hrun' & _).
  split.
  - rewrite Hrun. vm_compute in Hrun. injection Hrun as <-. vm_compute. reflexivity.
  - rewrite Hrun'. vm_compute in Hrun'. injection Hrun' as <-. vm_compute. reflexivity.
Defined.

(** A PDF of two blank pages. *)
Lemma blank_pdf_is_no_document_witness :
  process_uploaded_file (reading [lit "  "; lit " "]) (Some pdf_file) initial
  = (inr [], initial) /\
  main_generate (reading [lit "  "; lit " "]) keyed UploadDocument (lit "Sales")
                (Some pdf_file) initial
  = main_generate (reading [lit "  "; lit " "]) keyed TopicOnly (lit "Sales") None initial.
Proof.
  exact (@blank_pdf_is_no_document (reading [lit "  "; lit " "]) pdf_file
           [lit "  "; lit " "] keyed (lit "Sales") initial eq_refl eq_refl eq_refl).
Defined.

(** A table of two rows and two columns. *)
Lemma readable_csv_is_a_document_witness :
  exists summary,
    process_uploaded_file (reading []) (Some csv_file) initial = (inr summary, initial) /\
    summary = lit "Dataset Summary:" ++ [newline] ++ lit "Shape: 2 rows, 2 columns"
                ++ [newline] ++ lit "Columns: year, cost" ++ [newline; newline]
                ++ lit "Data Overview:" ++ [newline] ++ lit "(statistics)".
Proof.
  destruct (@readable_csv_is_a_document (reading []) csv_file 2 2 [lit "year"; lit "cost"]
              (lit "(statistics)") keyed (lit "Sales") initial eq_refl eq_refl)
    as (summary & Hrun & Hsummary & _).
  exists summary. split; [exact Hrun|]. rewrite Hsummary. reflexivity.
Defined.

(** The payload of a response with prose around its object. *)
Lemma json_payload_shape_witness :
  exists pre mid post,
    prose_reply = pre ++ qjoin ["{"; "a"; ": 1}"] ++ post /\
    qjoin ["{"; "a"; ": 1}"] = lbrace :: mid ++ [rbrace] /\
    json_payload (qjoin ["{"; "a"; ": 1}"]) = Some (qjoin ["{"; "a"; ": 1}"]).
Proof.
  destruct (@json_payload_shape prose_reply (qjoin ["{"; "a"; ": 1}"]) eq_refl)
    as (pre & mid & post & Hsplit & Hshape & _ & _ & _ & Hagain).
  exists pre, mid, post. split; [exact Hsplit|]. split; [exact Hshape | exact Hagain].
Defined.

(** A fenced object with braces in the commentary on both sides. *)
Lemma fenced_payload_ignores_commentary_witness :
  strip_fence (strip fenced_reply) = qjoin ["{"; "slides"; ": [{}]}"] /\
  generate_with_gemini fenced_world (lit "prompt") initial
  = (inr one_slide_object, log (GeminiCall (lit "prompt")) initial).
Proof.
  assert (Hpre : ~ In backtick (lit "Here {it} is: "))
    by (apply not_in_by_computation; reflexivity).
  assert (Hbody : ~ In backtick (qjoin [" {"; "slides"; ": [{}]} "]))
    by (apply not_in_by_computation; reflexivity).
  assert (Hpost : ~ In backtick (lit " {done}"))
    by (apply not_in_by_computation; reflexivity).
  exact (@fenced_payload_ignores_commentary fenced_world (lit "prompt") fenced_reply
           (lit "Here {it} is: ") (qjoin [" {"; "slides"; ": [{}]} "]) (lit " {done}")
           initial eq_refl eq_refl Hpre Hbody Hpost).
Defined.

(** One slide object without entries: a slide of defaults. *)
Lemma decoded_slides_in_order_witness :
  generate_presentation_content fenced_world keyed (lit "Sales") [] initial
  = (inr {| slides := [slide_defaults []]; topic := lit "Sales"; generated_at := 0%Z |},
     log (GeminiCall (create_presentation_prompt (lit "Sales") [])) initial).
Proof.
  assert (Hkey : api_key keyed <> []) by discriminate.
  assert (Hne : [(lit "slides", PList [PDict []])] <> []) by discriminate.
  assert (Hout : outcome_of fenced_world (create_presentation_prompt (lit "Sales") [])
                            (length (trace initial)) = Decoded one_slide_object)
    by (vm_compute; reflexivity).
  exact (@decoded_slides_in_order fenced_world keyed (lit "Sales") [] initial
           [(lit "slides", PList [PDict []])] [[]] Hkey Hout Hne eq_refl).
Defined.

(** A slide list whose second item is the number 7. *)
Lemma one_bad_slide_discards_all_witness :
  exists p st',
    generate_presentation_content broken_world keyed (lit "Sales") [] initial = (inr p, st') /\
    is_fallback broken_world (lit "Sales") p st' /\
    length (slides p) = 4.
Proof.
  assert (Hkey : api_key keyed <> []) by discriminate.
  assert (Hne : [(lit "slides", PList [PDict [(lit "title", PStr (lit "Fine"))]; PInt 7])]
                <> []) by discriminate.
  assert (Hout : outcome_of broken_world (create_presentation_prompt (lit "Sales") [])
                            (length (trace initial)) = Decoded broken_object)
    by (vm_compute; reflexivity).
  destruct (@one_bad_slide_discards_all broken_world keyed (lit "Sales") [] initial
              [(lit "slides", PList [PDict [(lit "title", PStr (lit "Fine"))]; PInt 7])]
              [PDict [(lit "title", PStr (lit "Fine"))]; PInt 7]
              Hkey Hout Hne eq_refl eq_refl) as (p & Hrun & Hfb & Hlen).
  eexists. eexists. split; [exact Hrun|]. split; [exact Hfb | exact Hlen].
Defined.

(** An unreachable backend: one call and at most one report. *)
Lemma one_backend_call_per_generation_witness :
  exists p st',
    generate_presentation_content offline keyed (lit "Sales") [] initial = (inr p, st') /\
    files st' = files initial /\
    hd_error (new_events initial st')
    = Some (GeminiCall (create_presentation_prompt (lit "Sales") [])) /\
    length (new_events initial st') <= 2.
Proof.
  assert (Hkey : api_key keyed <> []) by discriminate.
  destruct (@one_backend_call_per_generation offline keyed (lit "Sales") [] initial Hkey)
    as (p & st' & Hrun & Hfiles & Hevents).
  exists p, st'. split; [exact Hrun|]. split; [exact Hfiles|].
  destruct Hevents as [->|(msg & exc & -> & _)]; split; simpl; auto.
Defined.


(** The page of a content slide with two bullet points and one reference. *)
Lemma pages_show_bullets_and_references_witness :
  exists page st',
    _create_enhanced_content_slide flaky costs_slide 1 initial = (inr page, st') /\
    paragraphs_in BulletPoint page
    = [PStr (bullet ++ lit "Capital"); PStr (bullet ++ lit "Upkeep");
       PStr (lit "<b>References & Further Reading:</b>")] /\
    paragraphs_in URLStyle page = [PStr (bullet ++ lit "https://example.com/costs")].
Proof.
  destruct (@pages_show_bullets_and_references flaky energy_deck costs_slide 1 initial
              eq_refl eq_refl) as (Hcontent & _).
  destruct (Hcontent eq_refl) as (page & st' & Hrun & _ & Hbullets & Hrefs & _).
  exists page, st'. split; [exact Hrun|]. split; [exact Hbullets | exact Hrefs].
Defined.

(** A presentation without images, whose document builds. *)
Lemma pdf_download_never_raises_witness :
  exists st',
    main_pdf_download offline welcome_deck initial
    = (inr (Some ([], lit "Energy_enhanced.pdf")), st').
Proof.
  destruct (@pdf_download_never_raises offline welcome_deck initial)
    as (_ & _ & _ & Htyped).
  destruct (Htyped eq_refl eq_refl eq_refl) as (story & st1 & Hstory & Hrun).
  exists st1. rewrite Hrun.
  vm_compute in Hstory. injection Hstory as <- <-. reflexivity.
Defined.

(** A topic and a title with unbalanced markup. *)
Lemma rejected_title_aborts_rendering_witness :
  main_pdf_download offline tagged_topic_deck initial
  = (inr None, log (StError (lit "Error generating PDF: ") (Some ValueError)) initial) /\
  main_pdf_download offline tagged_title_deck initial
  = (inr None, log (StError (lit "Error generating PDF: ") (Some ValueError)) initial).
Proof.
  destruct (@rejected_title_aborts_rendering offline tagged_topic_deck ValueError initial)
    as (Htopic & _).
  destruct (@rejected_title_aborts_rendering offline tagged_title_deck ValueError initial)
    as (_ & Htitle).
  assert (Hslides : slides tagged_topic_deck <> []) by discriminate.
  assert (Hfront : slides welcome_deck <> []) by discriminate.
  split.
  - exact (proj2 (proj2 (Htopic Hslides eq_refl))).
  - exact (proj2 (proj2 (Htitle (slides welcome_deck) tagged_slide [] eq_refl Hfront
                                eq_refl eq_refl eq_refl eq_refl))).
Defined.

(** An address with a lone surrogate, as [json.loads] can produce. *)
Lemma unprintable_failure_escapes_witness :
  title_slide_image offline [] surrogate_url initial
  = (inl UnicodeEncodeError, log (HttpGet surrogate_url) initial).
Proof.
  exact (proj1 (proj2 (@unprintable_failure_escapes offline [] surrogate_url UnicodeEncodeError
                         initial eq_refl eq_refl))).
Defined.

(** A text file of two blanks. *)
Lemma text_file_is_not_trimmed_witness :
  process_uploaded_file blank_text_world (Some txt_file) initial
  = (inr (lit "  "), initial) /\
  create_presentation_prompt (lit "Sales") (lit "  ")
  = base_prompt ++ [newline; newline] ++ lit "Document Content to Analyze:" ++ [newline]
      ++ lit "  " ++ [newline; newline] ++ lit "Topic: " ++ lit "Sales".
Proof.
  destruct (@text_file_is_not_trimmed blank_text_world txt_file (lit "  ") keyed
              (lit "Sales") initial eq_refl eq_refl) as (Hrun & _ & Hprompt).
  split; [exact Hrun|]. apply Hprompt. discriminate.
Defined.

(** The object [{"a": 1}] once more: nothing to render. *)
Lemma missing_slides_render_nothing_witness :
  exists p st1,
    generate_presentation_content no_slides_world keyed (lit "Sales") [] initial
    = (inr p, st1) /\
    create_presentation_story no_slides_world p st1 = (inr [], st1) /\
    main_pdf_download no_slides_world p st1
    = (inr (Some ([], lit "Sales_enhanced.pdf")), st1).
Proof.
  assert (Hkey : api_key keyed <> []) by discriminate.
  assert (Hne : [(lit "a", PInt 1)] <> []) by discriminate.
  assert (Hout : outcome_of no_slides_world (create_presentation_prompt (lit "Sales") [])
                            (length (trace initial)) = Decoded (PDict [(lit "a", PInt 1)]))
    by (vm_compute; reflexivity).
  destruct (@missing_slides_render_nothing no_slides_world keyed (lit "Sales") [] initial
              [(lit "a", PInt 1)] Hkey Hout Hne eq_refl)
    as (p & Hrun & Hslides & Hstory & Hdownload).
  eexists. eexists. split; [exact Hrun|]. split; [exact Hstory|].
  rewrite Hdownload. cbn [doc_build no_slides_world answering].
  assert (Htopic : download_name p = lit "Sales_enhanced.pdf").
  { pose proof Hrun as Hrun'. vm_compute in Hrun'. injection Hrun' as <-.
    vm_compute. reflexivity. }
  now rewrite Htopic.
Defined.
